(** * STM32 AES/ECC secure link: handshake and messaging loop

    A shallow embedding of [PROJECT.c] (STM32G4 + ATECC608B + wolfCrypt).
    The firmware is a single sequential control flow that talks to four
    external collaborators: the HAL (UART, RNG, delay), the secure element
    driver (cryptoauthlib, [atcab_*]), and wolfCrypt ([wc_*]).  Every call
    that leaves the translation unit is an element of [Call]; the platform is
    an arbitrary function answering those calls from a world state.  The
    C functions are written in a state monad over the global buffers that
    also collects the calls made, in order. *)

From Stdlib Require Import ZArith List Lia Bool.
From Stdlib Require Import Strings.Byte.
From Stdlib Require String.
Import ListNotations.
Local Open Scope Z_scope.

Set Implicit Arguments.

(** ** Bytes, buffers and machine integers *)

Definition bytes := list byte.

Definition byte_of_Z (z : Z) : byte :=
  match Byte.of_N (Z.to_N (z mod 256)) with
  | Some b => b
  | None => x00
  end.

(** [uint16_t] and [uint32_t]/[size_t] conversions (Cortex-M4: both
    [size_t] and [uint32_t] are 32 bits wide). *)
Definition uint16 (z : Z) : Z := z mod 2 ^ 16.
Definition uint32 (z : Z) : Z := z mod 2 ^ 32.

(** The object representation of a [uint32_t] on the little-endian target. *)
Definition le_bytes (x : Z) : bytes :=
  [ byte_of_Z x; byte_of_Z (Z.shiftr x 8);
    byte_of_Z (Z.shiftr x 16); byte_of_Z (Z.shiftr x 24) ].

(** [memcpy(&dst[off], src, n)]: the bytes of [src] that exist, at most
    [n] of them, replace the bytes of [dst] from offset [off]. *)
Definition memcpy (dst : bytes) (off : Z) (src : bytes) (n : Z) : bytes :=
  let w := firstn (Z.to_nat n) src in
  firstn (Z.to_nat off) dst ++ w ++ skipn (Z.to_nat off + length w) dst.

(** [memset(buf, 0, n)] on a buffer of [n] bytes. *)
Definition memset0 (n : Z) : bytes := repeat x00 (Z.to_nat n).

(** [buf[idx] = ch]. *)
Fixpoint store (buf : bytes) (idx : nat) (ch : byte) : bytes :=
  match buf, idx with
  | [], _ => []
  | _ :: t, O => ch :: t
  | h :: t, S i => h :: store t i ch
  end.

(** ** Constants of the translation unit *)

Definition PUB_KEY_SIZE : Z := 64.
Definition AES_KEY_SIZE : Z := 16.
Definition AES_IV_SIZE : Z := 12.
Definition AES_TAG_SIZE : Z := 16.
Definition SIGNATURE_SIZE : Z := 64.
Definition RX_BUFFER_SIZE : Z := 128.
Definition CHALLENGE_SIZE : Z := 32.
Definition MAX_RETRIES : Z := 3.
Definition COMM_TIMEOUT_MS : Z := 5000.
Definition DEVICE_KEY_SLOT : Z := 0.
Definition PEER_PUBKEY_SLOT : Z := 1.

(** Status codes of cryptoauthlib ([atca_status.h]) and constants of the
    HAL and wolfCrypt headers that the code names. *)
Definition ATCA_SUCCESS : Z := 0.
Definition ATCA_FUNC_FAIL : Z := 224.   (* 0xE0 *)
Definition ATCA_GEN_FAIL : Z := 225.    (* 0xE1 *)
Definition ATCA_RX_FAIL : Z := 230.     (* 0xE6 *)
Definition ATCA_TX_FAIL : Z := 247.     (* 0xF7 *)
Definition HAL_MAX_DELAY : Z := 4294967295.
Definition ECC_SECP256R1 : Z := 7.
Definition INVALID_DEVID : Z := -2.

Inductive HAL_StatusTypeDef := HAL_OK | HAL_ERROR | HAL_BUSY | HAL_TIMEOUT.

Definition is_HAL_OK (st : HAL_StatusTypeDef) : bool :=
  match st with HAL_OK => true | _ => false end.

Inductive UART_HandleTypeDef := huart1 (* console *) | huart2 (* SATCOM *).

Inductive GPIO_Port := GPIOA | GPIOB | GPIOC | GPIOF.

(** The HAL configuration calls of the bring-up code; each returns a
    [HAL_StatusTypeDef]. *)
Inductive SetupCall :=
| HAL_Init | HAL_PWREx_ControlVoltageScaling | HAL_RCC_OscConfig
| HAL_RCC_ClockConfig | HAL_RCC_GPIO_CLK_ENABLE (port : GPIO_Port)
| HAL_I2C_Init | HAL_I2CEx_ConfigAnalogFilter | HAL_I2CEx_ConfigDigitalFilter
| HAL_UART_Init (u : UART_HandleTypeDef)
| HAL_UARTEx_SetTxFifoThreshold (u : UART_HandleTypeDef)
| HAL_UARTEx_SetRxFifoThreshold (u : UART_HandleTypeDef)
| HAL_UARTEx_DisableFifoMode (u : UART_HandleTypeDef)
| HAL_RNG_Init.

(** ** External calls

    [Call R] is a call into the HAL, cryptoauthlib or wolfCrypt whose
    observable result has type [R]: the returned status together with the
    content of the output buffers after the call.  The hash, AES and ECC
    contexts are locals handed to wolfCrypt by address and never inspected
    by the firmware; they live on the platform side. *)
Inductive Call : Type -> Type :=
| HAL_Setup (f : SetupCall) : Call HAL_StatusTypeDef
| HAL_UART_Transmit (u : UART_HandleTypeDef) (data : bytes) (size timeout : Z)
  : Call HAL_StatusTypeDef
| HAL_UART_Receive (u : UART_HandleTypeDef) (size timeout : Z)
  : Call (HAL_StatusTypeDef * bytes)
| HAL_RNG_GenerateRandomNumber : Call (HAL_StatusTypeDef * Z)
| HAL_Delay (ms : Z) : Call unit
| disable_irq : Call unit
| atcab_init : Call Z
| atcab_genkey (slot : Z) : Call (Z * bytes)
| atcab_ecdh (slot : Z) (pubkey : bytes) : Call (Z * bytes)
| atcab_sign (slot : Z) (msg : bytes) : Call (Z * bytes)
| wc_InitSha256 : Call Z
| wc_Sha256Update (data : bytes) (len : Z) : Call Z
| wc_Sha256Final : Call (Z * bytes)
| wc_AesInit (devId : Z) : Call Z
| wc_AesGcmSetKey (key : bytes) (len : Z) : Call Z
| wc_AesGcmEncrypt (plain : bytes) (sz : Z) (nonce : bytes) (ivSz : Z)
    (authTagSz : Z) (authIn : bytes) (authInSz : Z) : Call (Z * bytes * bytes)
| wc_AesFree : Call unit
| wc_ecc_init : Call Z
| wc_ecc_import_x963 (pub : bytes) (inLen : Z) : Call Z
| wc_ecc_set_curve (keysize curve_id : Z) : Call Z
| wc_ecc_verify_hash (sig : bytes) (siglen : Z) (hash : bytes) (hashlen : Z)
  : Call (Z * Z)
| wc_ecc_free : Call Z.

(** One entry of the log: a call and what it answered. *)
Inductive Event := Ev (R : Type) (c : Call R) (r : R).

(** The platform answers every call from its own state. *)
Definition Platform (W : Type) := forall R, Call R -> W -> R * W.

(** ** Program state *)

(** The global buffers of [PROJECT.c]. *)
Record Globals := mkGlobals {
  device_pubkey : bytes;
  peer_pubkey : bytes;
  aes_key : bytes;
  rx_buffer : bytes;
  iv : bytes;
  challenge : bytes;
  peer_challenge : bytes
}.

Definition set_device_pubkey (v : bytes) (g : Globals) : Globals :=
  mkGlobals v (peer_pubkey g) (aes_key g) (rx_buffer g) (iv g)
            (challenge g) (peer_challenge g).
Definition set_peer_pubkey (v : bytes) (g : Globals) : Globals :=
  mkGlobals (device_pubkey g) v (aes_key g) (rx_buffer g) (iv g)
            (challenge g) (peer_challenge g).
Definition set_aes_key (v : bytes) (g : Globals) : Globals :=
  mkGlobals (device_pubkey g) (peer_pubkey g) v (rx_buffer g) (iv g)
            (challenge g) (peer_challenge g).
Definition set_rx_buffer (v : bytes) (g : Globals) : Globals :=
  mkGlobals (device_pubkey g) (peer_pubkey g) (aes_key g) v (iv g)
            (challenge g) (peer_challenge g).
Definition set_iv (v : bytes) (g : Globals) : Globals :=
  mkGlobals (device_pubkey g) (peer_pubkey g) (aes_key g) (rx_buffer g) v
            (challenge g) (peer_challenge g).
Definition set_challenge (v : bytes) (g : Globals) : Globals :=
  mkGlobals (device_pubkey g) (peer_pubkey g) (aes_key g) (rx_buffer g) (iv g)
            v (peer_challenge g).
Definition set_peer_challenge (v : bytes) (g : Globals) : Globals :=
  mkGlobals (device_pubkey g) (peer_pubkey g) (aes_key g) (rx_buffer g) (iv g)
            (challenge g) v.

(** Objects of static storage duration start zeroed. *)
Definition globals0 : Globals :=
  mkGlobals (memset0 PUB_KEY_SIZE) (memset0 PUB_KEY_SIZE) (memset0 AES_KEY_SIZE)
            (memset0 RX_BUFFER_SIZE) (memset0 AES_IV_SIZE)
            (memset0 CHALLENGE_SIZE) (memset0 CHALLENGE_SIZE).

Record State (W : Type) := mkState { world : W; mem : Globals }.

(** ** The monad

    A computation ends in one of three ways: it returns, it has entered
    [Error_Handler] (which never returns), or the loop budget given to the
    model is used up while the program is still running. *)
Inductive Outcome (A : Type) :=
| Ret (a : A)
| Halted
| OutOfFuel.
Arguments Halted {A}.
Arguments OutOfFuel {A}.

Definition M (W A : Type) := State W -> Outcome A * State W * list Event.

Definition ret {W A} (a : A) : M W A := fun s => (Ret a, s, []).

Definition bind {W A B} (m : M W A) (f : A -> M W B) : M W B :=
  fun s =>
    match m s with
    | (Ret a, s1, e1) =>
        match f a s1 with (o, s2, e2) => (o, s2, e1 ++ e2) end
    | (Halted, s1, e1) => (Halted, s1, e1)
    | (OutOfFuel, s1, e1) => (OutOfFuel, s1, e1)
    end.

Definition halt {W A} : M W A := fun s => (Halted, s, []).
Definition out_of_fuel {W A} : M W A := fun s => (OutOfFuel, s, []).

Definition load {W A} (f : Globals -> A) : M W A :=
  fun s => (Ret (f (mem s)), s, []).

Definition update {W} (f : Globals -> Globals) : M W unit :=
  fun s => (Ret tt, mkState (world s) (f (mem s)), []).

Declare Scope monad_scope.
Delimit Scope monad_scope with monad.
Notation "x <- m ;; k" := (bind m (fun x => k))
  (at level 61, m at next level, right associativity) : monad_scope.
Notation "m ;; k" := (bind m (fun _ => k))
  (at level 61, right associativity) : monad_scope.
Local Open Scope monad_scope.

Definition neqb (a b : Z) : bool := negb (a =? b).
Infix "!=?" := neqb (at level 70, no associativity) : Z_scope.

(** Content of a local array of [n] bytes after a callee wrote [out] into
    it.  The array is uninitialised before the call; bytes the callee did
    not write are taken to be zero. *)
Definition fill (n : Z) (out : bytes) : bytes := memcpy (memset0 n) 0 out n.

(** The console prompt of [receive_user_input] and its [strlen]. *)
Module Console.
Import String.
Definition prompt_text : string := "Enter message (max 128 chars):"%string.
End Console.

Definition prompt : bytes :=
  String.list_byte_of_string Console.prompt_text ++ [x0d; x0a].
Definition strlen (s : bytes) : Z := Z.of_nat (length s).

(** ** The firmware *)

Section Firmware.

Context {W : Type} (P : Platform W).

Abbreviation M := (M W).

(** A call into the platform: the world moves on and the call is logged
    with its answer. *)
Definition call {R} (c : Call R) : M R :=
  fun s =>
    match P c (world s) with
    | (r, w') => (Ret r, mkState w' (mem s), [Ev c r])
    end.

Definition when (b : bool) (m : M unit) : M unit :=
  if b then m else ret tt.

(** [void Error_Handler(void) { __disable_irq(); while (1) {} }] *)
Definition Error_Handler {A} : M A :=
  call disable_irq ;; halt.

(** [int generate_and_store_keypair(void)] *)
Definition generate_and_store_keypair : M Z :=
  r <- call (atcab_genkey DEVICE_KEY_SLOT) ;;
  update (fun g => set_device_pubkey
                     (memcpy (device_pubkey g) 0 (snd r) PUB_KEY_SIZE) g) ;;
  ret (fst r).

(** [int receive_data(uint8_t *buf, uint16_t len)]: returns the status and
    the content of [buf] after the call. *)
Definition receive_data (buf : bytes) (len : Z) : M (Z * bytes) :=
  let len := uint16 len in
  r <- call (HAL_UART_Receive huart2 len COMM_TIMEOUT_MS) ;;
  ret (if is_HAL_OK (fst r) then ATCA_SUCCESS else ATCA_RX_FAIL,
       memcpy buf 0 (snd r) len).

(** [int send_data(uint8_t *buf, uint16_t len)] *)
Definition send_data (buf : bytes) (len : Z) : M Z :=
  let len := uint16 len in
  r <- call (HAL_UART_Transmit huart2 (firstn (Z.to_nat len) buf) len
                               COMM_TIMEOUT_MS) ;;
  ret (if is_HAL_OK r then ATCA_SUCCESS else ATCA_TX_FAIL).

(** [int derive_shared_secret(void)] *)
Definition derive_shared_secret : M Z :=
  pk <- load peer_pubkey ;;
  r <- call (atcab_ecdh DEVICE_KEY_SLOT pk) ;;
  let status := fst r in
  let shared_secret := fill 32 (snd r) in
  if status !=? ATCA_SUCCESS then ret status else
  r <- call wc_InitSha256 ;;
  if r !=? 0 then ret ATCA_GEN_FAIL else
  r <- call (wc_Sha256Update shared_secret 32) ;;
  if r !=? 0 then ret ATCA_GEN_FAIL else
  r <- call wc_Sha256Final ;;
  let hash := fill 32 (snd r) in
  if fst r !=? 0 then ret ATCA_GEN_FAIL else
  update (fun g => set_aes_key (memcpy (aes_key g) 0 hash AES_KEY_SIZE) g) ;;
  ret ATCA_SUCCESS.

(** [void generate_random(uint8_t *buf, size_t len)]: the loop
    [for (size_t i = 0; i < len; i += 4)].  The status returned by
    [HAL_RNG_GenerateRandomNumber] is dropped; [rnd] is whatever the local
    holds after the call. *)
Fixpoint generate_random_loop (fuel : nat) (buf : bytes) (len i : Z)
  : M bytes :=
  match fuel with
  | O => out_of_fuel
  | S fuel' =>
      if i <? len then
        r <- call HAL_RNG_GenerateRandomNumber ;;
        let rnd := snd r in
        let n := if len - i >=? 4 then 4 else len - i in
        generate_random_loop fuel' (memcpy buf i (le_bytes rnd) n) len
                             (uint32 (i + 4))
      else ret buf
  end.

Definition generate_random (buf : bytes) (len : Z) : M bytes :=
  let len := uint32 len in
  generate_random_loop (S (Z.to_nat len)) buf len 0.

(** [int encrypt_message(const uint8_t *plaintext, uint32_t length,
    uint8_t *ciphertext, uint8_t *tag)]: returns the status and the content
    of [ciphertext] and [tag] after the call. *)
Definition encrypt_message (plaintext : bytes) (length : Z)
    (ciphertext tag : bytes) : M (Z * bytes * bytes) :=
  let length := uint32 length in
  r <- call (wc_AesInit INVALID_DEVID) ;;
  if r !=? 0 then ret (-1, ciphertext, tag) else
  key <- load aes_key ;;
  r <- call (wc_AesGcmSetKey (firstn (Z.to_nat AES_KEY_SIZE) key) AES_KEY_SIZE) ;;
  if r !=? 0 then (call wc_AesFree ;; ret (-1, ciphertext, tag)) else
  nonce <- load iv ;;
  r <- call (wc_AesGcmEncrypt (firstn (Z.to_nat length) plaintext) length
               (firstn (Z.to_nat AES_IV_SIZE) nonce) AES_IV_SIZE
               AES_TAG_SIZE [] 0) ;;
  call wc_AesFree ;;
  ret (fst (fst r),
       memcpy ciphertext 0 (snd (fst r)) length,
       memcpy tag 0 (snd r) AES_TAG_SIZE).

(** [int sign_message(const uint8_t *msg, size_t msg_len,
    uint8_t *signature)]: returns the status and the content of
    [signature] after the call. *)
Definition sign_message (msg : bytes) (msg_len : Z) (signature : bytes)
  : M (Z * bytes) :=
  let msg_len := uint32 msg_len in
  r <- call wc_InitSha256 ;;
  if r !=? 0 then ret (ATCA_GEN_FAIL, signature) else
  r <- call (wc_Sha256Update (firstn (Z.to_nat msg_len) msg) msg_len) ;;
  if r !=? 0 then ret (ATCA_GEN_FAIL, signature) else
  r <- call wc_Sha256Final ;;
  let hash := fill 32 (snd r) in
  if fst r !=? 0 then ret (ATCA_GEN_FAIL, signature) else
  r <- call (atcab_sign DEVICE_KEY_SLOT hash) ;;
  ret (fst r, memcpy signature 0 (snd r) SIGNATURE_SIZE).

(** [int verify_peer_public_key(void)] *)
Definition verify_peer_public_key : M Z :=
  r <- receive_data (memset0 SIGNATURE_SIZE) SIGNATURE_SIZE ;;
  let peer_signature := snd r in
  if fst r !=? ATCA_SUCCESS then ret ATCA_RX_FAIL else
  r <- call wc_InitSha256 ;;
  if r !=? 0 then ret ATCA_GEN_FAIL else
  ch <- load challenge ;;
  r <- call (wc_Sha256Update (firstn (Z.to_nat CHALLENGE_SIZE) ch)
                             CHALLENGE_SIZE) ;;
  if r !=? 0 then ret ATCA_GEN_FAIL else
  r <- call wc_Sha256Final ;;
  let hash := fill 32 (snd r) in
  if fst r !=? 0 then ret ATCA_GEN_FAIL else
  call wc_ecc_init ;;
  pk <- load peer_pubkey ;;
  r <- call (wc_ecc_import_x963 (firstn (Z.to_nat PUB_KEY_SIZE) pk)
                                PUB_KEY_SIZE) ;;
  if r !=? 0 then (call wc_ecc_free ;; ret ATCA_FUNC_FAIL) else
  r <- call (wc_ecc_set_curve 32 ECC_SECP256R1) ;;
  if r !=? 0 then (call wc_ecc_free ;; ret ATCA_FUNC_FAIL) else
  r <- call (wc_ecc_verify_hash peer_signature SIGNATURE_SIZE hash 32) ;;
  let ret_ := fst r in
  let verify_res := snd r in
  call wc_ecc_free ;;
  ret (if (ret_ =? 0) && (verify_res =? 1)
       then ATCA_SUCCESS else ATCA_FUNC_FAIL).

(** [int perform_key_exchange(void)] *)
Definition perform_key_exchange : M Z :=
  pk <- load device_pubkey ;;
  r <- send_data pk PUB_KEY_SIZE ;;
  if r !=? ATCA_SUCCESS then ret ATCA_TX_FAIL else
  buf <- load peer_pubkey ;;
  r <- receive_data buf PUB_KEY_SIZE ;;
  update (set_peer_pubkey (snd r)) ;;
  if fst r !=? ATCA_SUCCESS then ret ATCA_RX_FAIL else
  buf <- load challenge ;;
  buf <- generate_random buf CHALLENGE_SIZE ;;
  update (set_challenge buf) ;;
  r <- send_data buf CHALLENGE_SIZE ;;
  if r !=? ATCA_SUCCESS then ret ATCA_TX_FAIL else
  r <- verify_peer_public_key ;;
  if r !=? ATCA_SUCCESS then ret ATCA_FUNC_FAIL else
  buf <- load peer_challenge ;;
  r <- receive_data buf CHALLENGE_SIZE ;;
  update (set_peer_challenge (snd r)) ;;
  if fst r !=? ATCA_SUCCESS then ret ATCA_RX_FAIL else
  r <- sign_message (snd r) CHALLENGE_SIZE (memset0 SIGNATURE_SIZE) ;;
  let signature := snd r in
  if fst r !=? ATCA_SUCCESS then ret ATCA_GEN_FAIL else
  r <- send_data signature SIGNATURE_SIZE ;;
  if r !=? ATCA_SUCCESS then ret ATCA_TX_FAIL else
  derive_shared_secret.

(** [int receive_user_input(void)]: the loop
    [while (idx < RX_BUFFER_SIZE - 1)]; [ch] keeps its value when the
    receive call wrote nothing. *)
Fixpoint receive_user_input_loop (fuel : nat) (idx : Z) (ch : byte) : M Z :=
  match fuel with
  | O => out_of_fuel
  | S fuel' =>
      if idx <? RX_BUFFER_SIZE - 1 then
        r <- call (HAL_UART_Receive huart1 1 HAL_MAX_DELAY) ;;
        let ch := hd ch (snd r) in
        if negb (is_HAL_OK (fst r)) then ret (-1) else
        if Byte.eqb ch x0d || Byte.eqb ch x0a then ret idx else
        call (HAL_UART_Transmit huart1 [ch] 1 HAL_MAX_DELAY) ;;
        update (fun g => set_rx_buffer (store (rx_buffer g) (Z.to_nat idx) ch) g) ;;
        receive_user_input_loop fuel' (uint16 (idx + 1)) ch
      else ret idx
  end.

Definition receive_user_input : M Z :=
  call (HAL_UART_Transmit huart1 prompt (uint16 (strlen prompt))
                          HAL_MAX_DELAY) ;;
  update (set_rx_buffer (memset0 RX_BUFFER_SIZE)) ;;
  receive_user_input_loop (Z.to_nat RX_BUFFER_SIZE) 0 x00.

(** The bring-up functions of [main]. *)
Definition SystemClock_Config : M unit :=
  call (HAL_Setup HAL_PWREx_ControlVoltageScaling) ;;
  r <- call (HAL_Setup HAL_RCC_OscConfig) ;;
  when (negb (is_HAL_OK r)) Error_Handler ;;
  r <- call (HAL_Setup HAL_RCC_ClockConfig) ;;
  when (negb (is_HAL_OK r)) Error_Handler.

Definition MX_GPIO_Init : M unit :=
  call (HAL_Setup (HAL_RCC_GPIO_CLK_ENABLE GPIOC)) ;;
  call (HAL_Setup (HAL_RCC_GPIO_CLK_ENABLE GPIOF)) ;;
  call (HAL_Setup (HAL_RCC_GPIO_CLK_ENABLE GPIOA)) ;;
  call (HAL_Setup (HAL_RCC_GPIO_CLK_ENABLE GPIOB)) ;;
  ret tt.

Definition MX_I2C1_Init : M unit :=
  r <- call (HAL_Setup HAL_I2C_Init) ;;
  when (negb (is_HAL_OK r)) Error_Handler ;;
  r <- call (HAL_Setup HAL_I2CEx_ConfigAnalogFilter) ;;
  when (negb (is_HAL_OK r)) Error_Handler ;;
  r <- call (HAL_Setup HAL_I2CEx_ConfigDigitalFilter) ;;
  when (negb (is_HAL_OK r)) Error_Handler.

Definition MX_RNG_Init : M unit :=
  r <- call (HAL_Setup HAL_RNG_Init) ;;
  when (negb (is_HAL_OK r)) Error_Handler.

Definition MX_USART_UART_Init (u : UART_HandleTypeDef) : M unit :=
  r <- call (HAL_Setup (HAL_UART_Init u)) ;;
  when (negb (is_HAL_OK r)) Error_Handler ;;
  r <- call (HAL_Setup (HAL_UARTEx_SetTxFifoThreshold u)) ;;
  when (negb (is_HAL_OK r)) Error_Handler ;;
  r <- call (HAL_Setup (HAL_UARTEx_SetRxFifoThreshold u)) ;;
  when (negb (is_HAL_OK r)) Error_Handler ;;
  r <- call (HAL_Setup (HAL_UARTEx_DisableFifoMode u)) ;;
  when (negb (is_HAL_OK r)) Error_Handler.

Definition MX_USART1_UART_Init : M unit := MX_USART_UART_Init huart1.
Definition MX_USART2_UART_Init : M unit := MX_USART_UART_Init huart2.

(** [main], lines 218-231: bring-up, secure element, key pair. *)
Definition main_boot : M unit :=
  call (HAL_Setup HAL_Init) ;;
  SystemClock_Config ;;
  MX_GPIO_Init ;;
  MX_I2C1_Init ;;
  MX_USART1_UART_Init ;;
  MX_USART2_UART_Init ;;
  MX_RNG_Init ;;
  r <- call atcab_init ;;
  when (r !=? ATCA_SUCCESS) Error_Handler ;;
  r <- generate_and_store_keypair ;;
  when (r !=? ATCA_SUCCESS) Error_Handler.

(** [main], lines 233-239:
    [while (perform_key_exchange() != ATCA_SUCCESS) { ... }]. *)
Fixpoint main_handshake (fuel : nat) (retries : Z) : M unit :=
  match fuel with
  | O => out_of_fuel
  | S fuel' =>
      r <- perform_key_exchange ;;
      if r !=? ATCA_SUCCESS then
        let retries := retries + 1 in
        when (retries >=? MAX_RETRIES) Error_Handler ;;
        call (HAL_Delay 1000) ;;
        main_handshake fuel' retries
      else ret tt
  end.

(** One turn of [while (1)] in [main], lines 245-268.  The turn returns
    the locals [encrypted] and [tag] as it left them (unchanged after
    [continue]). *)
Definition main_turn (encrypted tag : bytes) : M (bytes * bytes) :=
  len <- receive_user_input ;;
  if len <=? 0 then ret (encrypted, tag) else
  buf <- load iv ;;
  buf <- generate_random buf AES_IV_SIZE ;;
  update (set_iv buf) ;;
  rx <- load rx_buffer ;;
  r <- encrypt_message rx len encrypted tag ;;
  let encrypted := snd (fst r) in
  let tag := snd r in
  when (fst (fst r) !=? 0) Error_Handler ;;
  nonce <- load iv ;;
  failed <- (r <- send_data nonce AES_IV_SIZE ;;
             if r !=? ATCA_SUCCESS then ret true else
             r <- send_data tag AES_TAG_SIZE ;;
             if r !=? ATCA_SUCCESS then ret true else
             r <- send_data encrypted len ;;
             ret (r !=? ATCA_SUCCESS)) ;;
  when failed Error_Handler ;;
  rx <- load rx_buffer ;;
  r <- sign_message rx len (memset0 SIGNATURE_SIZE) ;;
  let signature := snd r in
  when (fst r !=? ATCA_SUCCESS) Error_Handler ;;
  r <- send_data signature SIGNATURE_SIZE ;;
  when (r !=? ATCA_SUCCESS) Error_Handler ;;
  ret (encrypted, tag).

Fixpoint main_loop (fuel : nat) (encrypted tag : bytes) : M unit :=
  match fuel with
  | O => out_of_fuel
  | S fuel' =>
      r <- main_turn encrypted tag ;;
      main_loop fuel' (fst r) (snd r)
  end.

(** [int main(void)].  The function never returns; [fuel] bounds the number
    of loop turns the model follows. *)
Definition main (fuel : nat) : M unit :=
  main_boot ;;
  main_handshake fuel 0 ;;
  main_loop fuel (memset0 RX_BUFFER_SIZE) (memset0 AES_TAG_SIZE).

End Firmware.

(** ** Failed handshake attempts *)

Section Attempts.

Context {W : Type} (P : Platform W).

(** [failed_attempts k s s' t]: from [s], [k] runs of
    [perform_key_exchange] in a row returned an error, each followed by
    [HAL_Delay(1000)]; this leads to [s'] and logs [t]. *)
Inductive failed_attempts : nat -> State W -> State W -> list Event -> Prop :=
| no_attempt s : failed_attempts 0 s s []
| failed_attempt k s s1 s2 r e1 e2 u w :
    perform_key_exchange P s = (Ret r, s1, e1) ->
    r <> ATCA_SUCCESS ->
    P (HAL_Delay 1000) (world s1) = (u, w) ->
    failed_attempts k (mkState w (mem s1)) s2 e2 ->
    failed_attempts (S k) s s2 (e1 ++ Ev (HAL_Delay 1000) u :: e2).

End Attempts.

(** ** A simulated platform

    A deterministic bench used to run the firmware on concrete inputs: the
    calls are numbered from [0] in the order they are made, a call whose
    number is listed in [faults] fails, and the console delivers the bytes
    of [console] one per receive call (and times out once they are used
    up). *)
Module Sim.

Record World := mkWorld { tick : nat; faults : list nat; console : bytes }.

Definition faulty (w : World) : bool := existsb (Nat.eqb (tick w)) (faults w).

Definition next (w : World) : World :=
  mkWorld (S (tick w)) (faults w) (console w).

Definition stamp (w : World) (n : Z) : bytes :=
  repeat (byte_of_Z (Z.of_nat (tick w))) (Z.to_nat n).

Definition hal (w : World) : HAL_StatusTypeDef :=
  if faulty w then HAL_ERROR else HAL_OK.

Definition rc (w : World) : Z := if faulty w then -1 else 0.

Definition platform : Platform World :=
  fun R c w =>
    match c in Call R return R * World with
    | HAL_Setup _ => (hal w, next w)
    | HAL_UART_Transmit _ _ _ _ => (hal w, next w)
    | HAL_UART_Receive huart1 _ _ =>
        match console w with
        | [] => ((HAL_TIMEOUT, []), next w)
        | b :: rest =>
            if faulty w then ((HAL_ERROR, []), next w)
            else ((HAL_OK, [b]), mkWorld (S (tick w)) (faults w) rest)
        end
    | HAL_UART_Receive huart2 n _ =>
        if faulty w then ((HAL_TIMEOUT, []), next w)
        else ((HAL_OK, stamp w n), next w)
    | HAL_RNG_GenerateRandomNumber =>
        ((hal w, 16843009 * Z.of_nat (tick w) + 50462976), next w)
    | HAL_Delay _ => (tt, next w)
    | disable_irq => (tt, next w)
    | atcab_init => (rc w, next w)
    | atcab_genkey _ => ((rc w, stamp w 64), next w)
    | atcab_ecdh _ _ => ((rc w, stamp w 32), next w)
    | atcab_sign _ _ => ((rc w, stamp w 64), next w)
    | wc_InitSha256 => (rc w, next w)
    | wc_Sha256Update _ _ => (rc w, next w)
    | wc_Sha256Final => ((rc w, stamp w 32), next w)
    | wc_AesInit _ => (rc w, next w)
    | wc_AesGcmSetKey _ _ => (rc w, next w)
    | wc_AesGcmEncrypt plain sz _ _ tagsz _ _ =>
        ((rc w, stamp w sz, stamp w tagsz), next w)
    | wc_AesFree => (tt, next w)
    | wc_ecc_init => (0, next w)
    | wc_ecc_import_x963 _ _ => (rc w, next w)
    | wc_ecc_set_curve _ _ => (rc w, next w)
    | wc_ecc_verify_hash _ _ _ _ => ((0, if faulty w then 0 else 1), next w)
    | wc_ecc_free => (0, next w)
    end.

Definition boot (faults : list nat) (console : bytes) : State World :=
  mkState (mkWorld 0 faults console) globals0.

(** The line [PING] followed by a carriage return, and a line of 128
    letters [A]. *)
Definition ping : bytes := [x50; x49; x4e; x47; x0d].
Definition long_line : bytes := repeat x41 128 ++ [x0d].

(** What a run leaves: its final state and its log. *)
Definition state_of {A} (r : Outcome A * State World * list Event)
  : State World := snd (fst r).
Definition log_of {A} (r : Outcome A * State World * list Event)
  : list Event := snd r.

End Sim.

(** ** Reading the log *)

Definition rng_event (r : HAL_StatusTypeDef * Z) : Event :=
  Ev HAL_RNG_GenerateRandomNumber r.

(** What [generate_random] leaves in the buffer when the successive values
    of [rnd] are [vals]. *)
Fixpoint fill_chunks (buf : bytes) (len i : Z) (vals : list Z) : bytes :=
  match vals with
  | [] => buf
  | v :: vs =>
      fill_chunks
        (memcpy buf i (le_bytes v) (if len - i >=? 4 then 4 else len - i))
        len (i + 4) vs
  end.

(** A transfer on the SATCOM link ([huart2]): the bytes handed to the
    UART with the size asked for, or the size asked for with the bytes
    the UART delivered. *)
Inductive TransportOp :=
| TSend (data : bytes) (size : Z)
| TRecv (size : Z) (data : bytes).

Definition transport_op (e : Event) : option TransportOp :=
  match e with
  | Ev c r =>
      match c in Call R return R -> option TransportOp with
      | HAL_UART_Transmit huart2 data size _ => fun _ => Some (TSend data size)
      | HAL_UART_Receive huart2 size _ => fun r => Some (TRecv size (snd r))
      | _ => fun _ => None
      end r
  end.

(** The entries of the log that [f] selects, in order. *)
Fixpoint observe {A} (f : Event -> option A) (t : list Event) : list A :=
  match t with
  | [] => []
  | e :: t' =>
      match f e with
      | Some a => a :: observe f t'
      | None => observe f t'
      end
  end.

Definition transport_ops : list Event -> list TransportOp :=
  observe transport_op.

(** The keys handed to [wc_AesGcmSetKey]. *)
Definition aes_key_of (e : Event) : option bytes :=
  match e with
  | Ev c _ =>
      match c with
      | wc_AesGcmSetKey key _ => Some key
      | _ => None
      end
  end.

Definition keys_used : list Event -> list bytes := observe aes_key_of.

(** The encryptions asked of [wc_AesGcmEncrypt]: plaintext, its size, and
    the nonce. *)
Definition encryption_of (e : Event) : option (bytes * Z * bytes) :=
  match e with
  | Ev c _ =>
      match c with
      | wc_AesGcmEncrypt plain sz nonce _ _ _ _ => Some (plain, sz, nonce)
      | _ => None
      end
  end.

Definition encryptions : list Event -> list (bytes * Z * bytes) :=
  observe encryption_of.

(** A platform on which every call of the hardware RNG reports
    [HAL_ERROR] and is otherwise as on [P]. *)
Definition fail_rng {W} (P : Platform W) : Platform W :=
  fun R c w =>
    match c in Call R return R * W -> R * W with
    | HAL_RNG_GenerateRandomNumber =>
        fun a => ((HAL_ERROR, snd (fst a)), snd a)
    | _ => fun a => a
    end (P R c w).

(** The call reported a failure to its caller. *)
Definition call_failed (e : Event) : bool :=
  match e with
  | Ev c r =>
      match c in Call R return R -> bool with
      | HAL_Setup _ => fun r => negb (is_HAL_OK r)
      | HAL_UART_Transmit _ _ _ _ => fun r => negb (is_HAL_OK r)
      | HAL_UART_Receive _ _ _ => fun r => negb (is_HAL_OK (fst r))
      | HAL_RNG_GenerateRandomNumber => fun r => negb (is_HAL_OK (fst r))
      | HAL_Delay _ => fun _ => false
      | disable_irq => fun _ => false
      | atcab_init => fun r => r !=? ATCA_SUCCESS
      | atcab_genkey _ => fun r => fst r !=? ATCA_SUCCESS
      | atcab_ecdh _ _ => fun r => fst r !=? ATCA_SUCCESS
      | atcab_sign _ _ => fun r => fst r !=? ATCA_SUCCESS
      | wc_InitSha256 => fun r => r !=? 0
      | wc_Sha256Update _ _ => fun r => r !=? 0
      | wc_Sha256Final => fun r => fst r !=? 0
      | wc_AesInit _ => fun r => r !=? 0
      | wc_AesGcmSetKey _ _ => fun r => r !=? 0
      | wc_AesGcmEncrypt _ _ _ _ _ _ _ => fun r => fst (fst r) !=? 0
      | wc_AesFree => fun _ => false
      | wc_ecc_init => fun r => r !=? 0
      | wc_ecc_import_x963 _ _ => fun r => r !=? 0
      | wc_ecc_set_curve _ _ => fun r => r !=? 0
      | wc_ecc_verify_hash _ _ _ _ =>
          fun r => negb ((fst r =? 0) && (snd r =? 1))
      | wc_ecc_free => fun r => r !=? 0
      end r
  end.

(** The peer's key or signature was turned down: the import of the peer
    public key, the curve set-up, or the signature check itself failed. *)
Definition auth_rejected (e : Event) : bool :=
  match e with
  | Ev c r =>
      match c in Call R return R -> bool with
      | wc_ecc_import_x963 _ _ => fun r => r !=? 0
      | wc_ecc_set_curve _ _ => fun r => r !=? 0
      | wc_ecc_verify_hash _ _ _ _ =>
          fun r => negb ((fst r =? 0) && (snd r =? 1))
      | _ => fun _ => false
      end r
  end.

(** What the log holds after the first entry that satisfies [p]. *)
Fixpoint drop_until (p : Event -> bool) (t : list Event) : list Event :=
  match t with
  | [] => []
  | e :: t' => if p e then t' else drop_until p t'
  end.

(** Traffic on the console UART ([huart1]). *)
Definition console_event (e : Event) : bool :=
  match e with
  | Ev c _ =>
      match c with
      | HAL_UART_Transmit huart1 _ _ _ => true
      | HAL_UART_Receive huart1 _ _ => true
      | _ => false
      end
  end.

(** An error of the secure channel: a step of the encryption failed, a
    transmission on the SATCOM link failed, or a step of the signing
    failed. *)
Definition channel_error (e : Event) : bool :=
  match e with
  | Ev c r =>
      match c in Call R return R -> bool with
      | HAL_UART_Transmit huart2 _ _ _ => fun r => negb (is_HAL_OK r)
      | wc_AesInit _ => fun r => r !=? 0
      | wc_AesGcmSetKey _ _ => fun r => r !=? 0
      | wc_AesGcmEncrypt _ _ _ _ _ _ _ => fun r => fst (fst r) !=? 0
      | wc_InitSha256 => fun r => r !=? 0
      | wc_Sha256Update _ _ => fun r => r !=? 0
      | wc_Sha256Final => fun r => fst r !=? 0
      | atcab_sign _ _ => fun r => fst r !=? ATCA_SUCCESS
      | _ => fun _ => false
      end r
  end.

(** Input, output, random or cryptographic operations: every call but
    the bring-up calls, the delay, the release of a wolfCrypt context and
    the masking of interrupts. *)
Definition operation (e : Event) : bool :=
  match e with
  | Ev c _ =>
      match c with
      | HAL_Setup _ => false
      | HAL_Delay _ => false
      | disable_irq => false
      | wc_AesFree => false
      | wc_ecc_free => false
      | _ => true
      end
  end.

(** ** Further readings of the log and of the state *)

(** What the console UART delivered: status and bytes of each
    [HAL_UART_Receive] on [huart1]. *)
Definition console_received (e : Event)
  : option (HAL_StatusTypeDef * bytes) :=
  match e with
  | Ev c r =>
      match c in Call R return R -> option (HAL_StatusTypeDef * bytes) with
      | HAL_UART_Receive huart1 _ _ => fun r => Some r
      | _ => fun _ => None
      end r
  end.

(** What was written to the console UART. *)
Definition console_sent (e : Event) : option bytes :=
  match e with
  | Ev c _ =>
      match c with
      | HAL_UART_Transmit huart1 data _ _ => Some data
      | _ => None
      end
  end.

(** The successive values of the local [ch] of [receive_user_input] when
    the receive calls delivered [rs]: a call that delivered nothing leaves
    [ch] as it was. *)
Fixpoint carried (ch : byte) (rs : list bytes) : bytes :=
  match rs with
  | [] => []
  | d :: rs' => hd ch d :: carried (hd ch d) rs'
  end.

Definition is_newline (c : byte) : bool := Byte.eqb c x0d || Byte.eqb c x0a.

(** A [wc_AesInit] that succeeded: an AES context is live. *)
Definition aes_opened (e : Event) : bool :=
  match e with
  | Ev c r =>
      match c in Call R return R -> bool with
      | wc_AesInit _ => fun r => r =? 0
      | _ => fun _ => false
      end r
  end.

Definition aes_released (e : Event) : bool :=
  match e with
  | Ev c _ =>
      match c with
      | wc_AesFree => true
      | _ => false
      end
  end.

(** What [wc_AesGcmEncrypt] answered: status, ciphertext and tag. *)
Definition encryption_result (e : Event) : option (Z * bytes * bytes) :=
  match e with
  | Ev c r =>
      match c in Call R return R -> option (Z * bytes * bytes) with
      | wc_AesGcmEncrypt _ _ _ _ _ _ _ => fun r => Some r
      | _ => fun _ => None
      end r
  end.

(** A step of a SHA-256 computation failed. *)
Definition hashing_failed (e : Event) : bool :=
  match e with
  | Ev c r =>
      match c in Call R return R -> bool with
      | wc_InitSha256 => fun r => r !=? 0
      | wc_Sha256Update _ _ => fun r => r !=? 0
      | wc_Sha256Final => fun r => fst r !=? 0
      | _ => fun _ => false
      end r
  end.

(** The signatures asked of the secure element: slot, digest, and the
    status and signature it answered. *)
Definition signing_of (e : Event) : option (Z * bytes * Z * bytes) :=
  match e with
  | Ev c r =>
      match c in Call R return R -> option (Z * bytes * Z * bytes) with
      | atcab_sign slot digest => fun r => Some (slot, digest, fst r, snd r)
      | _ => fun _ => None
      end r
  end.

(** A call of the handshake whose status [perform_key_exchange] or one of
    its callees tests, and that reported a failure.  (The statuses of the
    RNG, of [wc_ecc_init] and of [wc_ecc_free] are not looked at.) *)
Definition handshake_error (e : Event) : bool :=
  match e with
  | Ev c r =>
      match c in Call R return R -> bool with
      | HAL_UART_Transmit huart2 _ _ _ => fun r => negb (is_HAL_OK r)
      | HAL_UART_Receive huart2 _ _ => fun r => negb (is_HAL_OK (fst r))
      | wc_InitSha256 => fun r => r !=? 0
      | wc_Sha256Update _ _ => fun r => r !=? 0
      | wc_Sha256Final => fun r => fst r !=? 0
      | wc_ecc_import_x963 _ _ => fun r => r !=? 0
      | wc_ecc_set_curve _ _ => fun r => r !=? 0
      | wc_ecc_verify_hash _ _ _ _ =>
          fun r => negb ((fst r =? 0) && (snd r =? 1))
      | atcab_sign _ _ => fun r => fst r !=? ATCA_SUCCESS
      | atcab_ecdh _ _ => fun r => fst r !=? ATCA_SUCCESS
      | _ => fun _ => false
      end r
  end.

(** The run is in [Error_Handler]. *)
Definition is_halted {A} (o : Outcome A) : bool :=
  match o with
  | Halted => true
  | _ => false
  end.

(** [__disable_irq()], the first thing [Error_Handler] does. *)
Definition interrupts_masked (e : Event) : bool :=
  match e with
  | Ev c _ =>
      match c with
      | disable_irq => true
      | _ => false
      end
  end.

(** The calls of the bring-up: HAL configuration, [atcab_init] and
    [atcab_genkey]. *)
Definition bring_up_call (e : Event) : bool :=
  match e with
  | Ev c _ =>
      match c with
      | HAL_Setup _ => true
      | atcab_init => true
      | atcab_genkey _ => true
      | _ => false
      end
  end.

(** A call of the bring-up whose status [main] or an [MX_*_Init] function
    tests, and that reported a failure.  (The statuses of [HAL_Init] and
    [HAL_PWREx_ControlVoltageScaling] are not looked at, and enabling a
    GPIO clock reports none.) *)
Definition boot_error (e : Event) : bool :=
  match e with
  | Ev c r =>
      match c in Call R return R -> bool with
      | HAL_Setup f =>
          fun r =>
            match f with
            | HAL_Init => false
            | HAL_PWREx_ControlVoltageScaling => false
            | HAL_RCC_GPIO_CLK_ENABLE _ => false
            | _ => negb (is_HAL_OK r)
            end
      | atcab_init => fun r => r !=? ATCA_SUCCESS
      | atcab_genkey _ => fun r => fst r !=? ATCA_SUCCESS
      | _ => fun _ => false
      end r
  end.

(** The global buffers that callees fill ([HAL_UART_Receive], [memcpy],
    [atcab_genkey]) have their declared sizes.  A write of more bytes than
    the buffer holds makes the modelled buffer longer (see [memcpy]).
    [rx_buffer] is written one byte at a time at an index, and is read
    through its content instead (see [echoed_line]). *)
Definition buffers_sized (g : Globals) : bool :=
  (length (device_pubkey g) =? Z.to_nat PUB_KEY_SIZE)%nat
  && (length (peer_pubkey g) =? Z.to_nat PUB_KEY_SIZE)%nat
  && (length (aes_key g) =? Z.to_nat AES_KEY_SIZE)%nat
  && (length (iv g) =? Z.to_nat AES_IV_SIZE)%nat
  && (length (challenge g) =? Z.to_nat CHALLENGE_SIZE)%nat
  && (length (peer_challenge g) =? Z.to_nat CHALLENGE_SIZE)%nat.

(** A transmission on the SATCOM link that announces more bytes than the
    buffer it is given holds: the UART would read past its end. *)
Definition link_tx_overread (e : Event) : bool :=
  match e with
  | Ev c _ =>
      match c with
      | HAL_UART_Transmit huart2 data size _ =>
          negb (Z.of_nat (length data) =? size)
      | _ => false
      end
  end.

(** Of what was written to the console, the characters written one at a
    time since the last write of another size (the prompt): the line
    echoed so far. *)
Fixpoint echoed_line (acc : bytes) (sent : list bytes) : bytes :=
  match sent with
  | [] => acc
  | [c] :: rest => echoed_line (acc ++ [c]) rest
  | _ :: rest => echoed_line [] rest
  end.

(** The calls that set a session up: bring-up, reception on the SATCOM
    link, key generation, key agreement, ECC signature verification, and
    the delay between attempts. *)
Definition session_setup_call (e : Event) : bool :=
  match e with
  | Ev c _ =>
      match c with
      | HAL_Setup _ => true
      | HAL_UART_Receive huart2 _ _ => true
      | HAL_Delay _ => true
      | atcab_init => true
      | atcab_genkey _ => true
      | atcab_ecdh _ _ => true
      | wc_ecc_init => true
      | wc_ecc_import_x963 _ _ => true
      | wc_ecc_set_curve _ _ => true
      | wc_ecc_verify_hash _ _ _ _ => true
      | wc_ecc_free => true
      | _ => false
      end
  end.

(** [wc_ecc_init] and [wc_ecc_free]: an ECC key object comes to life and
    is released. *)
Definition ecc_opened (e : Event) : bool :=
  match e with
  | Ev c _ =>
      match c with
      | wc_ecc_init => true
      | _ => false
      end
  end.

Definition ecc_released (e : Event) : bool :=
  match e with
  | Ev c _ =>
      match c with
      | wc_ecc_free => true
      | _ => false
      end
  end.

(** The data fed to SHA-256: bytes and announced length. *)
Definition hashed_of (e : Event) : option (bytes * Z) :=
  match e with
  | Ev c _ =>
      match c with
      | wc_Sha256Update data len => Some (data, len)
      | _ => None
      end
  end.

(** * Properties *)

(** ** Machine integers and buffers *)

Lemma uint32_small z : 0 <= z < 2 ^ 32 -> uint32 z = z.
Proof. intros H. unfold uint32. apply Z.mod_small. exact H. Qed.

Lemma uint16_small z : 0 <= z < 2 ^ 16 -> uint16 z = z.
Proof. intros H. unfold uint16. apply Z.mod_small. exact H. Qed.

Lemma le_bytes_length x : length (le_bytes x) = 4%nat.
Proof. reflexivity. Qed.

Section GenerateRandom.

Context {W : Type} (P : Platform W).

Lemma generate_random_loop_runs fuel :
  forall buf len i (s : State W),
    0 <= i <= len + 3 -> len <= 2 ^ 32 - 4 ->
    (Z.to_nat (len - i) < fuel)%nat ->
    exists rs s',
      generate_random_loop P fuel buf len i s
      = (Ret (fill_chunks buf len i (map snd rs)), s', map rng_event rs)
      /\ mem s' = mem s
      /\ Z.of_nat (length rs) = (len - i + 3) / 4.
Proof.
  induction fuel as [|fuel IH]; intros buf len i s Hi Hlen Hfuel; [lia|].
  cbn [generate_random_loop].
  destruct (Z.ltb_spec i len) as [Hlt|Hge].
  - unfold bind at 1, call at 1.
    destruct (P HAL_RNG_GenerateRandomNumber (world s)) as [r w'] eqn:Er.
    cbn [snd].
    assert (Hnext : uint32 (i + 4) = i + 4) by (apply uint32_small; lia).
    rewrite Hnext.
    edestruct (IH (memcpy buf i (le_bytes (snd r))
                          (if len - i >=? 4 then 4 else len - i))
                  len (i + 4) (mkState w' (mem s)))
      as (rs & s' & Hrun & Hmem & Hcount); [lia | lia | lia |].
    rewrite Hrun.
    exists (r :: rs), s'. split; [reflexivity|]. split; [exact Hmem|].
    cbn [length]. rewrite Nat2Z.inj_succ, Hcount.
    replace (len - i + 3) with ((len - (i + 4) + 3) + 1 * 4) by lia.
    rewrite Z.div_add by lia. lia.
  - exists [], s. split; [reflexivity|]. split; [reflexivity|].
    cbn [length]. symmetry. apply Z.div_small. lia.
Qed.

Lemma generate_random_runs buf len (s : State W) :
  0 <= len <= 2 ^ 32 - 4 ->
  exists rs w',
    generate_random P buf len s
    = (Ret (fill_chunks buf len 0 (map snd rs)), mkState w' (mem s),
       map rng_event rs)
    /\ Z.of_nat (length rs) = (len + 3) / 4.
Proof.
  intros Hlen. unfold generate_random. cbv zeta.
  rewrite uint32_small by lia.
  destruct (@generate_random_loop_runs (S (Z.to_nat len)) buf len 0 s) as (rs & s' & Hrun & Hmem & Hcount); [lia | lia | lia |].
  destruct s' as [w' g']. cbn [mem] in Hmem. subst g'.
  exists rs, w'. split; [exact Hrun|].
  rewrite Hcount. f_equal. lia.
Qed.

End GenerateRandom.

Lemma memcpy_length dst off src n :
  0 <= off -> off + Z.of_nat (length (firstn (Z.to_nat n) src))
              <= Z.of_nat (length dst) ->
  length (memcpy dst off src n) = length dst.
Proof.
  intros Hoff Hfit. unfold memcpy. cbv zeta.
  rewrite !length_app, length_firstn, length_skipn.
  set (w := length (firstn (Z.to_nat n) src)) in *. lia.
Qed.

Lemma fill_chunks_content vals :
  forall buf len i,
    0 <= i <= len -> len <= Z.of_nat (length buf) ->
    Z.of_nat (length vals) = (len - i + 3) / 4 ->
    fill_chunks buf len i vals
    = firstn (Z.to_nat i) buf
      ++ firstn (Z.to_nat (len - i)) (concat (map le_bytes vals))
      ++ skipn (Z.to_nat len) buf.
Proof.
  induction vals as [|v vs IH]; intros buf len i Hi Hlen Hcount.
  - cbn [length Z.of_nat] in Hcount.
    assert (i = len).
    { destruct (Z.eq_dec i len) as [|Hne]; [assumption|exfalso].
      assert (1 <= (len - i + 3) / 4) by (apply Z.div_le_lower_bound; lia).
      lia. }
    subst i. cbn [fill_chunks map concat]. rewrite firstn_nil. cbn [app].
    symmetry. apply firstn_skipn.
  - cbn [length] in Hcount. rewrite Nat2Z.inj_succ in Hcount.
    assert (Hpos : 1 <= len - i).
    { destruct (Z_lt_le_dec (len - i) 1) as [Hlt|]; [exfalso|assumption].
      rewrite Z.div_small in Hcount by lia. lia. }
    cbn [fill_chunks map concat].
    destruct (Z.geb_spec (len - i) 4) as [Hbig|Hsmall].
    + rewrite IH.
      * unfold memcpy. cbv zeta.
        change (firstn (Z.to_nat 4) (le_bytes v)) with (le_bytes v).
        rewrite le_bytes_length.
        assert (Hpre : length (firstn (Z.to_nat i) buf) = Z.to_nat i)
          by (rewrite length_firstn; lia).
        replace (Z.to_nat (i + 4)) with (Z.to_nat i + 4)%nat by lia.
        set (pre := firstn (Z.to_nat i) buf) in *.
        set (rest := skipn (Z.to_nat i + 4) buf).
        set (tail := concat (map le_bytes vs)).
        assert (E1 : firstn (Z.to_nat i + 4) (pre ++ le_bytes v ++ rest)
                     = pre ++ le_bytes v).
        { rewrite app_assoc.
          replace (Z.to_nat i + 4)%nat
            with (length (pre ++ le_bytes v) + 0)%nat
            by (rewrite length_app, Hpre, le_bytes_length; lia).
          rewrite firstn_app_2, firstn_O, app_nil_r. reflexivity. }
        assert (E2 : skipn (Z.to_nat len) (pre ++ le_bytes v ++ rest)
                     = skipn (Z.to_nat len) buf).
        { rewrite app_assoc, skipn_app.
          rewrite skipn_all2
            by (rewrite length_app, Hpre, le_bytes_length; lia).
          rewrite length_app, Hpre, le_bytes_length. cbn [app].
          unfold rest. rewrite skipn_skipn. f_equal. lia. }
        assert (E3 : firstn (Z.to_nat (len - i)) (le_bytes v ++ tail)
                     = le_bytes v
                       ++ firstn (Z.to_nat (len - (i + 4))) tail).
        { replace (Z.to_nat (len - i))
            with (length (le_bytes v) + Z.to_nat (len - (i + 4)))%nat
            by (rewrite le_bytes_length; lia).
          apply firstn_app_2. }
        rewrite E1, E2, E3, <- !app_assoc. reflexivity.
      * lia.
      * rewrite memcpy_length; [assumption | lia |].
        change (firstn (Z.to_nat 4) (le_bytes v)) with (le_bytes v).
        rewrite le_bytes_length. lia.
      * replace (len - i + 3) with ((len - (i + 4) + 3) + 1 * 4) in Hcount
          by lia.
        rewrite Z.div_add in Hcount by lia. lia.
    + assert (Hone : (len - i + 3) / 4 = 1).
      { replace (len - i + 3) with ((len - i - 1) + 1 * 4) by lia.
        rewrite Z.div_add by lia. rewrite Z.div_small by lia. reflexivity. }
      destruct vs as [|v' vs']; [|cbn [length] in Hcount; lia].
      cbn [fill_chunks map concat]. rewrite app_nil_r.
      unfold memcpy. cbv zeta.
      assert (Hw : length (firstn (Z.to_nat (len - i)) (le_bytes v))
                   = Z.to_nat (len - i))
        by (rewrite length_firstn, le_bytes_length; lia).
      rewrite Hw.
      replace (Z.to_nat i + Z.to_nat (len - i))%nat with (Z.to_nat len) by lia.
      reflexivity.
Qed.

(** ** Stepping through a run *)

Ltac expose_once H :=
  cbv beta iota zeta
      delta [bind ret call load update when halt out_of_fuel Error_Handler
             send_data receive_data generate_and_store_keypair
             world mem fst snd neqb negb andb orb is_HAL_OK
             device_pubkey peer_pubkey aes_key rx_buffer iv challenge
             peer_challenge set_device_pubkey set_peer_pubkey set_aes_key
             set_rx_buffer set_iv set_challenge set_peer_challenge] in H.

(** Decide a comparison of two known statuses. *)
Ltac decide_status H :=
  match type of H with
  | context [?a =? ?b] =>
      let v := eval vm_compute in (a =? b) in
      match v with
      | true => change (a =? b) with true in H
      | false => change (a =? b) with false in H
      end
  end.

Ltac expose H := expose_once H; repeat (decide_status H; expose_once H).

(** Name the answer of the next call the run makes. *)
Ltac ask_platform H :=
  match type of H with
  | context [?P ?R ?c ?w] =>
      match type of P with
      | Platform _ =>
          let E := fresh "Ecall" in
          destruct (P R c w) as [? ?] eqn:E;
          repeat match goal with
                 | E' : P R c w = ?rhs |- _ =>
                     match rhs with
                     | context [?r] =>
                         is_var r;
                         match type of r with
                         | (_ * _)%type => destruct r
                         end
                     end
                 end
      end
  end.

(** Branch on the status the run tests next. *)
Ltac split_status H :=
  match type of H with
  | context [match ?h with HAL_OK => _ | _ => _ end] => is_var h; destruct h
  | context [if ?z =? ?k then _ else _] =>
      is_var z;
      let E := fresh "Est" in
      destruct (z =? k) eqn:E;
      [apply Z.eqb_eq in E; subst z
      | pose proof (proj1 (Z.eqb_neq z k) E)]
  end.

(** Replace a call of [generate_random] on a constant length by its run. *)
Ltac ask_random H :=
  match type of H with
  | context [generate_random ?P ?buf ?len ?s] =>
      let rs := fresh "rs" in
      let w := fresh "w" in
      let Hrun := fresh "Hrun" in
      let Hcount := fresh "Hcount" in
      destruct (@generate_random_runs _ P buf len s)
        as (rs & w & Hrun & Hcount);
      [vm_compute; split; discriminate | rewrite Hrun in H; clear Hrun]
  end.

Ltac run_step H :=
  expose H; first [split_status H | ask_random H | ask_platform H].
Ltac run H := repeat run_step H; expose H.

Lemma Ret_inj {A} (a b : A) : Ret a = Ret b -> a = b.
Proof. intros H. injection H as ->. reflexivity. Qed.

(** Close a branch: split the run equation into outcome, final state and
    log, and substitute them. *)
Ltac finish H :=
  let Ho := fresh "Ho" in
  let Hs := fresh "Hs" in
  let He := fresh "He" in
  apply pair_equal_spec in H; destruct H as [Ho He];
  apply pair_equal_spec in Ho; destruct Ho as [Ho Hs];
  try (apply Ret_inj in Ho;
       try (apply pair_equal_spec in Ho; destruct Ho));
  subst;
  try match goal with
      | Hx : Halted = Ret _ |- _ => discriminate Hx
      | Hx : OutOfFuel = Ret _ |- _ => discriminate Hx
      end;
  try change (fun p : HAL_StatusTypeDef * Z => let (_, y) := p in y)
        with (@snd HAL_StatusTypeDef Z) in *;
  cbn [app mem world device_pubkey peer_pubkey aes_key rx_buffer iv challenge
       peer_challenge set_device_pubkey set_peer_pubkey set_aes_key
       set_rx_buffer set_iv set_challenge set_peer_challenge].

(** Some entry of a concrete log satisfies the test. *)
Ltac some_entry :=
  cbn [existsb];
  repeat match goal with
         | |- context [?p (Ev ?c ?r)] => is_const p; unfold p
         end;
  cbn [fst snd]; unfold neqb;
  repeat match goal with
         | E : (?z =? ?k) = false |- _ => rewrite E
         end;
  reflexivity.

Ltac not_success :=
  let Hr := fresh in
  intros Hr; first [discriminate Hr | contradiction | congruence].

Lemma fill_length n out : 0 <= n -> length (fill n out) = Z.to_nat n.
Proof.
  intros Hn. unfold fill, memcpy, memset0. cbv zeta.
  rewrite !length_app, length_skipn, repeat_length.
  change (Z.to_nat 0) with 0%nat. cbn [firstn length Nat.add].
  assert (length (firstn (Z.to_nat n) out) <= Z.to_nat n)%nat
    by (rewrite length_firstn; lia).
  lia.
Qed.

Lemma memcpy0_firstn dst src n :
  (Z.to_nat n <= length src)%nat ->
  firstn (Z.to_nat n) (memcpy dst 0 src n) = firstn (Z.to_nat n) src.
Proof.
  intros Hn. unfold memcpy. cbv zeta.
  change (Z.to_nat 0) with 0%nat. cbn [firstn app Nat.add].
  set (w := firstn (Z.to_nat n) src).
  assert (Hw : length w = Z.to_nat n)
    by (unfold w; rewrite length_firstn; lia).
  rewrite <- Hw at 1.
  replace (length w) with (length w + 0)%nat at 1 by lia.
  rewrite firstn_app_2, firstn_O, app_nil_r. reflexivity.
Qed.

Lemma concat_le_bytes_length vals :
  length (concat (map le_bytes vals)) = (4 * length vals)%nat.
Proof.
  induction vals as [|v vs IH]; [reflexivity|].
  cbn [map concat]. rewrite length_app, IH, le_bytes_length.
  cbn [length]. lia.
Qed.

Lemma memcpy0_length dst src n :
  0 <= n <= Z.of_nat (length dst) -> length (memcpy dst 0 src n) = length dst.
Proof.
  intros Hn. apply memcpy_length; [lia|].
  rewrite length_firstn. lia.
Qed.

Lemma fill_chunks_length buf len vals :
  0 <= len <= Z.of_nat (length buf) ->
  Z.of_nat (length vals) = (len + 3) / 4 ->
  length (fill_chunks buf len 0 vals) = length buf.
Proof.
  intros Hlen Hcount.
  assert (Hdiv : 4 * ((len + 3) / 4) >= len).
  { pose proof (Z.mod_pos_bound (len + 3) 4 ltac:(lia)).
    pose proof (Z.div_mod (len + 3) 4 ltac:(lia)). lia. }
  rewrite fill_chunks_content; [| lia | lia | rewrite Hcount; f_equal; lia].
  change (Z.to_nat 0) with 0%nat. cbn [firstn app].
  rewrite length_app, length_firstn, length_skipn, concat_le_bytes_length.
  lia.
Qed.

Lemma byte_of_Z_value z : Z.of_N (Byte.to_N (byte_of_Z z)) = z mod 256.
Proof.
  pose proof (Z.mod_pos_bound z 256 ltac:(lia)) as Hb.
  unfold byte_of_Z.
  destruct (Byte.of_N (Z.to_N (z mod 256))) eqn:E.
  - apply Byte.to_of_N in E. rewrite E. apply Z2N.id. lia.
  - apply Byte.of_N_None_iff in E. lia.
Qed.

(** The four bytes determine the 32-bit word. *)
Lemma le_bytes_inj x y : le_bytes x = le_bytes y -> uint32 x = uint32 y.
Proof.
  unfold le_bytes. intros H. injection H as H0 H1 H2 H3.
  apply (f_equal (fun b => Z.of_N (Byte.to_N b))) in H0, H1, H2, H3.
  rewrite !byte_of_Z_value in H0, H1, H2, H3.
  rewrite !Z.shiftr_div_pow2 in H1, H2, H3 by lia.
  unfold uint32.
  change (2 ^ 8) with 256 in *. change (2 ^ 16) with 65536 in *.
  change (2 ^ 24) with 16777216 in *. change (2 ^ 32) with 4294967296.
  Z.to_euclidean_division_equations. lia.
Qed.

(** With [iv] a 12-byte array, three RNG words fill it entirely. *)
Lemma nonce_bytes (iv0 : bytes) (rs : list (HAL_StatusTypeDef * Z)) :
  length iv0 = 12%nat -> length rs = 3%nat ->
  fill_chunks iv0 AES_IV_SIZE 0 (map snd rs)
  = concat (map le_bytes (map snd rs)).
Proof.
  intros Hiv Hrs.
  rewrite fill_chunks_content;
    [| unfold AES_IV_SIZE; lia | unfold AES_IV_SIZE; lia
     | rewrite length_map, Hrs; reflexivity ].
  change (Z.to_nat 0) with 0%nat. change (Z.to_nat (AES_IV_SIZE - 0)) with 12%nat.
  change (Z.to_nat AES_IV_SIZE) with 12%nat.
  rewrite firstn_O. cbn [app].
  rewrite skipn_all2 by lia. rewrite app_nil_r.
  apply firstn_all2. rewrite concat_le_bytes_length, length_map, Hrs. lia.
Qed.

Lemma nonce_whole (rs : list (HAL_StatusTypeDef * Z)) :
  length rs = 3%nat ->
  firstn 12 (concat (map le_bytes (map snd rs)))
  = concat (map le_bytes (map snd rs)).
Proof.
  intros Hrs. apply firstn_all2.
  rewrite concat_le_bytes_length, length_map, Hrs. lia.
Qed.

(** Equal byte strings come from equal 32-bit words. *)
Lemma concat_le_bytes_inj v1 :
  forall v2,
    length v1 = length v2 ->
    concat (map le_bytes v1) = concat (map le_bytes v2) ->
    map uint32 v1 = map uint32 v2.
Proof.
  induction v1 as [|x v1 IH]; intros [|y v2] Hlen Heq;
    try discriminate Hlen; [reflexivity|].
  cbn [map concat] in Heq |- *.
  assert (Hx : le_bytes x = le_bytes y /\
               concat (map le_bytes v1) = concat (map le_bytes v2)).
  { unfold le_bytes in Heq |- *. cbn [app] in Heq.
    injection Heq as -> -> -> -> Ht. split; [reflexivity | exact Ht]. }
  destruct Hx as [Hx Ht].
  rewrite (le_bytes_inj Hx). f_equal.
  apply IH; [cbn [length] in Hlen; lia | exact Ht].
Qed.

Lemma neqb_true a b : (a !=? b) = true <-> a <> b.
Proof.
  unfold neqb. rewrite negb_true_iff. apply Z.eqb_neq.
Qed.

(** ** Session-key derivation *)

Section DeriveSharedSecret.

Context {W : Type} (P : Platform W).

(** C2.  [derive_shared_secret] always returns.  When it returns
    [ATCA_SUCCESS] it made exactly four calls, all successful: the ECDH of
    the secure element on [DEVICE_KEY_SLOT] and the stored peer public key,
    then SHA-256 initialised, fed the 32 bytes of the shared secret, and
    finalised; the first 16 bytes of [aes_key] are then the first 16 bytes
    of that digest.  It returns a status other than [ATCA_SUCCESS] exactly
    when one of the calls it made reported a failure, and [aes_key] is then
    what it was. *)
Theorem derive_shared_secret_key (s s' : State W) o evs :
  derive_shared_secret P s = (o, s', evs) ->
  exists r,
    o = Ret r
    /\ (r = ATCA_SUCCESS ->
        exists shared digest,
          evs = [ Ev (atcab_ecdh DEVICE_KEY_SLOT (peer_pubkey (mem s)))
                     (ATCA_SUCCESS, shared);
                  Ev wc_InitSha256 0;
                  Ev (wc_Sha256Update (fill 32 shared) 32) 0;
                  Ev wc_Sha256Final (0, digest) ]
          /\ length (fill 32 shared) = 32%nat
          /\ aes_key (mem s')
             = memcpy (aes_key (mem s)) 0 (fill 32 digest) AES_KEY_SIZE
          /\ firstn 16 (aes_key (mem s')) = firstn 16 (fill 32 digest))
    /\ (r <> ATCA_SUCCESS <-> existsb call_failed evs = true)
    /\ (r <> ATCA_SUCCESS -> aes_key (mem s') = aes_key (mem s)).
Proof.
  intros H. destruct s as [w g]. destruct g.
  unfold derive_shared_secret in H. run H.
  all: finish H; eexists; split; [reflexivity|].
  1: { split; [|split].
       - intros _. do 2 eexists. split; [reflexivity|].
         split; [apply fill_length; lia|]. split; [reflexivity|].
         change 16%nat with (Z.to_nat AES_KEY_SIZE).
         apply memcpy0_firstn. rewrite fill_length by lia.
         unfold AES_KEY_SIZE. lia.
       - split; [intros Hr; now contradiction Hr|].
         cbn [existsb call_failed fst snd]. unfold neqb. cbn. discriminate.
       - intros Hr. now contradiction Hr. }
  all: split; [not_success|]; split; [|reflexivity].
  all: split; [intros _; some_entry | intros _].
  all: first [discriminate | assumption].
Qed.

End DeriveSharedSecret.

(** ** The handshake *)

Lemma observe_app {A} (f : Event -> option A) t1 t2 :
  observe f (t1 ++ t2) = observe f t1 ++ observe f t2.
Proof.
  induction t1 as [|e t1 IH]; [reflexivity|].
  cbn [app observe]. rewrite IH.
  destruct (f e); reflexivity.
Qed.

Lemma observe_rng {A} (f : Event -> option A) rs :
  (forall r, f (rng_event r) = None) -> observe f (map rng_event rs) = [].
Proof.
  intros Hf. induction rs as [|r rs IH]; [reflexivity|].
  cbn [map observe]. rewrite Hf. exact IH.
Qed.

Lemma observe_console {A} (f : Event -> option A) cons :
  (forall e, console_event e = true -> f e = None) ->
  forallb console_event cons = true -> observe f cons = [].
Proof.
  intros Hf. induction cons as [|e cons IH]; [reflexivity|].
  cbn [forallb observe]. intros H. apply andb_true_iff in H.
  destruct H as [He Hc]. rewrite (Hf e He). exact (IH Hc).
Qed.

Lemma existsb_console (p : Event -> bool) cons :
  (forall e, console_event e = true -> p e = false) ->
  forallb console_event cons = true -> existsb p cons = false.
Proof.
  intros Hp. induction cons as [|e cons IH]; [reflexivity|].
  cbn [forallb existsb]. intros H. apply andb_true_iff in H.
  destruct H as [He Hc]. rewrite (Hp e He), (IH Hc). reflexivity.
Qed.

Lemma existsb_skip_console (p : Event -> bool) cons t :
  (forall e, console_event e = true -> p e = false) ->
  forallb console_event cons = true ->
  existsb p (cons ++ t) = existsb p t.
Proof.
  intros Hp Hc. rewrite existsb_app, (existsb_console _ _ Hp Hc). reflexivity.
Qed.

(** Console traffic is not traffic on the SATCOM link, and uses no key. *)
Lemma console_no_transport e : console_event e = true -> transport_op e = None.
Proof.
  destruct e as [R c r]. destruct c; try discriminate;
    destruct u; try discriminate; reflexivity.
Qed.

Lemma console_no_key e : console_event e = true -> aes_key_of e = None.
Proof. destruct e as [R c r]. destruct c; try discriminate; reflexivity. Qed.

Lemma console_no_encryption e :
  console_event e = true -> encryption_of e = None.
Proof. destruct e as [R c r]. destruct c; try discriminate; reflexivity. Qed.

Section Handshake.

Context {W : Type} (P : Platform W).

Ltac run_handshake H :=
  unfold perform_key_exchange, verify_peer_public_key, sign_message,
    derive_shared_secret in H;
  run H.

(** C1.  A run of [perform_key_exchange] that returns [ATCA_SUCCESS] made
    exactly the calls listed, in this order.  On the SATCOM link that is:
    send the 64-byte local public key, receive the 64-byte peer public key,
    send the 32-byte challenge just generated, receive the peer's 64-byte
    signature, receive the peer's 32-byte challenge, send the 64-byte
    signature the secure element made of the SHA-256 digest of the peer's
    challenge.  Both public keys are exchanged before either challenge, the
    local challenge is sent before the peer's signature is verified, and
    the signature answering the peer's challenge is sent before the ECDH
    call of the secret derivation.  When [device_pubkey] and [challenge]
    have their declared sizes, the data handed to the UART have the sizes
    asked for. *)
Theorem perform_key_exchange_order (s s' : State W) evs :
  perform_key_exchange P s = (Ret ATCA_SUCCESS, s', evs) ->
  exists (peer_pk : bytes) (rng : list (HAL_StatusTypeDef * Z))
         (peer_sig dig_c : bytes) (e1 e2 : Z)
         (peer_ch dig_p sig shared dig_s : bytes),
    evs =
      [ Ev (HAL_UART_Transmit huart2 (firstn 64 (device_pubkey (mem s))) 64
                              COMM_TIMEOUT_MS) HAL_OK;
        Ev (HAL_UART_Receive huart2 64 COMM_TIMEOUT_MS) (HAL_OK, peer_pk) ]
      ++ map rng_event rng
      ++ [ Ev (HAL_UART_Transmit huart2 (firstn 32 (challenge (mem s'))) 32
                                 COMM_TIMEOUT_MS) HAL_OK;
           Ev (HAL_UART_Receive huart2 64 COMM_TIMEOUT_MS) (HAL_OK, peer_sig);
           Ev wc_InitSha256 0;
           Ev (wc_Sha256Update (firstn 32 (challenge (mem s'))) 32) 0;
           Ev wc_Sha256Final (0, dig_c);
           Ev wc_ecc_init e1;
           Ev (wc_ecc_import_x963 (firstn 64 (peer_pubkey (mem s'))) 64) 0;
           Ev (wc_ecc_set_curve 32 ECC_SECP256R1) 0;
           Ev (wc_ecc_verify_hash (fill 64 peer_sig) 64 (fill 32 dig_c) 32)
              (0, 1);
           Ev wc_ecc_free e2;
           Ev (HAL_UART_Receive huart2 32 COMM_TIMEOUT_MS) (HAL_OK, peer_ch);
           Ev wc_InitSha256 0;
           Ev (wc_Sha256Update (firstn 32 (peer_challenge (mem s'))) 32) 0;
           Ev wc_Sha256Final (0, dig_p);
           Ev (atcab_sign DEVICE_KEY_SLOT (fill 32 dig_p)) (ATCA_SUCCESS, sig);
           Ev (HAL_UART_Transmit huart2 (firstn 64 (fill 64 sig)) 64
                                 COMM_TIMEOUT_MS) HAL_OK;
           Ev (atcab_ecdh DEVICE_KEY_SLOT (peer_pubkey (mem s')))
              (ATCA_SUCCESS, shared);
           Ev wc_InitSha256 0;
           Ev (wc_Sha256Update (fill 32 shared) 32) 0;
           Ev wc_Sha256Final (0, dig_s) ]
    /\ transport_ops evs =
         [ TSend (firstn 64 (device_pubkey (mem s))) 64;
           TRecv 64 peer_pk;
           TSend (firstn 32 (challenge (mem s'))) 32;
           TRecv 64 peer_sig;
           TRecv 32 peer_ch;
           TSend (firstn 64 (fill 64 sig)) 64 ]
    /\ length rng = 8%nat
    /\ device_pubkey (mem s') = device_pubkey (mem s)
    /\ peer_pubkey (mem s') = memcpy (peer_pubkey (mem s)) 0 peer_pk 64
    /\ challenge (mem s') = fill_chunks (challenge (mem s)) 32 0 (map snd rng)
    /\ peer_challenge (mem s') = memcpy (peer_challenge (mem s)) 0 peer_ch 32
    /\ (length (device_pubkey (mem s)) = 64%nat ->
        length (challenge (mem s)) = 32%nat ->
        length (firstn 64 (device_pubkey (mem s))) = 64%nat
        /\ length (firstn 32 (challenge (mem s'))) = 32%nat
        /\ length (firstn 64 (fill 64 sig)) = 64%nat).
Proof.
  intros H. destruct s as [w g]. destruct g. run_handshake H.
  all: try discriminate H.
  all: try (exfalso; injection H as Hr _ _; congruence).
  finish H.
  do 11 eexists. split; [reflexivity|].
  split.
  { unfold transport_ops. cbn [app observe transport_op snd].
    rewrite observe_app, observe_rng by reflexivity. reflexivity. }
  assert (Hrs : length rs = 8%nat)
    by (apply Nat2Z.inj; rewrite Hcount; reflexivity).
  split; [exact Hrs|].
  do 4 (split; [reflexivity|]).
  intros Hpk Hch. split; [rewrite length_firstn; lia|]. split.
  - rewrite length_firstn, fill_chunks_length;
      [lia | unfold CHALLENGE_SIZE; lia | rewrite length_map, Hrs; reflexivity].
  - rewrite length_firstn, fill_length; lia.
Qed.

End Handshake.

Lemma existsb_rng (p : Event -> bool) rs :
  (forall r, p (rng_event r) = false) ->
  existsb p (map rng_event rs) = false.
Proof.
  intros Hp. induction rs as [|r rs IH]; [reflexivity|].
  cbn [map existsb]. rewrite Hp, IH. reflexivity.
Qed.

Lemma drop_until_app p t1 t2 :
  existsb p t1 = false -> drop_until p (t1 ++ t2) = drop_until p t2.
Proof.
  induction t1 as [|e t1 IH]; [reflexivity|].
  cbn [existsb app drop_until]. intros H.
  apply orb_false_iff in H. destruct H as [He Ht].
  rewrite He. exact (IH Ht).
Qed.

Lemma existsb_skip_rng (p : Event -> bool) rs t :
  (forall r, p (rng_event r) = false) ->
  existsb p (map rng_event rs ++ t) = existsb p t.
Proof.
  intros Hp. rewrite existsb_app, existsb_rng by exact Hp. reflexivity.
Qed.

Lemma drop_until_skip_rng (p : Event -> bool) rs t :
  (forall r, p (rng_event r) = false) ->
  drop_until p (map rng_event rs ++ t) = drop_until p t.
Proof.
  intros Hp. apply drop_until_app, existsb_rng, Hp.
Qed.

(** Evaluate a predicate over a concrete log, using what is known of the
    statuses. *)
Ltac unfold_event_tests :=
  repeat match goal with
         | |- context [?p (Ev ?c ?r)] => is_const p; unfold p
         end.

Ltac unfold_event_tests_in H :=
  repeat match type of H with
         | context [?p (Ev ?c ?r)] => is_const p; unfold p in H
         end.

Ltac eval_log :=
  cbn [app existsb drop_until];
  rewrite ?existsb_skip_rng, ?drop_until_skip_rng by (intros; reflexivity);
  cbn [app existsb drop_until];
  unfold_event_tests;
  cbn [fst snd]; unfold neqb;
  repeat match goal with
         | E : (?z =? ?k) = _ |- _ => rewrite E
         end;
  cbn [app existsb drop_until fst snd negb andb orb Z.eqb Pos.eqb
       ATCA_SUCCESS is_HAL_OK].

Ltac eval_log_in H :=
  cbn [app existsb drop_until] in H;
  rewrite ?existsb_skip_rng, ?drop_until_skip_rng in H
    by (intros; reflexivity);
  cbn [app existsb drop_until] in H;
  unfold_event_tests_in H;
  cbn [fst snd] in H; unfold neqb in H;
  repeat match goal with
         | E : (?z =? ?k) = _ |- _ => rewrite E in H
         end;
  cbn [app existsb drop_until fst snd negb andb orb Z.eqb Pos.eqb
       ATCA_SUCCESS is_HAL_OK] in H.

Section Authentication.

Context {W : Type} (P : Platform W).

Lemma verify_peer_public_key_run (s s' : State W) o evs :
  verify_peer_public_key P s = (o, s', evs) ->
  exists r,
    o = Ret r
    /\ mem s' = mem s
    /\ (r = ATCA_FUNC_FAIL <-> existsb auth_rejected evs = true)
    /\ (r = ATCA_SUCCESS <->
        exists sig digest e1 e2,
          evs =
            [ Ev (HAL_UART_Receive huart2 64 COMM_TIMEOUT_MS) (HAL_OK, sig);
              Ev wc_InitSha256 0;
              Ev (wc_Sha256Update (firstn 32 (challenge (mem s))) 32) 0;
              Ev wc_Sha256Final (0, digest);
              Ev wc_ecc_init e1;
              Ev (wc_ecc_import_x963 (firstn 64 (peer_pubkey (mem s))) 64) 0;
              Ev (wc_ecc_set_curve 32 ECC_SECP256R1) 0;
              Ev (wc_ecc_verify_hash (fill 64 sig) 64 (fill 32 digest) 32)
                 (0, 1);
              Ev wc_ecc_free e2 ]).
Proof.
  intros H. destruct s as [w g]. destruct g.
  unfold verify_peer_public_key in H. run H.
  all: finish H; eexists; split; [reflexivity|]; split; [reflexivity|].
  all: split.
  all: try (eval_log; split; intros Hx;
            first [reflexivity | discriminate Hx]).
  all: split.
  all: try discriminate.
  all: try (intros _; do 4 eexists; reflexivity).
  all: try reflexivity.
  all: intros (sig & digest & e1 & e2 & Heq); exfalso.
  all: try (apply (f_equal (@length _)) in Heq; discriminate Heq).
  all: apply (f_equal (existsb auth_rejected)) in Heq.
  all: eval_log_in Heq; discriminate Heq.
Qed.

(** C5.  The verification step [verify_peer_public_key] returns
    [ATCA_FUNC_FAIL] exactly when the import of the peer public key, the
    curve set-up or the signature check was turned down, and returns
    [ATCA_SUCCESS] exactly when the 64-byte signature it received was
    accepted by [wc_ecc_verify_hash] against the SHA-256 digest of the
    32-byte [challenge] under the stored [peer_pubkey].  Within
    [perform_key_exchange], such a rejection ends the run with
    [ATCA_FUNC_FAIL]: after the rejected call only the ECC key is freed,
    nothing is received, verified or sent again. *)
Theorem verify_peer_authentication :
  (forall (s s' : State W) o evs,
      verify_peer_public_key P s = (o, s', evs) ->
      exists r,
        o = Ret r
        /\ mem s' = mem s
        /\ (r = ATCA_FUNC_FAIL <-> existsb auth_rejected evs = true)
        /\ (r = ATCA_SUCCESS <->
            exists sig digest e1 e2,
              evs =
                [ Ev (HAL_UART_Receive huart2 64 COMM_TIMEOUT_MS)
                     (HAL_OK, sig);
                  Ev wc_InitSha256 0;
                  Ev (wc_Sha256Update (firstn 32 (challenge (mem s))) 32) 0;
                  Ev wc_Sha256Final (0, digest);
                  Ev wc_ecc_init e1;
                  Ev (wc_ecc_import_x963 (firstn 64 (peer_pubkey (mem s))) 64)
                     0;
                  Ev (wc_ecc_set_curve 32 ECC_SECP256R1) 0;
                  Ev (wc_ecc_verify_hash (fill 64 sig) 64 (fill 32 digest) 32)
                     (0, 1);
                  Ev wc_ecc_free e2 ]))
  /\ (forall (s s' : State W) o evs,
        perform_key_exchange P s = (o, s', evs) ->
        existsb auth_rejected evs = true ->
        o = Ret ATCA_FUNC_FAIL
        /\ exists e, drop_until auth_rejected evs = [Ev wc_ecc_free e]).
Proof.
  split; [exact verify_peer_public_key_run|].
  intros s s' o evs H Hrej. destruct s as [w g]. destruct g.
  unfold perform_key_exchange, verify_peer_public_key, sign_message,
    derive_shared_secret in H.
  run H.
  all: finish H; eval_log_in Hrej; try discriminate Hrej.
  all: split; [reflexivity|]; eexists; eval_log; reflexivity.
Qed.

End Authentication.

(** ** Console input *)

Section ConsoleInput.

Context {W : Type} (P : Platform W).

Lemma store_length buf idx ch : length (store buf idx ch) = length buf.
Proof.
  revert idx. induction buf as [|h t IH]; intros [|i]; cbn [store length];
    try reflexivity.
  rewrite IH. reflexivity.
Qed.

(** The input loop returns, with [-1] or with the number of characters
    stored, which is at most [RX_BUFFER_SIZE - 1]; it only talks to the
    console and only writes [rx_buffer]. *)
Lemma receive_user_input_loop_runs fuel :
  forall idx ch (s : State W),
    0 <= idx <= 127 -> (Z.to_nat (127 - idx) < fuel)%nat ->
    exists len w' rx cons,
      receive_user_input_loop P fuel idx ch s
      = (Ret len, mkState w' (set_rx_buffer rx (mem s)), cons)
      /\ (len = -1 \/ idx <= len <= 127)
      /\ forallb console_event cons = true
      /\ length rx = length (rx_buffer (mem s)).
Proof.
  induction fuel as [|fuel IH]; intros idx ch s Hidx Hfuel; [lia|].
  destruct s as [w g].
  cbn [receive_user_input_loop].
  change (RX_BUFFER_SIZE - 1) with 127.
  destruct (Z.ltb_spec idx 127) as [Hlt|Hge].
  - unfold bind at 1, call at 1. cbn [world mem].
    destruct (P (HAL_UART_Receive huart1 1 HAL_MAX_DELAY) w)
      as [[st data] w1] eqn:Erx.
    cbn [fst snd].
    destruct st; cbn [is_HAL_OK negb];
      try (exists (-1), w1, (rx_buffer g); eexists; split;
           [destruct g; reflexivity|];
           split; [left; reflexivity|]; split; reflexivity).
    destruct (Byte.eqb (hd ch data) x0d || Byte.eqb (hd ch data) x0a).
    + exists idx, w1, (rx_buffer g); eexists. split; [destruct g; reflexivity|].
      split; [right; lia|]. split; reflexivity.
    + unfold bind at 1, call at 1. cbn [world mem].
      destruct (P (HAL_UART_Transmit huart1 [hd ch data] 1 HAL_MAX_DELAY) w1)
        as [st2 w2] eqn:Etx.
      unfold bind at 1, update at 1. cbn [world mem].
      rewrite uint16_small by lia.
      edestruct (IH (idx + 1) (hd ch data)
                    (mkState w2 (set_rx_buffer
                                   (store (rx_buffer g) (Z.to_nat idx)
                                          (hd ch data)) g)))
        as (len & w' & rx & cons & Hrun & Hlen & Hcons & Hrx); [lia | lia |].
      rewrite Hrun.
      exists len, w', rx; eexists. split; [destruct g; reflexivity|].
      split; [destruct Hlen; [left; assumption | right; lia]|].
      split.
      * cbn [app forallb console_event andb]. exact Hcons.
      * rewrite Hrx. destruct g. cbn [mem rx_buffer set_rx_buffer].
        apply store_length.
  - exists idx, w, (rx_buffer g), []. split; [destruct g; reflexivity|].
    split; [right; lia|]. split; reflexivity.
Qed.

Lemma receive_user_input_runs (s : State W) :
  exists len w' rx cons,
    receive_user_input P s
    = (Ret len, mkState w' (set_rx_buffer rx (mem s)), cons)
    /\ -1 <= len <= 127
    /\ forallb console_event cons = true
    /\ length rx = 128%nat.
Proof.
  destruct s as [w g]. unfold receive_user_input.
  unfold bind at 1, call at 1. cbn [world mem].
  destruct (P (HAL_UART_Transmit huart1 prompt (uint16 (strlen prompt))
                                 HAL_MAX_DELAY) w) as [st w1] eqn:Etx.
  unfold bind at 1, update at 1. cbn [world mem].
  edestruct (@receive_user_input_loop_runs (Z.to_nat RX_BUFFER_SIZE) 0 x00
               (mkState w1 (set_rx_buffer (memset0 RX_BUFFER_SIZE) g)))
    as (len & w' & rx & cons & Hrun & Hlen & Hcons & Hrx);
    [lia | vm_compute; lia |].
  rewrite Hrun.
  exists len, w', rx; eexists. split; [destruct g; reflexivity|].
  split; [lia|]. split.
  - cbn [app forallb console_event andb]. exact Hcons.
  - rewrite Hrx. destruct g. reflexivity.
Qed.

End ConsoleInput.

(** ** One turn of the messaging loop *)

(** Replace the call of [receive_user_input] by its run. *)
Ltac ask_input H len Hlen cons Hcons :=
  match type of H with
  | context [receive_user_input ?P ?s] =>
      let w := fresh "w" in
      let rx := fresh "rx" in
      let Hrun := fresh "Hrun" in
      let Hrx := fresh "Hrx" in
      destruct (receive_user_input_runs P s)
        as (len & w & rx & cons & Hrun & Hlen & Hcons & Hrx);
      rewrite Hrun in H
  end.

Ltac run_turn H :=
  let len := fresh "len" in
  let Hlen := fresh "Hlen" in
  let cons := fresh "cons" in
  let Hcons := fresh "Hcons" in
  let Elen := fresh "Elen" in
  unfold main_turn, encrypt_message, sign_message in H;
  expose H; ask_input H len Hlen cons Hcons; expose H;
  destruct (len <=? 0) eqn:Elen;
  [ apply Z.leb_le in Elen
  | apply Z.leb_gt in Elen;
    rewrite ?(@uint16_small len), ?(@uint32_small len) in H by lia;
    run H ].

(** ** The random source *)

Section RandomSource.

Context {W : Type} (P : Platform W).

Lemma generate_random_loop_status_blind fuel :
  forall buf len i (s : State W),
    fst (generate_random_loop (fail_rng P) fuel buf len i s)
    = fst (generate_random_loop P fuel buf len i s).
Proof.
  induction fuel as [|fuel IH]; intros buf len i s; [reflexivity|].
  cbn [generate_random_loop].
  destruct (i <? len); [|reflexivity].
  unfold bind, call, fail_rng.
  destruct (P HAL_RNG_GenerateRandomNumber (world s)) as [[st v] w'].
  cbn [fst snd].
  specialize (IH (memcpy buf i (le_bytes v)
                         (if len - i >=? 4 then 4 else len - i))
                 len (uint32 (i + 4)) (mkState w' (mem s))).
  unfold fail_rng in IH.
  destruct (generate_random_loop _ fuel _ len (uint32 (i + 4)) _)
    as [[o1 s1] e1] in IH |- *.
  destruct (generate_random_loop P fuel _ len (uint32 (i + 4)) _)
    as [[o2 s2] e2].
  cbn [fst] in IH. injection IH as -> ->.
  destruct o2; reflexivity.
Qed.

(** C10.  For every buffer of at least [len] bytes, with [len] at most
    [2^32 - 4] (the largest multiple of four a [size_t] holds),
    [generate_random] returns: it never enters [Error_Handler] and has no
    status to return.  It calls the hardware RNG once per started group of
    four bytes, and the first [len] bytes of the buffer are then the
    little-endian bytes of the successive values of [rnd], whatever status
    each call reported; the rest of the buffer and the globals are
    untouched.  On the platform where every RNG call reports [HAL_ERROR]
    the caller gets the same buffer and the same state. *)
Theorem generate_random_total buf len (s : State W) :
  0 <= len <= 2 ^ 32 - 4 ->
  len <= Z.of_nat (length buf) ->
  exists rs w',
    generate_random P buf len s
    = (Ret (firstn (Z.to_nat len) (concat (map le_bytes (map snd rs)))
            ++ skipn (Z.to_nat len) buf),
       mkState w' (mem s),
       map rng_event rs)
    /\ Z.of_nat (length rs) = (len + 3) / 4
    /\ length (firstn (Z.to_nat len) (concat (map le_bytes (map snd rs))))
       = Z.to_nat len
    /\ fst (generate_random (fail_rng P) buf len s)
       = fst (generate_random P buf len s).
Proof.
  intros Hlen Hbuf.
  destruct (generate_random_runs P buf s Hlen) as (rs & w' & Hrun & Hcount).
  exists rs, w'.
  assert (Hdiv : 4 * ((len + 3) / 4) >= len).
  { pose proof (Z.mul_div_le (len + 3) 4 ltac:(lia)).
    pose proof (Z.mod_pos_bound (len + 3) 4 ltac:(lia)).
    pose proof (Z.div_mod (len + 3) 4 ltac:(lia)). lia. }
  split.
  - rewrite Hrun. f_equal. f_equal. f_equal.
    rewrite fill_chunks_content; [| lia | lia | ].
    + change (Z.to_nat 0) with 0%nat. cbn [firstn app].
      rewrite Z.sub_0_r. reflexivity.
    + rewrite length_map, Hcount. f_equal. lia.
  - split; [exact Hcount|]. split.
    + rewrite length_firstn, concat_le_bytes_length, length_map. lia.
    + unfold generate_random. cbv zeta.
      apply generate_random_loop_status_blind.
Qed.

End RandomSource.

(** ** One message *)

(** Read through [observe] a log made of console traffic, RNG calls and
    known entries: [view] is the reading, [sel] its selector and [quiet]
    the fact that [sel] skips console traffic. *)
Ltac observe_with view sel quiet :=
  unfold view;
  cbn [app observe sel snd];
  rewrite ?observe_app;
  rewrite ?(observe_console _ _ quiet) by assumption;
  rewrite ?observe_rng by reflexivity;
  cbn [app observe sel snd];
  rewrite ?app_nil_r.

Section Messaging.

Context {W : Type} (P : Platform W).

(** C3.  A turn of the messaging loop that returns is decided by the
    length [len] that [receive_user_input] returned.  If [len <= 0] (empty
    line or console failure) it did nothing else: nothing was sent, and
    [encrypted] and [tag] are as they were.  Otherwise [1 <= len <= 127]
    and the turn made exactly the calls listed after the console traffic
    and the three RNG calls: one AES-GCM encryption of the [len] bytes of
    [rx_buffer], whose answer [(cipher, tagv)] is what [encrypted] and
    [tag] then hold ([len] bytes of ciphertext, 16 bytes of tag, as far as
    wolfCrypt delivered them), then on the SATCOM link four transmissions,
    in this order: the 12-byte nonce, the 16 bytes of [tag], the [len]
    bytes of [encrypted], and the 64-byte signature that the secure element
    made under [DEVICE_KEY_SLOT] of the SHA-256 digest of the same [len]
    bytes of [rx_buffer] (the plaintext, not the ciphertext). *)
Theorem main_turn_frame (s s' : State W) enc tag enc' tag' evs :
  length enc = 128%nat -> length tag = 16%nat ->
  length (iv (mem s)) = 12%nat ->
  main_turn P enc tag s = (Ret (enc', tag'), s', evs) ->
  exists len s1 typed,
    receive_user_input P s = (Ret len, s1, typed)
    /\ forallb console_event typed = true
    /\ ((len <= 0 /\ evs = typed /\ s' = s1 /\ enc' = enc /\ tag' = tag
         /\ transport_ops evs = [] /\ encryptions evs = [])
        \/ (1 <= len <= 127
            /\ exists rng cipher tagv u digest sig,
                length rng = 3%nat
                /\ evs =
                     typed ++ map rng_event rng
                     ++ [ Ev (wc_AesInit INVALID_DEVID) 0;
                          Ev (wc_AesGcmSetKey (firstn 16 (aes_key (mem s'))) 16)
                             0;
                          Ev (wc_AesGcmEncrypt
                                (firstn (Z.to_nat len) (rx_buffer (mem s')))
                                len (firstn 12 (iv (mem s'))) 12 16 [] 0)
                             (0, cipher, tagv);
                          Ev wc_AesFree u;
                          Ev (HAL_UART_Transmit huart2
                                (firstn 12 (iv (mem s'))) 12 COMM_TIMEOUT_MS)
                             HAL_OK;
                          Ev (HAL_UART_Transmit huart2 (firstn 16 tag') 16
                                                COMM_TIMEOUT_MS) HAL_OK;
                          Ev (HAL_UART_Transmit huart2
                                (firstn (Z.to_nat len) enc') len
                                COMM_TIMEOUT_MS) HAL_OK;
                          Ev wc_InitSha256 0;
                          Ev (wc_Sha256Update
                                (firstn (Z.to_nat len) (rx_buffer (mem s')))
                                len) 0;
                          Ev wc_Sha256Final (0, digest);
                          Ev (atcab_sign DEVICE_KEY_SLOT (fill 32 digest))
                             (ATCA_SUCCESS, sig);
                          Ev (HAL_UART_Transmit huart2
                                (firstn 64 (fill 64 sig)) 64 COMM_TIMEOUT_MS)
                             HAL_OK ]
                /\ enc' = memcpy enc 0 cipher len
                /\ tag' = memcpy tag 0 tagv AES_TAG_SIZE
                /\ ((Z.to_nat len <= length cipher)%nat ->
                    firstn (Z.to_nat len) enc' = firstn (Z.to_nat len) cipher)
                /\ ((16 <= length tagv)%nat ->
                    firstn 16 tag' = firstn 16 tagv)
                /\ rx_buffer (mem s') = rx_buffer (mem s1)
                /\ aes_key (mem s') = aes_key (mem s)
                /\ iv (mem s')
                   = fill_chunks (iv (mem s)) AES_IV_SIZE 0 (map snd rng)
                /\ transport_ops evs =
                     [ TSend (firstn 12 (iv (mem s'))) 12;
                       TSend (firstn 16 tag') 16;
                       TSend (firstn (Z.to_nat len) enc') len;
                       TSend (firstn 64 (fill 64 sig)) 64 ]
                /\ length (firstn (Z.to_nat len) (rx_buffer (mem s')))
                   = Z.to_nat len
                /\ length (firstn 12 (iv (mem s'))) = 12%nat
                /\ length (firstn 16 tag') = 16%nat
                /\ length (firstn (Z.to_nat len) enc') = Z.to_nat len
                /\ length (firstn 64 (fill 64 sig)) = 64%nat)).
Proof.
  intros Henc Htag Hiv H. destruct s as [w g].
  destruct g as [g1 g2 g3 g4 g5 g6 g7].
  cbn [mem iv] in Hiv.
  run_turn H.
  all: finish H.
  all: do 3 eexists; split; [eassumption|]; split; [assumption|].
  - left. split; [assumption|]. rewrite app_nil_r.
    do 4 (split; [reflexivity|]).
    split;
      [ observe_with transport_ops transport_op console_no_transport
      | observe_with encryptions encryption_of console_no_encryption ];
      reflexivity.
  - right. split; [lia|].
    do 6 eexists.
    assert (Hrs : length rs = 3%nat)
      by (apply Nat2Z.inj; rewrite Hcount; reflexivity).
    split; [exact Hrs|].
    split; [reflexivity|].
    split; [reflexivity|]. split; [reflexivity|].
    split; [intros Hc; apply memcpy0_firstn; exact Hc|].
    split; [intros Ht; apply (memcpy0_firstn tag _ AES_TAG_SIZE); exact Ht|].
    split; [reflexivity|]. split; [reflexivity|]. split; [reflexivity|].
    split.
    { observe_with transport_ops transport_op console_no_transport.
      reflexivity. }
    split; [rewrite length_firstn; lia|].
    split.
    { rewrite length_firstn, fill_chunks_length;
        [lia | unfold AES_IV_SIZE; lia | rewrite length_map, Hrs; reflexivity]. }
    split.
    { rewrite length_firstn, memcpy0_length; [lia | unfold AES_TAG_SIZE; lia]. }
    split.
    { rewrite length_firstn, memcpy0_length; lia. }
    rewrite length_firstn, fill_length; lia.
Qed.

(** C9.  In every turn of the messaging loop that asks for an encryption,
    the three RNG calls that fill [iv] are made in that turn and are
    followed at once by [wc_AesInit], [wc_AesGcmSetKey] and
    [wc_AesGcmEncrypt]; the 12-byte nonce passed to the encryption is the
    little-endian bytes of the three values those calls left in [rnd], and
    nothing else enters it (no counter, no stored state).  The nonce
    determines the three 32-bit words: two encryptions have the same nonce
    only if the RNG delivered the same words. *)
Theorem main_turn_nonce (s s' : State W) enc tag o evs :
  length (iv (mem s)) = 12%nat ->
  main_turn P enc tag s = (o, s', evs) ->
  encryptions evs = []
  \/ exists typed rng plain len a b r rest,
      forallb console_event typed = true
      /\ length rng = 3%nat
      /\ evs =
           typed ++ map rng_event rng
           ++ Ev (wc_AesInit INVALID_DEVID) a
           :: Ev (wc_AesGcmSetKey (firstn 16 (aes_key (mem s))) 16) b
           :: Ev (wc_AesGcmEncrypt plain len
                    (concat (map le_bytes (map snd rng))) 12 16 [] 0) r
           :: rest
      /\ encryptions evs = [(plain, len, concat (map le_bytes (map snd rng)))]
      /\ length (concat (map le_bytes (map snd rng))) = 12%nat
      /\ iv (mem s') = concat (map le_bytes (map snd rng))
      /\ forall rng2 : list (HAL_StatusTypeDef * Z),
           length rng2 = 3%nat ->
           concat (map le_bytes (map snd rng2))
           = concat (map le_bytes (map snd rng)) ->
           map uint32 (map snd rng2) = map uint32 (map snd rng).
Proof.
  intros Hiv H. destruct s as [w g]. destruct g.
  cbn [mem iv] in Hiv.
  run_turn H.
  all: finish H.
  all: try (left;
            observe_with encryptions encryption_of console_no_encryption;
            reflexivity).
  all: right.
  all: assert (Hrs : length rs = 3%nat)
      by (apply Nat2Z.inj; rewrite Hcount; reflexivity).
  all: rewrite ?(nonce_bytes iv0 rs Hiv Hrs).
  all: change (Z.to_nat AES_IV_SIZE) with 12%nat.
  all: rewrite !(nonce_whole rs Hrs).
  all: exists cons, rs; do 6 eexists.
  all: split; [assumption|]; split; [exact Hrs|].
  all: split; [reflexivity|].
  all: split;
    [ observe_with encryptions encryption_of console_no_encryption;
      reflexivity |].
  all: split; [rewrite concat_le_bytes_length, length_map, Hrs; reflexivity|].
  all: split; [reflexivity|].
  all: intros rng2 Hrng2 Heq; apply concat_le_bytes_inj;
    [rewrite !length_map; congruence | exact Heq].
Qed.

End Messaging.


(** ** Fail-stop *)

Lemma console_no_channel_error e :
  console_event e = true -> channel_error e = false.
Proof.
  destruct e as [R c r]. destruct c; try discriminate;
    destruct u; try discriminate; reflexivity.
Qed.

Section FailStop.

Context {W : Type} (P : Platform W).

(** A turn either meets no channel error and returns, or meets one and
    halts, and then makes no further operation. *)
Lemma main_turn_fail_stop (s s' : State W) enc tag o evs :
  main_turn P enc tag s = (o, s', evs) ->
  (existsb channel_error evs = false /\ exists r, o = Ret r)
  \/ (existsb channel_error evs = true /\ o = Halted
      /\ existsb operation (drop_until channel_error evs) = false).
Proof.
  intros H. destruct s as [w g]. destruct g.
  run_turn H.
  all: finish H.
  all: pose proof (existsb_console _ _ console_no_channel_error Hcons) as Hq.
  all: rewrite ?(existsb_skip_console _ _ _ console_no_channel_error Hcons),
         ?(drop_until_app _ _ _ Hq).
  all: rewrite ?app_nil_r, ?Hq.
  all: eval_log.
  all: first [ left; split; [reflexivity | eexists; reflexivity]
             | right; split; [reflexivity|]; split; reflexivity ].
Qed.

(** C8.  In the messaging loop, once a step of the encryption, one of the
    four transmissions or a step of the signing has failed, the program is
    in [Error_Handler]: the outcome is [Halted]; the log holds no input,
    output, random or cryptographic call after the failed one (only the
    release of the AES context and the masking of interrupts); and however
    much longer the loop is followed, state and log stay what they are. *)
Theorem main_loop_fail_stop fuel :
  forall enc tag (s s' : State W) o evs,
    main_loop P fuel enc tag s = (o, s', evs) ->
    existsb channel_error evs = true ->
    o = Halted
    /\ existsb operation (drop_until channel_error evs) = false
    /\ forall fuel', (fuel <= fuel')%nat ->
                     main_loop P fuel' enc tag s = (Halted, s', evs).
Proof.
  induction fuel as [|fuel IH]; intros enc tag s s' o evs H Herr.
  - cbn [main_loop] in H. unfold out_of_fuel in H.
    injection H as _ _ <-. discriminate Herr.
  - cbn [main_loop] in H. unfold bind in H.
    destruct (main_turn P enc tag s) as [[o1 s1] e1] eqn:Hturn.
    destruct (main_turn_fail_stop _ _ _ Hturn)
      as [[Hquiet [r ->]] | [Hbad [-> Hstop]]].
    + destruct (main_loop P fuel (fst r) (snd r) s1) as [[o2 s2] e2] eqn:Hloop.
      injection H as <- <- <-.
      rewrite existsb_app, Hquiet in Herr. cbn [orb] in Herr.
      destruct (IH _ _ _ _ _ _ Hloop Herr) as (-> & Hstop & Hever).
      split; [reflexivity|]. split.
      * rewrite (drop_until_app _ _ _ Hquiet). exact Hstop.
      * intros [|fuel'] Hle; [lia|].
        cbn [main_loop]. unfold bind. rewrite Hturn.
        rewrite (Hever fuel') by lia. reflexivity.
    + injection H as <- <- <-.
      split; [reflexivity|]. split; [exact Hstop|].
      intros [|fuel'] Hle; [lia|].
      cbn [main_loop]. unfold bind. rewrite Hturn. reflexivity.
Qed.

End FailStop.


(** ** Provenance of the session key *)

Section KeyProvenance.

Context {W : Type} (P : Platform W).


Lemma perform_key_exchange_frame (s s' : State W) o evs :
  perform_key_exchange P s = (o, s', evs) ->
  exists r,
    o = Ret r
    /\ keys_used evs = []
    /\ existsb console_event evs = false
    /\ (r <> ATCA_SUCCESS -> aes_key (mem s') = aes_key (mem s)).
Proof.
  intros H. destruct s as [w g]. destruct g.
  unfold perform_key_exchange, verify_peer_public_key, sign_message,
    derive_shared_secret in H.
  run H.
  all: finish H; eexists; split; [reflexivity|].
  all: split; [observe_with keys_used aes_key_of console_no_key; reflexivity|].
  all: split; [eval_log; reflexivity|].
  all: intros Hne; first [reflexivity | now contradiction Hne].
Qed.

Lemma main_boot_frame (s s' : State W) o evs :
  main_boot P s = (o, s', evs) ->
  keys_used evs = []
  /\ existsb console_event evs = false
  /\ aes_key (mem s') = aes_key (mem s).
Proof.
  intros H. destruct s as [w g]. destruct g.
  unfold main_boot, SystemClock_Config, MX_GPIO_Init, MX_I2C1_Init,
    MX_USART1_UART_Init, MX_USART2_UART_Init, MX_USART_UART_Init,
    MX_RNG_Init in H.
  run H.
  all: finish H; split; [reflexivity|]; split; reflexivity.
Qed.



Lemma main_handshake_keys fuel :
  forall j (s s' : State W) o evs,
    main_handshake P fuel j s = (o, s', evs) ->
    keys_used evs = []
    /\ existsb console_event evs = false
    /\ (o = Ret tt ->
        exists s1 pre e_h,
          perform_key_exchange P s1 = (Ret ATCA_SUCCESS, s', e_h)
          /\ evs = pre ++ e_h).
Proof.
  induction fuel as [|fuel IH]; intros j s s' o evs H.
  - cbn [main_handshake] in H. unfold out_of_fuel in H.
    injection H as <- _ <-.
    split; [reflexivity|]. split; [reflexivity | discriminate].
  - cbn [main_handshake] in H. unfold bind at 1 in H.
    destruct (perform_key_exchange P s) as [[o1 s1] e1] eqn:Hrun.
    destruct (perform_key_exchange_frame _ Hrun) as (r & -> & Hk1 & Hc1 & _).
    destruct (r !=? ATCA_SUCCESS) eqn:Hr.
    + cbv zeta in H. unfold when in H.
      destruct (j + 1 >=? MAX_RETRIES).
      * unfold Error_Handler, bind, call, halt in H.
        destruct (P disable_irq (world s1)) as [u w].
        injection H as <- _ <-.
        split; [|split; [|discriminate]].
        -- unfold keys_used in *. rewrite observe_app, Hk1. reflexivity.
        -- rewrite existsb_app, Hc1. reflexivity.
      * unfold bind at 1, ret at 1 in H. unfold bind at 1, call at 1 in H.
        destruct (P (HAL_Delay 1000) (world s1)) as [u w].
        destruct (main_handshake P fuel (j + 1) (mkState w (mem s1)))
          as [[o2 s2] e2] eqn:Hrec.
        injection H as <- <- <-.
        destruct (IH _ _ _ _ _ Hrec) as (Hk2 & Hc2 & Hok).
        split; [|split].
        -- unfold keys_used in *.
           rewrite observe_app, Hk1. cbn [app observe aes_key_of].
           exact Hk2.
        -- rewrite existsb_app, Hc1. cbn [existsb orb]. exact Hc2.
        -- intros Ho. destruct (Hok Ho) as (sa & pre & e_h & Hpk & ->).
           exists sa, (e1 ++ Ev (HAL_Delay 1000) u :: pre), e_h.
           split; [exact Hpk|].
           rewrite <- app_assoc. reflexivity.
    + unfold ret in H. injection H as <- <- <-.
      split; [|split].
      * unfold keys_used in *. rewrite observe_app, Hk1. reflexivity.
      * rewrite existsb_app, Hc1. reflexivity.
      * intros _. exists s, [], e1. split.
        -- unfold neqb in Hr. apply negb_false_iff, Z.eqb_eq in Hr.
           subst r. exact Hrun.
        -- rewrite app_nil_r. reflexivity.
Qed.


End KeyProvenance.

(** ** Handshake retries *)

Section Retries.

Context {W : Type} (P : Platform W).

Lemma main_handshake_succeeds k :
  forall fuel j (s s1 s2 : State W) e1 e2,
    failed_attempts P k s s1 e1 ->
    0 <= j -> j + Z.of_nat k < MAX_RETRIES -> (k < fuel)%nat ->
    perform_key_exchange P s1 = (Ret ATCA_SUCCESS, s2, e2) ->
    main_handshake P fuel j s = (Ret tt, s2, e1 ++ e2).
Proof.
  induction k as [|k IH]; intros fuel j s s1 s2 e1 e2 Hfail Hj Hk Hfuel Hok;
    inversion Hfail; subst; (destruct fuel as [|fuel]; [lia|]);
    cbn [main_handshake]; unfold bind at 1.
  - rewrite Hok. cbn. rewrite app_nil_r. reflexivity.
  - match goal with Hrun : perform_key_exchange P s = _ |- _ => rewrite Hrun end.
    assert (Hr : (r !=? ATCA_SUCCESS) = true) by (apply neqb_true; assumption).
    rewrite Hr.
    assert (Hlt : (j + 1 >=? MAX_RETRIES) = false)
      by (rewrite Z.geb_leb; apply Z.leb_gt; unfold MAX_RETRIES in *; lia).
    cbv zeta. rewrite Hlt.
    unfold when, bind, ret, call.
    match goal with Hd : P (HAL_Delay 1000) _ = _ |- _ => rewrite Hd end.
    erewrite IH; [| eassumption | lia | lia | lia | eassumption].
    cbn [app]. rewrite <- app_assoc. reflexivity.
Qed.

Lemma main_handshake_gives_up k :
  forall fuel j (s s1 s2 : State W) e1 e2 r u w,
    failed_attempts P k s s1 e1 ->
    0 <= j -> j + Z.of_nat k + 1 = MAX_RETRIES -> (k < fuel)%nat ->
    perform_key_exchange P s1 = (Ret r, s2, e2) ->
    r <> ATCA_SUCCESS ->
    P disable_irq (world s2) = (u, w) ->
    main_handshake P fuel j s
    = (Halted, mkState w (mem s2), e1 ++ e2 ++ [Ev disable_irq u]).
Proof.
  induction k as [|k IH];
    intros fuel j s s1 s2 e1 e2 r u w Hfail Hj Hk Hfuel Hrun Hr Hirq;
    inversion Hfail; subst; (destruct fuel as [|fuel]; [lia|]);
    cbn [main_handshake]; unfold bind at 1.
  - rewrite Hrun.
    assert (Hne : (r !=? ATCA_SUCCESS) = true) by (apply neqb_true; assumption).
    rewrite Hne.
    assert (Hge : (j + 1 >=? MAX_RETRIES) = true)
      by (rewrite Z.geb_leb; apply Z.leb_le; unfold MAX_RETRIES in *; lia).
    cbv zeta. rewrite Hge.
    unfold when, Error_Handler, bind, call, halt. rewrite Hirq.
    reflexivity.
  - match goal with Hx : perform_key_exchange P s = _ |- _ => rewrite Hx end.
    match goal with
    | Hx : ?r0 <> ATCA_SUCCESS, Hy : perform_key_exchange P s = (Ret ?r0, _, _)
      |- _ => rewrite (proj2 (neqb_true r0 ATCA_SUCCESS) Hx)
    end.
    assert (Hlt : (j + 1 >=? MAX_RETRIES) = false)
      by (rewrite Z.geb_leb; apply Z.leb_gt; unfold MAX_RETRIES in *; lia).
    cbv zeta. rewrite Hlt.
    unfold when, bind, ret, call.
    match goal with Hd : P (HAL_Delay 1000) _ = _ |- _ => rewrite Hd end.
    erewrite IH;
      [| eassumption | lia | lia | lia | eassumption | assumption
       | eassumption ].
    cbn [app]. rewrite <- app_assoc. reflexivity.
Qed.

Lemma perform_key_exchange_returns (s : State W) :
  exists r s' e, perform_key_exchange P s = (Ret r, s', e).
Proof.
  destruct (perform_key_exchange P s) as [[o s'] e] eqn:Hrun.
  destruct (perform_key_exchange_frame _ _ Hrun) as (r & -> & _).
  exists r, s', e. reflexivity.
Qed.

(** From any state, either some run among the first [MAX_RETRIES]
    succeeds or [MAX_RETRIES] runs fail. *)
Lemma attempts_exhaustive (s : State W) :
  (exists k s1 s2 e1 e2,
      Z.of_nat k < MAX_RETRIES
      /\ failed_attempts P k s s1 e1
      /\ perform_key_exchange P s1 = (Ret ATCA_SUCCESS, s2, e2))
  \/ (exists k s1 s2 e1 e2 r,
        Z.of_nat k + 1 = MAX_RETRIES
        /\ failed_attempts P k s s1 e1
        /\ perform_key_exchange P s1 = (Ret r, s2, e2)
        /\ r <> ATCA_SUCCESS).
Proof.
  destruct (perform_key_exchange_returns s) as (r1 & s1 & e1 & H1).
  destruct (Z.eq_dec r1 ATCA_SUCCESS) as [->|N1].
  { left. exists 0%nat, s, s1, [], e1.
    split; [reflexivity|]. split; [constructor | exact H1]. }
  destruct (P (HAL_Delay 1000) (world s1)) as [u1 w1] eqn:D1.
  destruct (perform_key_exchange_returns (mkState w1 (mem s1)))
    as (r2 & s2 & e2 & H2).
  assert (F1 : failed_attempts P 1 s (mkState w1 (mem s1))
                               (e1 ++ [Ev (HAL_Delay 1000) u1]))
    by (eapply failed_attempt; [exact H1 | exact N1 | exact D1 | constructor]).
  destruct (Z.eq_dec r2 ATCA_SUCCESS) as [->|N2].
  { left. exists 1%nat. do 4 eexists.
    split; [reflexivity|]. split; [exact F1 | exact H2]. }
  destruct (P (HAL_Delay 1000) (world s2)) as [u2 w2] eqn:D2.
  destruct (perform_key_exchange_returns (mkState w2 (mem s2)))
    as (r3 & s3 & e3 & H3).
  assert (F2 : failed_attempts P 2 s (mkState w2 (mem s2))
                 (e1 ++ Ev (HAL_Delay 1000) u1
                     :: e2 ++ [Ev (HAL_Delay 1000) u2])).
  { eapply failed_attempt; [exact H1 | exact N1 | exact D1 |].
    eapply failed_attempt; [exact H2 | exact N2 | exact D2 | constructor]. }
  destruct (Z.eq_dec r3 ATCA_SUCCESS) as [->|N3].
  { left. exists 2%nat. do 4 eexists.
    split; [reflexivity|]. split; [exact F2 | exact H3]. }
  right. exists 2%nat. do 5 eexists.
  split; [reflexivity|]. split; [exact F2|]. split; [exact H3 | exact N3].
Qed.

(** C7.  After a successful bring-up, [main] runs [perform_key_exchange]
    at most [MAX_RETRIES] times, with [HAL_Delay(1000)] after each failed
    run but the last.  If [k < MAX_RETRIES] runs fail and the next one
    succeeds, the retry loop returns and [main] goes on with the messaging
    loop.  If [MAX_RETRIES] runs fail, [main] is in [Error_Handler]: the
    outcome is [Halted] and, whatever the budget, the log ends with the
    masking of interrupts right after the last failed run, so nothing more
    is sent or received.  One of the two always applies. *)
Theorem main_handshake_retries :
  (forall k fuel (s0 s s1 s2 : State W) e0 e1 e2,
      main_boot P s0 = (Ret tt, s, e0) ->
      Z.of_nat k < MAX_RETRIES -> (k < fuel)%nat ->
      failed_attempts P k s s1 e1 ->
      perform_key_exchange P s1 = (Ret ATCA_SUCCESS, s2, e2) ->
      main_handshake P fuel 0 s = (Ret tt, s2, e1 ++ e2)
      /\ forall o s3 e3,
          main_loop P fuel (memset0 RX_BUFFER_SIZE) (memset0 AES_TAG_SIZE) s2
          = (o, s3, e3) ->
          main P fuel s0 = (o, s3, e0 ++ (e1 ++ e2) ++ e3))
  /\ (forall k fuel (s0 s s1 s2 : State W) e0 e1 e2 r u w,
        main_boot P s0 = (Ret tt, s, e0) ->
        Z.of_nat k + 1 = MAX_RETRIES -> (k < fuel)%nat ->
        failed_attempts P k s s1 e1 ->
        perform_key_exchange P s1 = (Ret r, s2, e2) ->
        r <> ATCA_SUCCESS ->
        P disable_irq (world s2) = (u, w) ->
        main P fuel s0
        = (Halted, mkState w (mem s2),
           e0 ++ e1 ++ e2 ++ [Ev disable_irq u])
        /\ transport_ops [Ev disable_irq u] = [])
  /\ (forall s : State W,
        (exists k s1 s2 e1 e2,
            Z.of_nat k < MAX_RETRIES
            /\ failed_attempts P k s s1 e1
            /\ perform_key_exchange P s1 = (Ret ATCA_SUCCESS, s2, e2))
        \/ (exists k s1 s2 e1 e2 r,
              Z.of_nat k + 1 = MAX_RETRIES
              /\ failed_attempts P k s s1 e1
              /\ perform_key_exchange P s1 = (Ret r, s2, e2)
              /\ r <> ATCA_SUCCESS)).
Proof.
  split; [|split; [|exact attempts_exhaustive]].
  - intros k fuel s0 s s1 s2 e0 e1 e2 Hboot Hk Hfuel Hfail Hok.
    assert (Hhs : main_handshake P fuel 0 s = (Ret tt, s2, e1 ++ e2))
      by (apply (main_handshake_succeeds Hfail); [lia | lia | lia | exact Hok]).
    split; [exact Hhs|].
    intros o s3 e3 Hloop.
    unfold main, bind. rewrite Hboot, Hhs, Hloop. reflexivity.
  - intros k fuel s0 s s1 s2 e0 e1 e2 r u w Hboot Hk Hfuel Hfail Hrun Hr Hirq.
    split; [|reflexivity].
    unfold main, bind. rewrite Hboot.
    rewrite (main_handshake_gives_up (j := 0) Hfail ltac:(lia) ltac:(lia)
               Hfuel Hrun Hr Hirq).
    reflexivity.
Qed.

End Retries.

(** ** The input boundary *)

Section InputBoundary.

Context {W : Type} (P : Platform W).

(** C6, as the code has it.  No input is rejected for its length: the
    input loop stops reading after [RX_BUFFER_SIZE - 1 = 127] characters
    and returns their number, so [receive_user_input] returns a length of
    at most 127 (or [-1]); what was typed beyond stays unread.  The turn
    then either stops there ([len <= 0]) or encrypts exactly the [len]
    bytes of [rx_buffer], [1 <= len <= 127]; the console traffic that fixes
    [len] precedes every other call of the turn. *)
Theorem plaintext_bound (s s' : State W) enc tag o evs :
  main_turn P enc tag s = (o, s', evs) ->
  exists len s1 typed rest,
    receive_user_input P s = (Ret len, s1, typed)
    /\ -1 <= len <= 127
    /\ forallb console_event typed = true
    /\ evs = typed ++ rest
    /\ (len <= 0 -> rest = [])
    /\ Forall (fun x =>
                 fst x = (firstn (Z.to_nat len) (rx_buffer (mem s1)), len)
                 /\ 1 <= len <= 127
                 /\ length (fst (fst x)) = Z.to_nat len)
              (encryptions evs).
Proof.
  intros H. destruct s as [w g]. destruct g.
  run_turn H.
  all: finish H.
  all: do 4 eexists; split; [eassumption|].
  all: split; [assumption|]; split; [assumption|].
  all: split; [reflexivity|].
  all: split; [first [reflexivity | intros; lia]|].
  all: observe_with encryptions encryption_of console_no_encryption.
  all: repeat constructor; try lia.
  all: cbn [fst mem rx_buffer set_rx_buffer]; rewrite length_firstn; lia.
Qed.

End InputBoundary.

(** * Further properties of the firmware *)

(** ** The console line *)

Lemma store_at pre c rest ch :
  store (pre ++ c :: rest) (length pre) ch = pre ++ ch :: rest.
Proof.
  induction pre as [|h t IH]; [reflexivity|].
  cbn [app length store]. rewrite IH. reflexivity.
Qed.

Section ConsoleLine.

Context {W : Type} (P : Platform W).

Lemma receive_user_input_loop_line fuel :
  forall idx ch (s s' : State W) pre o evs,
    0 <= idx <= 127 -> (Z.to_nat (127 - idx) < fuel)%nat ->
    is_newline ch = false ->
    length pre = Z.to_nat idx ->
    rx_buffer (mem s) = pre ++ repeat x00 (128 - Z.to_nat idx) ->
    receive_user_input_loop P fuel idx ch s = (o, s', evs) ->
    exists len line rxs last,
      o = Ret len
      /\ mem s' = set_rx_buffer
                    (pre ++ line
                         ++ repeat x00 (128 - Z.to_nat idx - length line))
                    (mem s)
      /\ observe console_received evs = rxs ++ last
      /\ Forall (fun r => fst r = HAL_OK) rxs
      /\ line = carried ch (map snd rxs)
      /\ existsb is_newline line = false
      /\ observe console_sent evs = map (fun c => [c]) line
      /\ ((last = [] /\ len = 127 /\ idx + Z.of_nat (length line) = 127)
          \/ (exists st d, last = [(st, d)] /\ st <> HAL_OK /\ len = -1
                           /\ idx + Z.of_nat (length line) <= 126)
          \/ (exists b d, last = [(HAL_OK, b :: d)] /\ is_newline b = true
                          /\ len = idx + Z.of_nat (length line)
                          /\ len <= 126)).
Proof.
  induction fuel as [|fuel IH];
    intros idx ch s s' pre o evs Hidx Hfuel Hch Hpre Hbuf H; [lia|].
  destruct s as [w g]. cbn [mem] in Hbuf |- *.
  cbn [receive_user_input_loop] in H.
  change (RX_BUFFER_SIZE - 1) with 127 in H.
  destruct (Z.ltb_spec idx 127) as [Hlt|Hge].
  - unfold bind at 1, call at 1 in H. cbn [world mem] in H.
    destruct (P (HAL_UART_Receive huart1 1 HAL_MAX_DELAY) w)
      as [[st data] w1] eqn:Erx.
    cbn [fst snd] in H.
    destruct (is_HAL_OK st) eqn:Est; cbn [negb] in H.
    + assert (st = HAL_OK) by (destruct st; first [reflexivity | discriminate]).
      subst st.
      change (Byte.eqb (hd ch data) x0d || Byte.eqb (hd ch data) x0a)%bool
        with (is_newline (hd ch data)) in H.
      destruct (is_newline (hd ch data)) eqn:Enl.
      * unfold ret in H. injection H as <- <- <-.
        exists idx, [], [], [(HAL_OK, data)].
        split; [reflexivity|].
        split.
        { cbn [app length]. rewrite Nat.sub_0_r, <- Hbuf.
          destruct g; reflexivity. }
        split; [reflexivity|]. split; [constructor|].
        split; [reflexivity|]. split; [reflexivity|]. split; [reflexivity|].
        right. right.
        destruct data as [|b d]; [cbn [hd] in Enl; congruence|].
        exists b, d. cbn [length hd] in *.
        split; [reflexivity|]. split; [exact Enl|]. lia.
      * unfold bind at 1, call at 1 in H. cbn [world mem] in H.
        destruct (P (HAL_UART_Transmit huart1 [hd ch data] 1 HAL_MAX_DELAY) w1)
          as [st2 w2] eqn:Etx.
        unfold bind at 1, update at 1 in H. cbn [world mem] in H.
        rewrite uint16_small in H by lia.
        destruct (receive_user_input_loop P fuel (idx + 1) (hd ch data) _)
          as [[o1 s1] e1] eqn:Hrec in H.
        assert (Hdone : o = o1 /\ s' = s1
                        /\ evs = Ev (HAL_UART_Receive huart1 1 HAL_MAX_DELAY)
                                    (HAL_OK, data)
                                 :: Ev (HAL_UART_Transmit huart1 [hd ch data] 1
                                                          HAL_MAX_DELAY) st2
                                 :: e1).
        { destruct o1; injection H as <- <- <-; repeat split; reflexivity. }
        clear H. destruct Hdone as (-> & -> & ->).
        assert (Hrest : (128 - Z.to_nat idx
                         = S (128 - Z.to_nat (idx + 1)))%nat) by lia.
        eapply (IH _ _ _ _ (pre ++ [hd ch data])) in Hrec;
          [ | lia | lia | exact Enl
            | rewrite length_app, Hpre; cbn [length]; lia
            | cbn [mem rx_buffer set_rx_buffer];
              rewrite Hbuf, Hrest; cbn [repeat];
              rewrite <- Hpre, store_at, <- app_assoc; reflexivity ].
        destruct Hrec as (len & line & rxs & last & Ho & Hmem & Hrx & Hok
                          & Hline & Hnl & Hecho & Hcase).
        exists len, (hd ch data :: line), ((HAL_OK, data) :: rxs), last.
        split; [exact Ho|].
        split.
        { rewrite Hmem. destruct g as [g1 g2 g3 g4 g5 g6 g7].
          cbn [mem set_rx_buffer device_pubkey peer_pubkey aes_key rx_buffer
               iv challenge peer_challenge length].
          rewrite <- app_assoc. cbn [app].
          replace (128 - Z.to_nat (idx + 1) - length line)%nat
            with (128 - Z.to_nat idx - S (length line))%nat by lia.
          reflexivity. }
        split; [cbn [observe console_received console_sent app]; rewrite Hrx;
                reflexivity|].
        split; [constructor; [reflexivity | exact Hok]|].
        split; [cbn [map snd carried]; rewrite Hline; reflexivity|].
        split; [cbn [existsb]; rewrite Enl, Hnl; reflexivity|].
        split; [cbn [observe console_received console_sent map];
                rewrite Hecho; reflexivity|].
        cbn [length]. rewrite Nat2Z.inj_succ.
        destruct Hcase as [(-> & -> & Hn) | [(st & d & -> & Hst & -> & Hn)
                                            | (b & d & -> & Hb & -> & Hn)]].
        -- left. repeat split; lia.
        -- right. left. exists st, d. repeat split; [exact Hst | lia].
        -- right. right. exists b, d. repeat split; [exact Hb | lia | lia].
    + unfold ret in H. injection H as <- <- <-.
      exists (-1), [], [], [(st, data)].
      split; [reflexivity|].
      split.
      { cbn [app length]. rewrite Nat.sub_0_r, <- Hbuf.
        destruct g; reflexivity. }
      split; [reflexivity|]. split; [constructor|].
      split; [reflexivity|]. split; [reflexivity|]. split; [reflexivity|].
      right. left. exists st, data. cbn [length].
      repeat split; [intros ->; discriminate Est | lia].
  - unfold ret in H. injection H as <- <- <-.
    exists idx, [], [], [].
    split; [reflexivity|].
    split.
    { cbn [app length]. rewrite Nat.sub_0_r, <- Hbuf.
      destruct g; reflexivity. }
    split; [reflexivity|]. split; [constructor|].
    split; [reflexivity|]. split; [reflexivity|]. split; [reflexivity|].
    left. cbn [length]. repeat split; lia.
Qed.

Lemma receive_user_input_reads (s s' : State W) o evs :
  receive_user_input P s = (o, s', evs) ->
  exists len line rxs last,
    o = Ret len
    /\ mem s' = set_rx_buffer (line ++ repeat x00 (128 - length line)) (mem s)
    /\ (length line <= 127)%nat
    /\ forallb console_event evs = true
    /\ observe console_received evs = rxs ++ last
    /\ Forall (fun r => fst r = HAL_OK) rxs
    /\ line = carried x00 (map snd rxs)
    /\ existsb is_newline line = false
    /\ observe console_sent evs = prompt :: map (fun c => [c]) line
    /\ ((last = [] /\ len = 127 /\ length line = 127%nat)
        \/ (exists st d, last = [(st, d)] /\ st <> HAL_OK /\ len = -1)
        \/ (exists b d, last = [(HAL_OK, b :: d)] /\ is_newline b = true
                        /\ len = Z.of_nat (length line))).
Proof.
  intros H.
  destruct (receive_user_input_runs P s)
    as (len0 & w0 & rx0 & cons & Hruns & _ & Hcons & _).
  assert (Hevs : evs = cons) by (rewrite Hruns in H; injection H; auto).
  destruct s as [w g]. unfold receive_user_input in H.
  unfold bind at 1, call at 1 in H. cbn [world mem] in H.
  destruct (P (HAL_UART_Transmit huart1 prompt (uint16 (strlen prompt))
                                 HAL_MAX_DELAY) w) as [st w1] eqn:Etx.
  unfold bind at 1, update at 1 in H. cbn [world mem] in H.
  destruct (receive_user_input_loop P (Z.to_nat RX_BUFFER_SIZE) 0 x00 _)
    as [[o1 s1] e1] eqn:Hloop in H.
  assert (Hdone : o = o1 /\ s' = s1
                  /\ evs = Ev (HAL_UART_Transmit huart1 prompt
                                 (uint16 (strlen prompt)) HAL_MAX_DELAY) st
                           :: e1).
  { destruct o1; injection H as <- <- <-; repeat split; reflexivity. }
  clear H. destruct Hdone as (-> & -> & He).
  apply (@receive_user_input_loop_line _ _ _ _ _ []) in Hloop;
    [ | lia | vm_compute; lia | reflexivity | reflexivity
      | destruct g; reflexivity ].
  destruct Hloop as (len & line & rxs & last & Ho & Hmem & Hrx & Hok
                     & Hline & Hnl & Hecho & Hcase).
  exists len, line, rxs, last.
  change (Z.to_nat 0) with 0%nat in Hmem. rewrite Nat.sub_0_r in Hmem.
  cbn [app] in Hmem.
  split; [exact Ho|].
  split; [rewrite Hmem; destruct g; reflexivity|].
  split.
  { destruct Hcase as [(_ & _ & Hn) | [(st1 & d & _ & _ & _ & Hn)
                                      | (b & d & _ & _ & Hl & Hn)]]; lia. }
  split; [rewrite Hevs; exact Hcons|].
  rewrite He. cbn [observe console_received console_sent].
  split; [exact Hrx|]. split; [exact Hok|]. split; [exact Hline|].
  split; [exact Hnl|].
  split; [rewrite Hecho; reflexivity|].
  destruct Hcase as [(-> & -> & Hn) | [(st1 & d & -> & Hst & -> & Hn)
                                      | (b & d & -> & Hb & -> & Hn)]].
  - left. repeat split; lia.
  - right. left. exists st1, d. repeat split; exact Hst.
  - right. right. exists b, d. repeat split; first [exact Hb | lia].
Qed.


End ConsoleLine.

(** ** Encryption and signing *)


(** Settle [status = ok <-> no entry of the log failed] on a concrete
    log. *)
Ltac status_iff :=
  eval_log;
  repeat match goal with
         | |- context [?z =? ?k] => is_var z; destruct (Z.eqb_spec z k)
         end;
  cbn [negb orb andb];
  let Hx := fresh in
  split; intros Hx;
  first [reflexivity | discriminate Hx | congruence | contradiction].

(** Count the entries of a concrete log that satisfy a test. *)
Ltac eval_count :=
  cbn [filter]; unfold_event_tests; cbn [fst snd];
  repeat match goal with
         | E : (?z =? ?k) = _ |- _ => rewrite E
         end;
  cbn [filter length Z.eqb Pos.eqb negb andb orb].

Section Primitives.

Context {W : Type} (P : Platform W).

(** X2.  [encrypt_message] always returns and changes no global.  It
    returns [0] exactly when [wc_AesInit], [wc_AesGcmSetKey] and
    [wc_AesGcmEncrypt] all succeeded.  When the initialisation or the key
    set-up fails, no encryption is asked for, the result is [-1] and
    [ciphertext] and [tag] are left as they were; otherwise the result is
    the status of [wc_AesGcmEncrypt] and the buffers hold what it wrote.
    The AES context is released by [wc_AesFree] exactly when
    [wc_AesInit] succeeded, once, as the last call. *)
Theorem encrypt_message_outcome plaintext len ciphertext tag
    (s s' : State W) o evs :
  encrypt_message P plaintext len ciphertext tag s = (o, s', evs) ->
  exists r ciphertext' tag',
    o = Ret (r, ciphertext', tag')
    /\ mem s' = mem s
    /\ (r = 0 <-> existsb call_failed evs = false)
    /\ ((observe encryption_result evs = []
         /\ r = -1 /\ ciphertext' = ciphertext /\ tag' = tag)
        \/ (exists st c t,
              observe encryption_result evs = [(st, c, t)]
              /\ encryptions evs
                 = [(firstn (Z.to_nat (uint32 len)) plaintext, uint32 len,
                     firstn 12 (iv (mem s)))]
              /\ keys_used evs = [firstn 16 (aes_key (mem s))]
              /\ r = st
              /\ ciphertext' = memcpy ciphertext 0 c (uint32 len)
              /\ tag' = memcpy tag 0 t AES_TAG_SIZE))
    /\ length (filter aes_released evs) = length (filter aes_opened evs)
    /\ (existsb aes_opened evs = true ->
        exists pre u, evs = pre ++ [Ev wc_AesFree u]
                      /\ existsb aes_released pre = false).
Proof.
  intros H. destruct s as [w g]. destruct g as [g1 g2 g3 g4 g5 g6 g7].
  unfold encrypt_message in H. run H.
  all: finish H; do 3 eexists; split; [reflexivity|]; split; [reflexivity|].
  all: split; [status_iff|].
  all: split;
    [first [ left; repeat split; reflexivity
           | right; do 3 eexists; repeat split; reflexivity ]|].
  all: split; [eval_count; reflexivity|].
  all: eval_log; intros Hx; try discriminate Hx.
  - eexists [_; _; _]. eexists. split; [reflexivity|]. eval_log. reflexivity.
  - eexists [_; _]. eexists. split; [reflexivity|]. eval_log. reflexivity.
Qed.

(** X3.  [sign_message] always returns and changes no global.  It
    returns [ATCA_SUCCESS] exactly when the three SHA-256 steps and
    [atcab_sign] all succeeded.  When a SHA-256 step fails the secure
    element is not asked to sign, the result is [ATCA_GEN_FAIL] and
    [signature] is left as it was.  Otherwise the secure element signed,
    under [DEVICE_KEY_SLOT], the digest of the first [msg_len] bytes of
    [msg]; the result is its status and [signature] holds what it
    wrote. *)
Theorem sign_message_outcome msg msg_len signature (s s' : State W) o evs :
  sign_message P msg msg_len signature s = (o, s', evs) ->
  exists r signature',
    o = Ret (r, signature')
    /\ mem s' = mem s
    /\ (r = ATCA_SUCCESS <-> existsb call_failed evs = false)
    /\ ((existsb hashing_failed evs = true
         /\ observe signing_of evs = []
         /\ r = ATCA_GEN_FAIL /\ signature' = signature)
        \/ (exists digest st out,
              evs = [ Ev wc_InitSha256 0;
                      Ev (wc_Sha256Update
                            (firstn (Z.to_nat (uint32 msg_len)) msg)
                            (uint32 msg_len)) 0;
                      Ev wc_Sha256Final (0, digest);
                      Ev (atcab_sign DEVICE_KEY_SLOT (fill 32 digest))
                         (st, out) ]
              /\ r = st
              /\ signature' = memcpy signature 0 out SIGNATURE_SIZE)).
Proof.
  intros H. destruct s as [w g]. destruct g as [g1 g2 g3 g4 g5 g6 g7].
  unfold sign_message in H. run H.
  all: finish H; do 2 eexists; split; [reflexivity|]; split; [reflexivity|].
  all: split; [status_iff|].
  all: first [ left; split; [eval_log; reflexivity|]; repeat split; reflexivity
             | right; do 3 eexists; repeat split; reflexivity ].
Qed.

End Primitives.

(** ** Errors of the handshake *)


Section HandshakeErrors.

Context {W : Type} (P : Platform W).

(** X4.  [perform_key_exchange] always returns, and returns
    [ATCA_SUCCESS] exactly when none of the calls whose status it tests
    failed: every transfer on the SATCOM link, every SHA-256 step, the
    import of the peer key, the curve set-up, the signature check, the
    signing and the ECDH.  It stops at the first such failure: after it
    the log holds no input, output, random or cryptographic call (at most
    the release of the ECC key).  Failures of the RNG, of [wc_ecc_init]
    and of [wc_ecc_free] are not noticed. *)
Theorem perform_key_exchange_fail_fast (s s' : State W) o evs :
  perform_key_exchange P s = (o, s', evs) ->
  exists r,
    o = Ret r
    /\ (r = ATCA_SUCCESS <-> existsb handshake_error evs = false)
    /\ existsb operation (drop_until handshake_error evs) = false.
Proof.
  intros H. destruct s as [w g]. destruct g as [g1 g2 g3 g4 g5 g6 g7].
  unfold perform_key_exchange, verify_peer_public_key, sign_message,
    derive_shared_secret in H.
  run H.
  all: finish H; eexists; split; [reflexivity|].
  all: split; [status_iff|].
  all: eval_log; reflexivity.
Qed.

(** X5.  [perform_key_exchange] never writes [device_pubkey], [rx_buffer]
    or [iv].  The peer public key is stored in [peer_pubkey] as soon as it
    is received, before it is authenticated, and stays there whatever the
    run returns; a run that ends at its first transmission changes no
    global at all. *)
Theorem perform_key_exchange_writes (s s' : State W) o evs :
  perform_key_exchange P s = (o, s', evs) ->
  device_pubkey (mem s') = device_pubkey (mem s)
  /\ rx_buffer (mem s') = rx_buffer (mem s)
  /\ iv (mem s') = iv (mem s)
  /\ (forall d n pk rest,
         transport_ops evs = TSend d n :: TRecv 64 pk :: rest ->
         peer_pubkey (mem s') = memcpy (peer_pubkey (mem s)) 0 pk 64)
  /\ (forall d n, transport_ops evs = [TSend d n] -> mem s' = mem s).
Proof.
  intros H. destruct s as [w g]. destruct g as [g1 g2 g3 g4 g5 g6 g7].
  unfold perform_key_exchange, verify_peer_public_key, sign_message,
    derive_shared_secret in H.
  run H.
  all: finish H; do 3 (split; [reflexivity|]).
  all: split; intros d n.
  all: try intros pk rest.
  all: observe_with transport_ops transport_op console_no_transport.
  all: intros Hops; try discriminate Hops; try reflexivity.
  all: injection Hops; intros; subst; reflexivity.
Qed.

End HandshakeErrors.

(** ** Induction over a run of [main]

    [main] is the bring-up, then runs of [perform_key_exchange] separated
    by [HAL_Delay(1000)], then turns of the messaging loop, and possibly
    [Error_Handler].  A property [Q] of logs (told whether the part
    halted) that holds of each part and is kept by concatenation holds of
    the whole log; an invariant of the globals and of the locals
    [encrypted] and [tag] kept by each part is kept by [main]. *)
Section MainInduction.

Context {W : Type} (P : Platform W).

Variable Inv : Globals -> Prop.
Variable InvL : bytes -> bytes -> Prop.
Variable Q : bool -> list Event -> Prop.

Hypothesis Q_nil : Q false [].
Hypothesis Q_app : forall a b h, Q false a -> Q h b -> Q h (a ++ b).
Hypothesis Q_delay : forall u, Q false [Ev (HAL_Delay 1000) u].
Hypothesis Q_irq : forall u, Q true [Ev disable_irq u].
Hypothesis InvL_init : InvL (memset0 RX_BUFFER_SIZE) (memset0 AES_TAG_SIZE).
Hypothesis boot_step :
  forall (s s' : State W) o evs,
    Inv (mem s) -> main_boot P s = (o, s', evs) ->
    Inv (mem s') /\ Q (is_halted o) evs.
Hypothesis handshake_step :
  forall (s s' : State W) o evs,
    Inv (mem s) -> perform_key_exchange P s = (o, s', evs) ->
    Inv (mem s') /\ Q (is_halted o) evs.
Hypothesis turn_step :
  forall enc tag (s s' : State W) o evs,
    Inv (mem s) -> InvL enc tag -> main_turn P enc tag s = (o, s', evs) ->
    Inv (mem s') /\ Q (is_halted o) evs
    /\ forall r, o = Ret r -> InvL (fst r) (snd r).

Lemma main_handshake_ind fuel :
  forall j (s s' : State W) o evs,
    Inv (mem s) -> main_handshake P fuel j s = (o, s', evs) ->
    Inv (mem s') /\ Q (is_halted o) evs.
Proof.
  induction fuel as [|fuel IH]; intros j s s' o evs Hs H.
  - cbn [main_handshake] in H. unfold out_of_fuel in H.
    injection H as <- <- <-. split; [exact Hs | exact Q_nil].
  - cbn [main_handshake] in H. unfold bind at 1 in H.
    destruct (perform_key_exchange P s) as [[o1 s1] e1] eqn:Hrun.
    destruct (@handshake_step _ _ _ _ Hs Hrun) as [Hs1 Hq1].
    destruct (@perform_key_exchange_frame _ P _ _ _ _ Hrun) as (r & -> & _).
    cbn [is_halted] in Hq1.
    destruct (r !=? ATCA_SUCCESS).
    + cbv zeta in H. unfold when in H.
      destruct (j + 1 >=? MAX_RETRIES).
      * unfold Error_Handler, bind, call, halt in H.
        destruct (P disable_irq (world s1)) as [u w].
        injection H as <- <- <-.
        split; [exact Hs1|]. apply Q_app; [exact Hq1 | apply Q_irq].
      * unfold bind at 1, ret at 1 in H. unfold bind at 1, call at 1 in H.
        destruct (P (HAL_Delay 1000) (world s1)) as [u w].
        destruct (main_handshake P fuel (j + 1) (mkState w (mem s1)))
          as [[o2 s2] e2] eqn:Hrec.
        assert (Hdone : o = o2 /\ s' = s2
                        /\ evs = e1 ++ [Ev (HAL_Delay 1000) u] ++ e2).
        { destruct o2; injection H as <- <- <-; repeat split; reflexivity. }
        clear H. destruct Hdone as (-> & -> & ->).
        destruct (IH (j + 1) (mkState w (mem s1)) _ _ _ Hs1 Hrec) as [Hs2 Hq2].
        split; [exact Hs2|].
        apply Q_app; [exact Hq1|]. apply Q_app; [apply Q_delay | exact Hq2].
    + unfold ret in H. injection H as <- <- <-.
      split; [exact Hs1|]. rewrite app_nil_r. exact Hq1.
Qed.

Lemma main_loop_ind fuel :
  forall enc tag (s s' : State W) o evs,
    Inv (mem s) -> InvL enc tag ->
    main_loop P fuel enc tag s = (o, s', evs) ->
    o <> Ret tt /\ Inv (mem s') /\ Q (is_halted o) evs.
Proof.
  induction fuel as [|fuel IH]; intros enc tag s s' o evs Hs Hl H.
  - cbn [main_loop] in H. unfold out_of_fuel in H.
    injection H as <- <- <-.
    split; [discriminate|]. split; [exact Hs | exact Q_nil].
  - cbn [main_loop] in H. unfold bind in H.
    destruct (main_turn P enc tag s) as [[o1 s1] e1] eqn:Hturn.
    destruct (@turn_step _ _ _ _ _ _ Hs Hl Hturn) as (Hs1 & Hq1 & Hl1).
    destruct o1 as [r| |].
    + destruct (main_loop P fuel (fst r) (snd r) s1) as [[o2 s2] e2] eqn:Hloop.
      injection H as <- <- <-.
      destruct (IH (fst r) (snd r) s1 _ _ _ Hs1 (Hl1 r eq_refl) Hloop) as (Ho & Hs2 & Hq2).
      split; [exact Ho|]. split; [exact Hs2|].
      apply Q_app; [exact Hq1 | exact Hq2].
    + injection H as <- <- <-.
      split; [discriminate|]. split; [exact Hs1 | exact Hq1].
    + injection H as <- <- <-.
      split; [discriminate|]. split; [exact Hs1 | exact Hq1].
Qed.

Lemma main_ind fuel (s s' : State W) o evs :
  Inv (mem s) -> main P fuel s = (o, s', evs) ->
  o <> Ret tt /\ Inv (mem s') /\ Q (is_halted o) evs.
Proof.
  intros Hs H. unfold main in H. unfold bind at 1 in H.
  destruct (main_boot P s) as [[ob sb] eb] eqn:Hboot.
  destruct (@boot_step _ _ _ _ Hs Hboot) as [Hsb Hqb].
  destruct ob as [[]| |];
    try (injection H as <- <- <-;
         split; [discriminate|]; split; [exact Hsb | exact Hqb]).
  unfold bind at 1 in H.
  destruct (main_handshake P fuel 0 sb) as [[oh sh] eh] eqn:Hhs.
  destruct (@main_handshake_ind _ _ _ _ _ _ Hsb Hhs) as [Hsh Hqh].
  destruct oh as [[]| |];
    try (injection H as <- <- <-;
         split; [discriminate|]; split; [exact Hsh|];
         apply Q_app; [exact Hqb | exact Hqh]).
  destruct (main_loop P fuel (memset0 RX_BUFFER_SIZE) (memset0 AES_TAG_SIZE) sh)
    as [[ol sl] el] eqn:Hloop.
  injection H as <- <- <-.
  destruct (@main_loop_ind _ _ _ _ _ _ _ Hsh InvL_init Hloop) as (Ho & Hsl & Hql).
  split; [exact Ho|]. split; [exact Hsl|].
  apply Q_app; [exact Hqb|]. apply Q_app; [exact Hqh | exact Hql].
Qed.

End MainInduction.

(** ** Bring-up *)


Section BringUp.

Context {W : Type} (P : Platform W).

Lemma main_boot_run (s s' : State W) o evs :
  main_boot P s = (o, s', evs) ->
  exists pre tail,
    evs = pre ++ tail
    /\ forallb bring_up_call pre = true
    /\ ((o = Ret tt /\ tail = [] /\ existsb boot_error pre = false
         /\ exists a b c1 c2 c3 c4 pk,
             pre = [ Ev (HAL_Setup HAL_Init) a;
                     Ev (HAL_Setup HAL_PWREx_ControlVoltageScaling) b;
                     Ev (HAL_Setup HAL_RCC_OscConfig) HAL_OK;
                     Ev (HAL_Setup HAL_RCC_ClockConfig) HAL_OK;
                     Ev (HAL_Setup (HAL_RCC_GPIO_CLK_ENABLE GPIOC)) c1;
                     Ev (HAL_Setup (HAL_RCC_GPIO_CLK_ENABLE GPIOF)) c2;
                     Ev (HAL_Setup (HAL_RCC_GPIO_CLK_ENABLE GPIOA)) c3;
                     Ev (HAL_Setup (HAL_RCC_GPIO_CLK_ENABLE GPIOB)) c4;
                     Ev (HAL_Setup HAL_I2C_Init) HAL_OK;
                     Ev (HAL_Setup HAL_I2CEx_ConfigAnalogFilter) HAL_OK;
                     Ev (HAL_Setup HAL_I2CEx_ConfigDigitalFilter) HAL_OK;
                     Ev (HAL_Setup (HAL_UART_Init huart1)) HAL_OK;
                     Ev (HAL_Setup (HAL_UARTEx_SetTxFifoThreshold huart1))
                        HAL_OK;
                     Ev (HAL_Setup (HAL_UARTEx_SetRxFifoThreshold huart1))
                        HAL_OK;
                     Ev (HAL_Setup (HAL_UARTEx_DisableFifoMode huart1))
                        HAL_OK;
                     Ev (HAL_Setup (HAL_UART_Init huart2)) HAL_OK;
                     Ev (HAL_Setup (HAL_UARTEx_SetTxFifoThreshold huart2))
                        HAL_OK;
                     Ev (HAL_Setup (HAL_UARTEx_SetRxFifoThreshold huart2))
                        HAL_OK;
                     Ev (HAL_Setup (HAL_UARTEx_DisableFifoMode huart2))
                        HAL_OK;
                     Ev (HAL_Setup HAL_RNG_Init) HAL_OK;
                     Ev atcab_init ATCA_SUCCESS;
                     Ev (atcab_genkey DEVICE_KEY_SLOT) (ATCA_SUCCESS, pk) ]
             /\ mem s' = set_device_pubkey
                           (memcpy (device_pubkey (mem s)) 0 pk PUB_KEY_SIZE)
                           (mem s))
        \/ (o = Halted /\ (exists u, tail = [Ev disable_irq u])
            /\ existsb boot_error pre = true
            /\ drop_until boot_error pre = []))
    /\ (mem s' = mem s
        \/ exists pk, mem s' = set_device_pubkey
                                 (memcpy (device_pubkey (mem s)) 0 pk
                                         PUB_KEY_SIZE)
                                 (mem s)).
Proof.
  intros H. destruct s as [w g]. destruct g as [g1 g2 g3 g4 g5 g6 g7].
  unfold main_boot, SystemClock_Config, MX_GPIO_Init, MX_I2C1_Init,
    MX_USART1_UART_Init, MX_USART2_UART_Init, MX_USART_UART_Init,
    MX_RNG_Init in H.
  run H.
  all: finish H.
  all: match goal with
       | |- exists pre tail, ?l = pre ++ tail /\ _ =>
           first [ exists l, []; split; [symmetry; apply app_nil_r|];
                   split; [reflexivity|]; split;
                   [ left; split; [reflexivity|]; split; [reflexivity|];
                     split; [reflexivity|]; do 7 eexists;
                     split; reflexivity
                   | right; eexists; reflexivity ]
                 | exists (removelast l); eexists;
                   split; [cbn [removelast]; reflexivity|];
                   cbn [removelast];
                   split; [reflexivity|]; split;
                   [ right; split; [reflexivity|];
                     split; [eexists; reflexivity|];
                     split; eval_log; reflexivity
                   | first [ left; reflexivity
                           | right; eexists; reflexivity ] ] ]
       end.
Qed.

(** X6.  The bring-up of [main] makes only HAL configuration calls,
    [atcab_init] and [atcab_genkey]: nothing is sent or received on a UART
    and no random number is drawn.  It is fail-stop: it returns exactly
    when none of the calls whose status is tested failed, after the 22
    calls listed, in that order, and [device_pubkey] then holds the key
    [atcab_genkey] produced for [DEVICE_KEY_SLOT]; at the first failure
    it enters [Error_Handler] and makes no further bring-up call.  No
    global other than [device_pubkey] is written. *)
Theorem main_boot_fail_stop (s s' : State W) o evs :
  main_boot P s = (o, s', evs) ->
  exists pre tail,
    evs = pre ++ tail
    /\ forallb bring_up_call pre = true
    /\ ((o = Ret tt /\ tail = [] /\ existsb boot_error pre = false
         /\ exists a b c1 c2 c3 c4 pk,
             pre = [ Ev (HAL_Setup HAL_Init) a;
                     Ev (HAL_Setup HAL_PWREx_ControlVoltageScaling) b;
                     Ev (HAL_Setup HAL_RCC_OscConfig) HAL_OK;
                     Ev (HAL_Setup HAL_RCC_ClockConfig) HAL_OK;
                     Ev (HAL_Setup (HAL_RCC_GPIO_CLK_ENABLE GPIOC)) c1;
                     Ev (HAL_Setup (HAL_RCC_GPIO_CLK_ENABLE GPIOF)) c2;
                     Ev (HAL_Setup (HAL_RCC_GPIO_CLK_ENABLE GPIOA)) c3;
                     Ev (HAL_Setup (HAL_RCC_GPIO_CLK_ENABLE GPIOB)) c4;
                     Ev (HAL_Setup HAL_I2C_Init) HAL_OK;
                     Ev (HAL_Setup HAL_I2CEx_ConfigAnalogFilter) HAL_OK;
                     Ev (HAL_Setup HAL_I2CEx_ConfigDigitalFilter) HAL_OK;
                     Ev (HAL_Setup (HAL_UART_Init huart1)) HAL_OK;
                     Ev (HAL_Setup (HAL_UARTEx_SetTxFifoThreshold huart1))
                        HAL_OK;
                     Ev (HAL_Setup (HAL_UARTEx_SetRxFifoThreshold huart1))
                        HAL_OK;
                     Ev (HAL_Setup (HAL_UARTEx_DisableFifoMode huart1))
                        HAL_OK;
                     Ev (HAL_Setup (HAL_UART_Init huart2)) HAL_OK;
                     Ev (HAL_Setup (HAL_UARTEx_SetTxFifoThreshold huart2))
                        HAL_OK;
                     Ev (HAL_Setup (HAL_UARTEx_SetRxFifoThreshold huart2))
                        HAL_OK;
                     Ev (HAL_Setup (HAL_UARTEx_DisableFifoMode huart2))
                        HAL_OK;
                     Ev (HAL_Setup HAL_RNG_Init) HAL_OK;
                     Ev atcab_init ATCA_SUCCESS;
                     Ev (atcab_genkey DEVICE_KEY_SLOT) (ATCA_SUCCESS, pk) ]
             /\ mem s' = set_device_pubkey
                           (memcpy (device_pubkey (mem s)) 0 pk PUB_KEY_SIZE)
                           (mem s))
        \/ (o = Halted /\ (exists u, tail = [Ev disable_irq u])
            /\ existsb boot_error pre = true
            /\ drop_until boot_error pre = []))
    /\ (mem s' = mem s
        \/ exists pk, mem s' = set_device_pubkey
                                 (memcpy (device_pubkey (mem s)) 0 pk
                                         PUB_KEY_SIZE)
                                 (mem s)).
Proof. exact (@main_boot_run s s' o evs). Qed.

End BringUp.

(** ** [Error_Handler] is final *)

Lemma existsb_none (p q : Event -> bool) t :
  (forall e, q e = true -> p e = false) ->
  forallb q t = true -> existsb p t = false.
Proof.
  intros Hp. induction t as [|e t IH]; [reflexivity|].
  cbn [forallb existsb]. intros H. apply andb_true_iff in H.
  destruct H as [He Ht]. rewrite (Hp e He), (IH Ht). reflexivity.
Qed.

Lemma bring_up_not_masked e :
  bring_up_call e = true -> interrupts_masked e = false.
Proof. destruct e as [R c r]. destruct c; try discriminate; reflexivity. Qed.

Lemma console_not_masked e :
  console_event e = true -> interrupts_masked e = false.
Proof. destruct e as [R c r]. destruct c; try discriminate; reflexivity. Qed.

Section ErrorHandlerFinal.

Context {W : Type} (P : Platform W).

Lemma main_boot_masks (s s' : State W) o evs :
  main_boot P s = (o, s', evs) ->
  existsb interrupts_masked evs = is_halted o
  /\ drop_until interrupts_masked evs = [].
Proof.
  intros H.
  destruct (main_boot_run P _ H) as (pre & tail & -> & Hpre & Hcase & _).
  pose proof (existsb_none _ _ _ bring_up_not_masked Hpre) as Hq.
  rewrite existsb_app, Hq, (drop_until_app _ _ _ Hq).
  destruct Hcase as [(-> & -> & _) | (-> & [u ->] & _)];
    split; reflexivity.
Qed.

Lemma perform_key_exchange_masks (s s' : State W) o evs :
  perform_key_exchange P s = (o, s', evs) ->
  existsb interrupts_masked evs = is_halted o
  /\ drop_until interrupts_masked evs = [].
Proof.
  intros H. destruct s as [w g]. destruct g as [g1 g2 g3 g4 g5 g6 g7].
  unfold perform_key_exchange, verify_peer_public_key, sign_message,
    derive_shared_secret in H.
  run H.
  all: finish H; split; eval_log; reflexivity.
Qed.

Lemma main_turn_masks (s s' : State W) enc tag o evs :
  main_turn P enc tag s = (o, s', evs) ->
  existsb interrupts_masked evs = is_halted o
  /\ drop_until interrupts_masked evs = [].
Proof.
  intros H. destruct s as [w g]. destruct g as [g1 g2 g3 g4 g5 g6 g7].
  run_turn H.
  all: finish H.
  all: pose proof (existsb_console _ _ console_not_masked Hcons) as Hq.
  all: rewrite ?(existsb_skip_console _ _ _ console_not_masked Hcons),
         ?(drop_until_app _ _ _ Hq).
  all: rewrite ?app_nil_r, ?Hq.
  all: split; eval_log; reflexivity.
Qed.

(** X7.  [main] never returns.  It stops only in [Error_Handler]: the
    outcome is [Halted] exactly when interrupts were masked, and the
    masking of interrupts is the last call of the log, whatever failure
    led to it (bring-up, third failed handshake, or an error of the
    messaging loop). *)
Theorem main_never_returns fuel (s s' : State W) o evs :
  main P fuel s = (o, s', evs) ->
  o <> Ret tt
  /\ (o = Halted <-> existsb interrupts_masked evs = true)
  /\ drop_until interrupts_masked evs = [].
Proof.
  intros H.
  apply (@main_ind _ P (fun _ => True) (fun _ _ => True)
           (fun h t => existsb interrupts_masked t = h
                       /\ drop_until interrupts_masked t = [])) in H.
  - destruct H as (Ho & _ & Hmask & Hlast).
    split; [exact Ho|]. split; [|exact Hlast].
    rewrite Hmask. destruct o; cbn [is_halted]; split; intros Hx;
      first [reflexivity | discriminate Hx].
  - split; reflexivity.
  - intros a b h [Ha Hd] [Hb Hdb].
    rewrite existsb_app, Ha, (drop_until_app _ _ _ Ha). split; assumption.
  - intros u. split; reflexivity.
  - intros u. split; reflexivity.
  - exact I.
  - intros s0 s1 o0 e0 _ H0. split; [exact I | exact (main_boot_masks _ H0)].
  - intros s0 s1 o0 e0 _ H0.
    split; [exact I | exact (perform_key_exchange_masks _ H0)].
  - intros enc tag s0 s1 o0 e0 _ _ H0.
    split; [exact I|]. split; [exact (main_turn_masks _ _ _ H0)|].
    intros; exact I.
  - exact I.
Qed.

End ErrorHandlerFinal.

(** ** Buffer sizes *)

Lemma buffers_sized_spec g :
  buffers_sized g = true
  <-> (length (device_pubkey g) = 64 /\ length (peer_pubkey g) = 64
       /\ length (aes_key g) = 16
       /\ length (iv g) = 12 /\ length (challenge g) = 32
       /\ length (peer_challenge g) = 32)%nat.
Proof.
  unfold buffers_sized. rewrite !andb_true_iff, !Nat.eqb_eq.
  change (Z.to_nat PUB_KEY_SIZE) with 64%nat.
  change (Z.to_nat AES_KEY_SIZE) with 16%nat.
  change (Z.to_nat AES_IV_SIZE) with 12%nat.
  change (Z.to_nat CHALLENGE_SIZE) with 32%nat.
  tauto.
Qed.

Lemma bring_up_no_link e :
  bring_up_call e = true -> link_tx_overread e = false.
Proof. destruct e as [R c r]. destruct c; try discriminate; reflexivity. Qed.

Lemma console_no_link e :
  console_event e = true -> link_tx_overread e = false.
Proof.
  destruct e as [R c r]. destruct c; try discriminate;
    destruct u; try discriminate; reflexivity.
Qed.

(** The length of a buffer after the writes of a run. *)
Ltac known_length :=
  match goal with
  | Hl : length ?g = _ |- context [length ?g] => rewrite Hl
  end.

Ltac buffer_length :=
  repeat first
    [ assumption
    | reflexivity
    | rewrite memcpy0_length;
      [ | try known_length; first [vm_compute; split; discriminate | lia] ]
    | rewrite fill_chunks_length;
      [ | try known_length; vm_compute; split; discriminate
        | rewrite length_map; assumption ]
    | rewrite fill_length by (vm_compute; discriminate)
    | known_length ].

Lemma echoed_line_singles l :
  forall acc r,
    echoed_line acc (map (fun c => [c]) l ++ r) = echoed_line (acc ++ l) r.
Proof.
  induction l as [|c l IH]; intros acc r.
  - rewrite app_nil_r. reflexivity.
  - cbn [map app echoed_line]. rewrite IH, <- app_assoc. reflexivity.
Qed.

Lemma echoed_line_prompt acc r :
  echoed_line acc (prompt :: r) = echoed_line [] r.
Proof. reflexivity. Qed.

Lemma console_sent_quiet t :
  existsb console_event t = false -> observe console_sent t = [].
Proof.
  induction t as [|e t IH]; [reflexivity|].
  cbn [existsb observe]. intros H. apply orb_false_iff in H.
  destruct H as [He Ht]. rewrite (IH Ht).
  destruct e as [R c r]. destruct c; try reflexivity.
  destruct u; [discriminate He | reflexivity].
Qed.

Section BufferSizes.

Context {W : Type} (P : Platform W).

Lemma perform_key_exchange_sized (s s' : State W) o evs :
  buffers_sized (mem s) = true ->
  perform_key_exchange P s = (o, s', evs) ->
  buffers_sized (mem s') = true
  /\ existsb link_tx_overread evs = false.
Proof.
  intros Hs H. destruct s as [w g]. destruct g as [g1 g2 g3 g4 g5 g6 g7].
  apply buffers_sized_spec in Hs. cbn in Hs.
  destruct Hs as (L1 & L2 & L3 & L5 & L6 & L7).
  unfold perform_key_exchange, verify_peer_public_key, sign_message,
    derive_shared_secret in H.
  run H.
  all: finish H.
  all: split.
  all: try (apply buffers_sized_spec;
            cbn [mem device_pubkey peer_pubkey aes_key rx_buffer iv challenge
                 peer_challenge];
            repeat split; buffer_length).
  all: eval_log; rewrite ?length_firstn; buffer_length.
Qed.

Lemma main_boot_sized (s s' : State W) o evs :
  buffers_sized (mem s) = true ->
  main_boot P s = (o, s', evs) ->
  buffers_sized (mem s') = true
  /\ existsb link_tx_overread evs = false.
Proof.
  intros Hs H.
  destruct (main_boot_run P _ H) as (pre & tail & -> & Hpre & Hcase & Hmem).
  split.
  - destruct Hmem as [-> | [pk ->]]; [exact Hs|].
    apply buffers_sized_spec in Hs. apply buffers_sized_spec.
    destruct (mem s) as [g1 g2 g3 g4 g5 g6 g7].
    cbn [device_pubkey peer_pubkey aes_key rx_buffer iv challenge
         peer_challenge set_device_pubkey] in Hs |- *.
    destruct Hs as (L1 & L2 & L3 & L5 & L6 & L7).
    repeat split; buffer_length.
  - rewrite existsb_app, (existsb_none _ _ _ bring_up_no_link Hpre).
    destruct Hcase as [(_ & -> & _) | (_ & [u ->] & _)]; reflexivity.
Qed.

Lemma main_turn_sized (s s' : State W) enc tag o evs :
  buffers_sized (mem s) = true ->
  length enc = 128%nat /\ length tag = 16%nat ->
  main_turn P enc tag s = (o, s', evs) ->
  buffers_sized (mem s') = true
  /\ existsb link_tx_overread evs = false
  /\ forall r, o = Ret r ->
               length (fst r) = 128%nat /\ length (snd r) = 16%nat.
Proof.
  intros Hs [Lenc Ltag] H. destruct s as [w g].
  destruct g as [g1 g2 g3 g4 g5 g6 g7].
  apply buffers_sized_spec in Hs. cbn in Hs.
  destruct Hs as (L1 & L2 & L3 & L5 & L6 & L7).
  run_turn H.
  all: finish H.
  all: split;
    [ apply buffers_sized_spec;
      cbn [mem device_pubkey peer_pubkey aes_key rx_buffer iv challenge
           peer_challenge];
      repeat split; buffer_length |].
  all: split;
    [ rewrite ?(existsb_skip_console _ _ _ console_no_link Hcons),
        ?(existsb_console _ _ console_no_link Hcons);
      eval_log; rewrite ?length_firstn; buffer_length;
      repeat match goal with
             | |- context [?a =? ?b] =>
                 rewrite (proj2 (Z.eqb_eq a b)) by (try reflexivity; lia)
             end;
      reflexivity |].
  all: intros r Hr; try discriminate Hr.
  all: apply Ret_inj in Hr; subst r; cbn [fst snd]; split; buffer_length.
Qed.

Lemma perform_key_exchange_keeps_rx (s s' : State W) o evs :
  perform_key_exchange P s = (o, s', evs) ->
  rx_buffer (mem s') = rx_buffer (mem s).
Proof.
  intros H. destruct s as [w g]. destruct g as [g1 g2 g3 g4 g5 g6 g7].
  unfold perform_key_exchange, verify_peer_public_key, sign_message,
    derive_shared_secret in H.
  run H.
  all: finish H; reflexivity.
Qed.

Lemma main_handshake_keeps_rx fuel j (s s' : State W) o evs :
  main_handshake P fuel j s = (o, s', evs) ->
  rx_buffer (mem s') = rx_buffer (mem s).
Proof.
  intros H.
  apply (@main_handshake_ind _ P
           (fun g => rx_buffer g = rx_buffer (mem s)) (fun _ _ => True)) in H.
  - exact (proj1 H).
  - exact I.
  - intros; exact I.
  - intros; exact I.
  - intros; exact I.
  - intros s0 s1 o0 e0 H0 H1. split; [|exact I].
    rewrite (perform_key_exchange_keeps_rx _ H1). exact H0.
  - reflexivity.
Qed.

(** A turn leaves in [rx_buffer] the line it echoed, followed by zeros. *)
Lemma main_turn_line (s s' : State W) enc tag o evs :
  main_turn P enc tag s = (o, s', evs) ->
  exists line,
    observe console_sent evs = prompt :: map (fun c => [c]) line
    /\ rx_buffer (mem s') = line ++ repeat x00 (128 - length line)
    /\ (length line <= 127)%nat.
Proof.
  intros H. destruct s as [w g]. destruct g as [g1 g2 g3 g4 g5 g6 g7].
  run_turn H.
  all: finish H.
  all: match goal with
       | Hr : receive_user_input P _ = _ |- _ =>
           destruct (receive_user_input_reads P _ Hr)
             as (len' & line & rxs & last & _ & Hmem & Hshort & _ & _ & _
                 & _ & _ & Hecho & _)
       end.
  all: apply (f_equal rx_buffer) in Hmem;
    cbn [mem rx_buffer set_rx_buffer] in Hmem.
  all: exists line.
  all: split;
    [ rewrite !observe_app, Hecho, ?observe_rng by reflexivity;
      cbn [observe console_sent app]; rewrite app_nil_r; reflexivity |].
  all: split; [exact Hmem | exact Hshort].
Qed.

(** After the turns of the messaging loop, [rx_buffer] holds the line
    echoed since the last prompt. *)
Lemma main_loop_line fuel :
  forall enc tag (s s' : State W) o evs,
    main_loop P fuel enc tag s = (o, s', evs) ->
    (observe console_sent evs = []
     /\ rx_buffer (mem s') = rx_buffer (mem s))
    \/ (exists rest,
          observe console_sent evs = prompt :: rest
          /\ rx_buffer (mem s')
             = echoed_line [] rest
               ++ repeat x00 (128 - length (echoed_line [] rest))
          /\ (length (echoed_line [] rest) <= 127)%nat).
Proof.
  induction fuel as [|fuel IH]; intros enc tag s s' o evs H.
  - cbn [main_loop] in H. unfold out_of_fuel in H.
    injection H as _ <- <-. left. split; reflexivity.
  - cbn [main_loop] in H. unfold bind in H.
    destruct (main_turn P enc tag s) as [[o1 s1] e1] eqn:Hturn.
    destruct (main_turn_line _ _ _ Hturn) as (line & Hsent & Hrx & Hlen).
    assert (Hone : echoed_line [] (map (fun c => [c]) line) = line)
      by (rewrite <- (app_nil_r (map _ line)), echoed_line_singles;
          reflexivity).
    right.
    destruct o1 as [r| |].
    + destruct (main_loop P fuel (fst r) (snd r) s1) as [[o2 s2] e2] eqn:Hloop.
      injection H as _ <- <-.
      rewrite observe_app, Hsent.
      destruct (IH _ _ _ _ _ _ Hloop)
        as [[Hq Hsame] | (rest & Hq & Hrest & Hshort)]; rewrite Hq.
      * exists (map (fun c => [c]) line). rewrite app_nil_r.
        split; [reflexivity|]. rewrite Hone, Hsame. split; assumption.
      * exists (map (fun c => [c]) line ++ prompt :: rest).
        split; [reflexivity|].
        rewrite echoed_line_singles, echoed_line_prompt.
        split; assumption.
    + injection H as _ <- <-.
      exists (map (fun c => [c]) line). split; [exact Hsent|].
      rewrite Hone. split; assumption.
    + injection H as _ <- <-.
      exists (map (fun c => [c]) line). split; [exact Hsent|].
      rewrite Hone. split; assumption.
Qed.

Lemma main_line fuel (s s' : State W) o evs :
  main P fuel s = (o, s', evs) ->
  (observe console_sent evs = []
   /\ rx_buffer (mem s') = rx_buffer (mem s))
  \/ (exists rest,
        observe console_sent evs = prompt :: rest
        /\ rx_buffer (mem s')
           = echoed_line [] rest
             ++ repeat x00 (128 - length (echoed_line [] rest))
        /\ (length (echoed_line [] rest) <= 127)%nat).
Proof.
  intros H. unfold main in H. unfold bind at 1 in H.
  destruct (main_boot P s) as [[ob sb] eb] eqn:Hboot.
  destruct (@main_boot_frame _ P _ _ _ _ Hboot) as (_ & Hcb & _).
  assert (Hrb : rx_buffer (mem sb) = rx_buffer (mem s)).
  { destruct (main_boot_run P _ Hboot) as (_ & _ & _ & _ & _ & Hmem).
    destruct Hmem as [-> | [pk ->]]; [reflexivity|].
    destruct (mem s); reflexivity. }
  apply console_sent_quiet in Hcb.
  destruct ob as [[]| |];
    try (injection H as _ <- <-; left; split; assumption).
  unfold bind at 1 in H.
  destruct (main_handshake P fuel 0 sb) as [[oh sh] eh] eqn:Hhs.
  destruct (@main_handshake_keys _ P _ _ _ _ _ _ Hhs) as (_ & Hch & _).
  apply console_sent_quiet in Hch.
  pose proof (main_handshake_keeps_rx _ _ _ Hhs) as Hrh.
  destruct oh as [[]| |];
    try (injection H as _ <- <-; left;
         rewrite observe_app, Hcb, Hch, Hrh; split; [reflexivity | exact Hrb]).
  destruct (main_loop P fuel (memset0 RX_BUFFER_SIZE) (memset0 AES_TAG_SIZE) sh)
    as [[ol sl] el] eqn:Hloop.
  injection H as _ <- <-.
  rewrite !observe_app, Hcb, Hch. cbn [app].
  destruct (main_loop_line _ _ _ _ Hloop)
    as [[Hq Hsame] | (rest & Hq & Hrest & Hshort)].
  - left. split; [exact Hq|]. rewrite Hsame, Hrh. exact Hrb.
  - right. exists rest. split; [exact Hq|]. split; assumption.
Qed.

(** X8.  Started with its global buffers at their declared sizes, [main]
    keeps them so: every write it makes into [device_pubkey],
    [peer_pubkey], [aes_key], [iv], [challenge] and [peer_challenge] stays
    within the buffer, and every transmission on the SATCOM link is given
    exactly as many bytes as it announces, so none reads past the end of
    its source.  [rx_buffer] is written only by the input loop, and every
    character the loop echoes lands in it: as long as nothing was written
    to the console [rx_buffer] is what it was, and afterwards it holds
    the characters echoed since the last prompt, at most 127, followed by
    zeros up to its 128 bytes. *)
Theorem main_buffers_sized fuel (s s' : State W) o evs :
  buffers_sized (mem s) = true ->
  main P fuel s = (o, s', evs) ->
  buffers_sized (mem s') = true
  /\ existsb link_tx_overread evs = false
  /\ ((observe console_sent evs = []
       /\ rx_buffer (mem s') = rx_buffer (mem s))
      \/ (exists rest,
            observe console_sent evs = prompt :: rest
            /\ rx_buffer (mem s')
               = echoed_line [] rest
                 ++ repeat x00 (128 - length (echoed_line [] rest))
            /\ (length (echoed_line [] rest) <= 127)%nat)).
Proof.
  intros Hs H. pose proof (@main_line _ _ _ _ _ H) as Hline.
  apply (@main_ind _ P (fun g => buffers_sized g = true)
           (fun enc tag => length enc = 128%nat /\ length tag = 16%nat)
           (fun _ t => existsb link_tx_overread t = false)) in H.
  - destruct H as (_ & Hsized & Hfit).
    split; [exact Hsized|]. split; [exact Hfit | exact Hline].
  - reflexivity.
  - intros a b _ Ha Hb. rewrite existsb_app, Ha, Hb. reflexivity.
  - reflexivity.
  - reflexivity.
  - split; reflexivity.
  - intros s0 s1 o0 e0 H0 H1. exact (@main_boot_sized _ _ _ _ H0 H1).
  - intros s0 s1 o0 e0 H0 H1. exact (@perform_key_exchange_sized _ _ _ _ H0 H1).
  - intros enc tag s0 s1 o0 e0 H0 Hl H1. exact (@main_turn_sized _ _ _ _ _ _ H0 Hl H1).
  - exact Hs.
Qed.

End BufferSizes.

(** ** The messaging loop sets nothing up again *)

Lemma console_no_setup e :
  console_event e = true -> session_setup_call e = false.
Proof.
  destruct e as [R c r]. destruct c; try discriminate;
    destruct u; try discriminate; reflexivity.
Qed.

Lemma existsb_drop_until (p q : Event -> bool) t :
  existsb p t = false -> existsb p (drop_until q t) = false.
Proof.
  induction t as [|e t IH]; [reflexivity|].
  cbn [existsb drop_until]. intros H. apply orb_false_iff in H.
  destruct H as [_ Ht]. destruct (q e); [exact Ht | exact (IH Ht)].
Qed.

Section SteadyState.

Context {W : Type} (P : Platform W).

Lemma main_turn_no_setup (s s' : State W) enc tag o evs :
  main_turn P enc tag s = (o, s', evs) ->
  existsb session_setup_call evs = false.
Proof.
  intros H. destruct s as [w g]. destruct g as [g1 g2 g3 g4 g5 g6 g7].
  run_turn H.
  all: finish H.
  all: rewrite ?(existsb_skip_console _ _ _ console_no_setup Hcons),
         ?(existsb_console _ _ console_no_setup Hcons).
  all: eval_log; reflexivity.
Qed.

Lemma main_loop_no_setup fuel :
  forall enc tag (s s' : State W) o evs,
    main_loop P fuel enc tag s = (o, s', evs) ->
    existsb session_setup_call evs = false.
Proof.
  intros enc tag s s' o evs H.
  apply (@main_loop_ind _ P (fun _ => True) (fun _ _ => True)
           (fun _ t => existsb session_setup_call t = false)) in H.
  - exact (proj2 (proj2 H)).
  - reflexivity.
  - intros a b _ Ha Hb. rewrite existsb_app, Ha, Hb. reflexivity.
  - intros enc0 tag0 s0 s1 o0 e0 _ _ H0.
    split; [exact I|]. split; [exact (main_turn_no_setup _ _ _ H0)|].
    intros; exact I.
  - exact I.
  - exact I.
Qed.

(** X9.  Once the messaging loop runs, the firmware only prompts, reads
    the console, draws random numbers, encrypts, signs and transmits: it
    never receives on the SATCOM link, never runs the key agreement or a
    signature verification again, never generates a key, never
    reconfigures the hardware and never waits.  In a run of [main] all
    such calls come before the first console traffic. *)
Theorem main_loop_send_only :
  (forall fuel enc tag (s s' : State W) o evs,
      main_loop P fuel enc tag s = (o, s', evs) ->
      existsb session_setup_call evs = false)
  /\ (forall fuel (s s' : State W) o evs,
        main P fuel s = (o, s', evs) ->
        existsb session_setup_call (drop_until console_event evs) = false).
Proof.
  split; [exact main_loop_no_setup|].
  intros fuel s s' o evs H.
  unfold main in H. unfold bind at 1 in H.
  destruct (main_boot P s) as [[ob sb] eb] eqn:Hboot.
  destruct (@main_boot_frame _ P _ _ _ _ Hboot) as (_ & Hcb & _).
  destruct ob as [[]| |];
    try (injection H as _ _ <-;
         rewrite <- (app_nil_r eb), (drop_until_app _ _ _ Hcb); reflexivity).
  unfold bind at 1 in H.
  destruct (main_handshake P fuel 0 sb) as [[oh sh] eh] eqn:Hhs.
  destruct (@main_handshake_keys _ P _ _ _ _ _ _ Hhs) as (_ & Hch & _).
  destruct oh as [[]| |];
    try (injection H as _ _ <-;
         rewrite (drop_until_app _ _ _ Hcb),
           <- (app_nil_r eh), (drop_until_app _ _ _ Hch); reflexivity).
  destruct (main_loop P fuel (memset0 RX_BUFFER_SIZE) (memset0 AES_TAG_SIZE) sh)
    as [[ol sl] el] eqn:Hloop.
  injection H as _ _ <-.
  rewrite (drop_until_app _ _ _ Hcb), (drop_until_app _ _ _ Hch).
  apply existsb_drop_until. exact (main_loop_no_setup _ _ _ _ Hloop).
Qed.

End SteadyState.

(** ** Release of cryptographic contexts *)

Lemma filter_none (p q : Event -> bool) t :
  (forall e, q e = true -> p e = false) ->
  forallb q t = true -> filter p t = [].
Proof.
  intros Hp. induction t as [|e t IH]; [reflexivity|].
  cbn [forallb filter]. intros H. apply andb_true_iff in H.
  destruct H as [He Ht]. rewrite (Hp e He). exact (IH Ht).
Qed.

Lemma filter_rng (p : Event -> bool) rs :
  (forall r, p (rng_event r) = false) -> filter p (map rng_event rs) = [].
Proof.
  intros Hp. induction rs as [|r rs IH]; [reflexivity|].
  cbn [map filter]. rewrite Hp. exact IH.
Qed.

Lemma bring_up_no_context e :
  bring_up_call e = true ->
  aes_opened e = false /\ aes_released e = false
  /\ ecc_opened e = false /\ ecc_released e = false.
Proof.
  destruct e as [R c r]. destruct c; try discriminate; repeat split.
Qed.

Lemma console_no_context e :
  console_event e = true ->
  aes_opened e = false /\ aes_released e = false
  /\ ecc_opened e = false /\ ecc_released e = false.
Proof.
  destruct e as [R c r]. destruct c; try discriminate; repeat split.
Qed.

(** Count the entries that satisfy a test in a log made of known entries
    and of parts that [skip] rewrites away. *)
Ltac eval_filter skip :=
  repeat (cbn [filter app]; unfold_event_tests; cbn [fst snd];
          repeat match goal with
                 | E : (?z =? ?k) = _ |- _ => rewrite E
                 end;
          cbn [filter app Z.eqb Pos.eqb negb andb orb];
          skip).

Section Contexts.

Context {W : Type} (P : Platform W).

Lemma perform_key_exchange_contexts (s s' : State W) o evs :
  perform_key_exchange P s = (o, s', evs) ->
  length (filter aes_released evs) = length (filter aes_opened evs)
  /\ length (filter ecc_released evs) = length (filter ecc_opened evs).
Proof.
  intros H. destruct s as [w g]. destruct g as [g1 g2 g3 g4 g5 g6 g7].
  unfold perform_key_exchange, verify_peer_public_key, sign_message,
    derive_shared_secret in H.
  run H.
  all: finish H; split;
    eval_filter ltac:(rewrite ?filter_app, ?filter_rng by (intros; reflexivity));
    reflexivity.
Qed.

Lemma main_turn_contexts (s s' : State W) enc tag o evs :
  main_turn P enc tag s = (o, s', evs) ->
  length (filter aes_released evs) = length (filter aes_opened evs)
  /\ length (filter ecc_released evs) = length (filter ecc_opened evs).
Proof.
  intros H. destruct s as [w g]. destruct g as [g1 g2 g3 g4 g5 g6 g7].
  run_turn H.
  all: finish H.
  all: rewrite ?filter_app.
  all: rewrite
         ?(filter_none _ _ _ (fun e He => proj1 (console_no_context e He)) Hcons),
         ?(filter_none _ _ _
             (fun e He => proj1 (proj2 (console_no_context e He))) Hcons),
         ?(filter_none _ _ _
             (fun e He => proj1 (proj2 (proj2 (console_no_context e He))))
             Hcons),
         ?(filter_none _ _ _
             (fun e He => proj2 (proj2 (proj2 (console_no_context e He))))
             Hcons).
  all: split;
    eval_filter ltac:(rewrite ?filter_app, ?filter_rng by (intros; reflexivity));
    reflexivity.
Qed.

Lemma main_boot_contexts (s s' : State W) o evs :
  main_boot P s = (o, s', evs) ->
  length (filter aes_released evs) = length (filter aes_opened evs)
  /\ length (filter ecc_released evs) = length (filter ecc_opened evs).
Proof.
  intros H.
  destruct (main_boot_run P _ H) as (pre & tail & -> & Hpre & Hcase & _).
  rewrite !filter_app.
  rewrite
    (filter_none _ _ _ (fun e He => proj1 (bring_up_no_context e He)) Hpre),
    (filter_none _ _ _
       (fun e He => proj1 (proj2 (bring_up_no_context e He))) Hpre),
    (filter_none _ _ _
       (fun e He => proj1 (proj2 (proj2 (bring_up_no_context e He)))) Hpre),
    (filter_none _ _ _
       (fun e He => proj2 (proj2 (proj2 (bring_up_no_context e He)))) Hpre).
  destruct Hcase as [(_ & -> & _) | (_ & [u ->] & _)]; split; reflexivity.
Qed.

(** X10.  In every run of [main], whatever its outcome, each AES context
    that [wc_AesInit] set up was released by [wc_AesFree], and each call
    of [wc_ecc_init] was matched by a call of [wc_ecc_free]: the error
    paths, those that lead to [Error_Handler] included, release the
    context before they leave. *)
Theorem main_contexts_released fuel (s s' : State W) o evs :
  main P fuel s = (o, s', evs) ->
  length (filter aes_released evs) = length (filter aes_opened evs)
  /\ length (filter ecc_released evs) = length (filter ecc_opened evs).
Proof.
  intros H.
  apply (@main_ind _ P (fun _ => True) (fun _ _ => True)
           (fun _ t =>
              length (filter aes_released t) = length (filter aes_opened t)
              /\ length (filter ecc_released t)
                 = length (filter ecc_opened t))) in H.
  - exact (proj2 (proj2 H)).
  - split; reflexivity.
  - intros a b _ [Ha1 Ha2] [Hb1 Hb2].
    rewrite !filter_app, !length_app, Ha1, Ha2, Hb1, Hb2.
    split; reflexivity.
  - intros u. split; reflexivity.
  - intros u. split; reflexivity.
  - exact I.
  - intros s0 s1 o0 e0 _ H0.
    split; [exact I | exact (main_boot_contexts _ H0)].
  - intros s0 s1 o0 e0 _ H0.
    split; [exact I | exact (perform_key_exchange_contexts _ H0)].
  - intros enc tag s0 s1 o0 e0 _ _ H0.
    split; [exact I|]. split; [exact (main_turn_contexts _ _ _ H0)|].
    intros; exact I.
  - exact I.
Qed.

End Contexts.

(** ** From the console to the cipher *)

Lemma firstn_length_app {A} (l1 l2 : list A) :
  firstn (length l1) (l1 ++ l2) = l1.
Proof.
  rewrite firstn_app, Nat.sub_diag, firstn_O, app_nil_r.
  apply firstn_all.
Qed.

Lemma console_not_hashed e : console_event e = true -> hashed_of e = None.
Proof. destruct e as [R c r]. destruct c; try discriminate; reflexivity. Qed.

Section Plaintext.

Context {W : Type} (P : Platform W).

(** X11.  In a turn of the messaging loop, what is encrypted and what is
    signed is exactly the line typed: the characters echoed on the
    console, without the terminating carriage return or line feed, at
    most 127 of them.  The turn asks for at most one encryption and one
    hash, both of this line with its exact length. *)
Theorem main_turn_plaintext (s s' : State W) enc tag o evs :
  main_turn P enc tag s = (o, s', evs) ->
  exists line,
    observe console_sent evs = prompt :: map (fun c => [c]) line
    /\ existsb is_newline line = false
    /\ (length line <= 127)%nat
    /\ (length (encryptions evs) <= 1)%nat
    /\ Forall (fun x => fst x = (line, Z.of_nat (length line)))
              (encryptions evs)
    /\ Forall (eq (line, Z.of_nat (length line))) (observe hashed_of evs).
Proof.
  intros H. destruct s as [w g]. destruct g as [g1 g2 g3 g4 g5 g6 g7].
  run_turn H.
  all: finish H.
  all: match goal with
       | Hr : receive_user_input P _ = _ |- _ =>
           destruct (receive_user_input_reads P _ Hr)
             as (len' & line & rxs & last & Ho & Hmem & Hshort & _ & _ & _
                 & _ & Hnl & Hecho & Hcase)
       end.
  all: apply Ret_inj in Ho; subst len'.
  all: apply (f_equal rx_buffer) in Hmem;
    cbn [mem rx_buffer set_rx_buffer] in Hmem.
  all: exists line.
  all: assert (Hl : 0 < len -> Z.to_nat len = length line)
    by (intros Hpos;
        destruct Hcase as [(_ & Hn & Hm) | [(st & d & _ & _ & Hn)
                                           | (b' & d & _ & _ & Hn)]]; lia).
  all: split;
    [ rewrite !observe_app, Hecho, ?observe_rng by reflexivity;
      cbn [observe console_sent app]; rewrite app_nil_r; reflexivity |].
  all: split; [exact Hnl|]; split; [exact Hshort|].
  all: observe_with encryptions encryption_of console_no_encryption.
  all: cbn [app observe hashed_of snd];
    rewrite ?observe_app;
    rewrite ?(observe_console _ _ console_not_hashed) by assumption;
    rewrite ?observe_rng by reflexivity;
    cbn [app observe hashed_of snd]; rewrite ?app_nil_r.
  all: split; [cbn [length]; lia|].
  all: rewrite ?Hl by lia; subst rx; rewrite ?firstn_length_app.
  all: assert (Hz : 0 < len -> len = Z.of_nat (length line))
    by (intros Hpos; rewrite <- Hl by lia; lia).
  all: split; repeat constructor; cbn [fst]; rewrite <- ?Hz by lia;
    reflexivity.
Qed.

End Plaintext.

(** * Concrete runs on the simulated platform *)


Lemma perform_key_exchange_order_witness :
  exists s' evs,
    perform_key_exchange Sim.platform (Sim.boot [] []) = (Ret ATCA_SUCCESS, s', evs)
    /\ map (fun op => match op with TSend _ n => (true, n) | TRecv n _ => (false, n) end)
           (transport_ops evs)
       = [(true, 64); (false, 64); (true, 32); (false, 64); (false, 32);
          (true, 64)].
Proof.
  pose (run := perform_key_exchange Sim.platform (Sim.boot [] [])).
  assert (H : perform_key_exchange Sim.platform (Sim.boot [] [])
              = (Ret ATCA_SUCCESS, Sim.state_of run, Sim.log_of run))
    by (vm_compute; reflexivity).
  exists (Sim.state_of run), (Sim.log_of run). split; [exact H|].
  destruct (@perform_key_exchange_order _ Sim.platform _ _ _ H)
    as (peer_pk & rng & peer_sig & dig_c & e1 & e2 & peer_ch & dig_p & sig
        & shared & dig_s & _ & Hops & _).
  rewrite Hops. reflexivity.
Defined.

Lemma derive_shared_secret_key_witness :
  exists s' evs digest,
    derive_shared_secret Sim.platform (Sim.boot [] [])
    = (Ret ATCA_SUCCESS, s', evs)
    /\ firstn 16 (aes_key (mem s')) = firstn 16 (fill 32 digest).
Proof.
  pose (run := derive_shared_secret Sim.platform (Sim.boot [] [])).
  assert (H : derive_shared_secret Sim.platform (Sim.boot [] [])
              = (Ret ATCA_SUCCESS, Sim.state_of run, Sim.log_of run))
    by (vm_compute; reflexivity).
  destruct (@derive_shared_secret_key _ Sim.platform _ _ _ _ H)
    as (r & Hr & Hok & _).
  apply Ret_inj in Hr.
  destruct (Hok (eq_sym Hr)) as (shared & digest & _ & _ & _ & Hkey).
  exists (Sim.state_of run), (Sim.log_of run), digest.
  split; [exact H | exact Hkey].
Defined.

Lemma main_turn_frame_witness :
  exists enc' tag' s' evs cipher tagv,
    main_turn Sim.platform (memset0 128) (memset0 16) (Sim.boot [] Sim.ping)
    = (Ret (enc', tag'), s', evs)
    /\ length (transport_ops evs) = 4%nat
    /\ enc' = memcpy (memset0 128) 0 cipher 4
    /\ tag' = memcpy (memset0 16) 0 tagv AES_TAG_SIZE.
Proof.
  pose (run := main_turn Sim.platform (memset0 128) (memset0 16)
                         (Sim.boot [] Sim.ping)).
  pose (out := match fst (fst run) with
               | Ret r => r
               | _ => ([], [])
               end).
  assert (H : main_turn Sim.platform (memset0 128) (memset0 16)
                        (Sim.boot [] Sim.ping)
              = (Ret (fst out, snd out), Sim.state_of run, Sim.log_of run))
    by (vm_compute; reflexivity).
  destruct (@main_turn_frame _ Sim.platform (Sim.boot [] Sim.ping) _
              (memset0 128) (memset0 16) _ _ _ eq_refl eq_refl eq_refl H)
    as (len & s1 & typed & Hrun & _
        & [(_ & _ & _ & _ & _ & Hnone & _)
          | (_ & rng & cipher & tagv & u & digest & sig
             & _ & _ & Henc & Htag & _ & _ & _ & _ & _ & Hops & _)]).
  - vm_compute in Hnone. discriminate Hnone.
  - apply (f_equal (fun r => fst (fst r))) in Hrun.
    vm_compute in Hrun. apply Ret_inj in Hrun. subst len.
    exists (fst out), (snd out), (Sim.state_of run), (Sim.log_of run),
      cipher, tagv.
    split; [exact H|]. split; [rewrite Hops; reflexivity|].
    split; [exact Henc | exact Htag].
Defined.


Lemma verify_peer_authentication_witness :
  (exists s' evs,
      verify_peer_public_key Sim.platform (Sim.boot [] [])
      = (Ret ATCA_SUCCESS, s', evs)
      /\ existsb auth_rejected evs <> true)
  /\ (exists s' evs e,
        perform_key_exchange Sim.platform (Sim.boot [18%nat] [])
        = (Ret ATCA_FUNC_FAIL, s', evs)
        /\ drop_until auth_rejected evs = [Ev wc_ecc_free e]).
Proof.
  destruct (@verify_peer_authentication _ Sim.platform) as [Hstep Hrun].
  split.
  - pose (run := verify_peer_public_key Sim.platform (Sim.boot [] [])).
    assert (H : verify_peer_public_key Sim.platform (Sim.boot [] [])
                = (Ret ATCA_SUCCESS, Sim.state_of run, Sim.log_of run))
      by (vm_compute; reflexivity).
    exists (Sim.state_of run), (Sim.log_of run). split; [exact H|].
    destruct (Hstep _ _ _ _ H) as (r & Hr & _ & Hfail & _).
    apply Ret_inj in Hr. subst r.
    intros Hrej. apply Hfail in Hrej. discriminate Hrej.
  - pose (run := perform_key_exchange Sim.platform (Sim.boot [18%nat] [])).
    assert (H : perform_key_exchange Sim.platform (Sim.boot [18%nat] [])
                = (Ret ATCA_FUNC_FAIL, Sim.state_of run, Sim.log_of run))
      by (vm_compute; reflexivity).
    assert (Hrej : existsb auth_rejected (Sim.log_of run) = true)
      by (vm_compute; reflexivity).
    destruct (Hrun _ _ _ _ H Hrej) as [_ [e He]].
    exists (Sim.state_of run), (Sim.log_of run), e.
    split; [exact H | exact He].
Defined.

(** A line of 128 characters is not rejected: the loop goes on, the first
    127 characters are encrypted as one plaintext and the 128th as the
    next. *)
Lemma oversized_line_not_rejected :
  length Sim.long_line = 129%nat
  /\ fst (fst (main Sim.platform 2 (Sim.boot [] Sim.long_line))) = OutOfFuel
  /\ map (fun x => fst (fst x))
         (encryptions
            (Sim.log_of (main Sim.platform 2 (Sim.boot [] Sim.long_line))))
     = [repeat x41 127; [x41]].
Proof. vm_compute. repeat split. Qed.

Lemma plaintext_bound_witness :
  exists o s' evs,
    main_turn Sim.platform (memset0 128) (memset0 16)
              (Sim.boot [] Sim.long_line) = (o, s', evs)
    /\ encryptions evs <> []
    /\ Forall (fun x => 1 <= snd (fst x) <= 127) (encryptions evs).
Proof.
  pose (run := main_turn Sim.platform (memset0 128) (memset0 16)
                         (Sim.boot [] Sim.long_line)).
  assert (H : main_turn Sim.platform (memset0 128) (memset0 16)
                        (Sim.boot [] Sim.long_line)
              = (fst (fst run), Sim.state_of run, Sim.log_of run))
    by (vm_compute; reflexivity).
  exists (fst (fst run)), (Sim.state_of run), (Sim.log_of run).
  split; [exact H|]. split; [vm_compute; discriminate|].
  destruct (@plaintext_bound _ Sim.platform _ _ _ _ _ _ H)
    as (len & s1 & cons & rest & _ & _ & _ & _ & _ & Hall).
  revert Hall. apply Forall_impl. intros x (Hx & Hlen & _).
  destruct x as [[plain n] nonce]. cbn [fst snd] in Hx |- *.
  apply (f_equal snd) in Hx. cbn [snd] in Hx. subst n. exact Hlen.
Defined.

Lemma main_handshake_retries_witness :
  (exists s s1 s2 e1 e2,
      failed_attempts Sim.platform 1 s s1 e1
      /\ perform_key_exchange Sim.platform s1 = (Ret ATCA_SUCCESS, s2, e2)
      /\ main_handshake Sim.platform 2 0 s = (Ret tt, s2, e1 ++ e2))
  /\ (exists s' evs,
        main Sim.platform 3 (Sim.boot [22; 24; 26]%nat []) = (Halted, s', evs)
        /\ main Sim.platform 7 (Sim.boot [22; 24; 26]%nat []) = (Halted, s', evs)).
Proof.
  destruct (@main_handshake_retries _ Sim.platform) as (Hok & Hstop & _).
  split.
  - pose (boot := main_boot Sim.platform (Sim.boot [22%nat] [])).
    assert (Hboot : main_boot Sim.platform (Sim.boot [22%nat] [])
                    = (Ret tt, Sim.state_of boot, Sim.log_of boot))
      by (vm_compute; reflexivity).
    assert (Hfail : exists s1 e1,
               failed_attempts Sim.platform 1 (Sim.state_of boot) s1 e1
               /\ exists s2 e2,
                   perform_key_exchange Sim.platform s1
                   = (Ret ATCA_SUCCESS, s2, e2)).
    { do 2 eexists. split.
      - eapply failed_attempt;
          [vm_compute; reflexivity | discriminate | vm_compute; reflexivity
          | apply no_attempt].
      - do 2 eexists. vm_compute. reflexivity. }
    destruct Hfail as (s1 & e1 & Hfail & s2 & e2 & Hrun).
    exists (Sim.state_of boot), s1, s2, e1, e2.
    split; [exact Hfail|]. split; [exact Hrun|].
    exact (proj1 (Hok 1%nat 2%nat _ _ _ _ _ _ _ Hboot ltac:(reflexivity)
                      ltac:(repeat constructor) Hfail Hrun)).
  - pose (boot := main_boot Sim.platform (Sim.boot [22; 24; 26]%nat [])).
    assert (Hboot : main_boot Sim.platform (Sim.boot [22; 24; 26]%nat [])
                    = (Ret tt, Sim.state_of boot, Sim.log_of boot))
      by (vm_compute; reflexivity).
    assert (Hfail : exists s1 e1,
               failed_attempts Sim.platform 2 (Sim.state_of boot) s1 e1
               /\ exists r s2 e2 u w,
                   perform_key_exchange Sim.platform s1 = (Ret r, s2, e2)
                   /\ r <> ATCA_SUCCESS
                   /\ Sim.platform disable_irq (world s2) = (u, w)).
    { do 2 eexists. split.
      - eapply failed_attempt;
          [vm_compute; reflexivity | discriminate | vm_compute; reflexivity|].
        eapply failed_attempt;
          [vm_compute; reflexivity | discriminate | vm_compute; reflexivity
          | apply no_attempt].
      - do 5 eexists. split; [vm_compute; reflexivity|].
        split; [discriminate | vm_compute; reflexivity]. }
    destruct Hfail as (s1 & e1 & Hfail & r & s2 & e2 & u & w & Hrun & Hr & Hirq).
    eexists. eexists. split.
    + exact (proj1 (Hstop 2%nat 3%nat _ _ _ _ _ _ _ _ _ _ Hboot
                          ltac:(reflexivity) ltac:(repeat constructor)
                          Hfail Hrun Hr Hirq)).
    + exact (proj1 (Hstop 2%nat 7%nat _ _ _ _ _ _ _ _ _ _ Hboot
                          ltac:(reflexivity) ltac:(repeat constructor)
                          Hfail Hrun Hr Hirq)).
Defined.

Lemma main_loop_fail_stop_witness :
  exists s' evs,
    main_loop Sim.platform 1 (memset0 128) (memset0 16)
              (Sim.boot [18%nat] Sim.ping) = (Halted, s', evs)
    /\ existsb channel_error evs = true
    /\ main_loop Sim.platform 9 (memset0 128) (memset0 16)
                 (Sim.boot [18%nat] Sim.ping) = (Halted, s', evs).
Proof.
  pose (run := main_loop Sim.platform 1 (memset0 128) (memset0 16)
                         (Sim.boot [18%nat] Sim.ping)).
  assert (H : main_loop Sim.platform 1 (memset0 128) (memset0 16)
                        (Sim.boot [18%nat] Sim.ping)
              = (Halted, Sim.state_of run, Sim.log_of run))
    by (vm_compute; reflexivity).
  assert (Herr : existsb channel_error (Sim.log_of run) = true)
    by (vm_compute; reflexivity).
  exists (Sim.state_of run), (Sim.log_of run).
  split; [exact H|]. split; [exact Herr|].
  destruct (@main_loop_fail_stop _ Sim.platform 1%nat _ _ _ _ _ _ H Herr)
    as (_ & _ & Hever).
  apply Hever. repeat constructor.
Defined.

Lemma main_turn_nonce_witness :
  exists o s' evs (rng : list (HAL_StatusTypeDef * Z)),
    main_turn Sim.platform (memset0 128) (memset0 16) (Sim.boot [] Sim.ping)
    = (o, s', evs)
    /\ length rng = 3%nat
    /\ map snd (encryptions evs) = [concat (map le_bytes (map snd rng))].
Proof.
  pose (run := main_turn Sim.platform (memset0 128) (memset0 16)
                         (Sim.boot [] Sim.ping)).
  assert (H : main_turn Sim.platform (memset0 128) (memset0 16)
                        (Sim.boot [] Sim.ping)
              = (fst (fst run), Sim.state_of run, Sim.log_of run))
    by (vm_compute; reflexivity).
  destruct (@main_turn_nonce _ Sim.platform (Sim.boot [] Sim.ping) _
              (memset0 128) (memset0 16) _ _ eq_refl H)
    as [Hnone | (cons & rng & plain & len & a & b & r & rest
                 & _ & Hrng & _ & Henc & _)].
  - vm_compute in Hnone. discriminate Hnone.
  - exists (fst (fst run)), (Sim.state_of run), (Sim.log_of run), rng.
    split; [exact H|]. split; [exact Hrng|].
    rewrite Henc. reflexivity.
Defined.

Lemma generate_random_total_witness :
  exists rs w',
    generate_random Sim.platform (memset0 32) 32 (Sim.boot [3%nat] [])
    = (Ret (firstn 32 (concat (map le_bytes (map snd rs))) ++ []),
       mkState w' globals0, map rng_event rs)
    /\ existsb call_failed (map rng_event rs) = true.
Proof.
  destruct (@generate_random_total _ Sim.platform (memset0 32) 32
              (Sim.boot [3%nat] []) ltac:(vm_compute; split; discriminate)
              ltac:(vm_compute; discriminate))
    as (rs & w' & Hrun & _).
  exists rs, w'. split; [exact Hrun|].
  apply (f_equal snd) in Hrun. cbn [snd] in Hrun.
  rewrite <- Hrun. vm_compute. reflexivity.
Defined.

(** A time-out while receiving the peer's signature makes
    [verify_peer_public_key] return [ATCA_RX_FAIL]; [perform_key_exchange]
    reports it, like every failure of that step, as [ATCA_FUNC_FAIL]. *)
Example signature_timeout_in_handshake :
  fst (fst (verify_peer_public_key Sim.platform (Sim.boot [0%nat] [])))
  = Ret ATCA_RX_FAIL
  /\ fst (fst (perform_key_exchange Sim.platform (Sim.boot [11%nat] [])))
     = Ret ATCA_FUNC_FAIL
  /\ existsb auth_rejected
       (Sim.log_of (perform_key_exchange Sim.platform (Sim.boot [11%nat] [])))
     = false.
Proof. vm_compute. repeat split. Qed.

(** ** Runs for the further properties *)


Lemma encrypt_message_outcome_witness :
  exists s' evs pre u,
    encrypt_message Sim.platform Sim.ping 4 (memset0 128) (memset0 16)
                    (Sim.boot [1%nat] [])
    = (Ret (-1, memset0 128, memset0 16), s', evs)
    /\ evs = pre ++ [Ev wc_AesFree u]
    /\ existsb aes_released pre = false.
Proof.
  pose (run := encrypt_message Sim.platform Sim.ping 4 (memset0 128)
                               (memset0 16) (Sim.boot [1%nat] [])).
  assert (H : encrypt_message Sim.platform Sim.ping 4 (memset0 128)
                              (memset0 16) (Sim.boot [1%nat] [])
              = (Ret (-1, memset0 128, memset0 16), Sim.state_of run,
                 Sim.log_of run))
    by (vm_compute; reflexivity).
  assert (Hopen : existsb aes_opened (Sim.log_of run) = true)
    by (vm_compute; reflexivity).
  destruct (@encrypt_message_outcome _ Sim.platform _ _ _ _ _ _ _ _ H)
    as (r & c & t & _ & _ & _ & _ & _ & Hfree).
  destruct (Hfree Hopen) as (pre & u & Hevs & Hpre).
  exists (Sim.state_of run), (Sim.log_of run), pre, u.
  split; [exact H|]. split; [exact Hevs | exact Hpre].
Defined.

Lemma sign_message_outcome_witness :
  exists s' evs,
    sign_message Sim.platform Sim.ping 4 (memset0 64) (Sim.boot [1%nat] [])
    = (Ret (ATCA_GEN_FAIL, memset0 64), s', evs)
    /\ existsb call_failed evs <> false.
Proof.
  pose (run := sign_message Sim.platform Sim.ping 4 (memset0 64)
                            (Sim.boot [1%nat] [])).
  assert (H : sign_message Sim.platform Sim.ping 4 (memset0 64)
                           (Sim.boot [1%nat] [])
              = (Ret (ATCA_GEN_FAIL, memset0 64), Sim.state_of run,
                 Sim.log_of run))
    by (vm_compute; reflexivity).
  exists (Sim.state_of run), (Sim.log_of run). split; [exact H|].
  destruct (@sign_message_outcome _ Sim.platform _ _ _ _ _ _ _ H)
    as (r & sig & Ho & _ & Hiff & _).
  apply Ret_inj in Ho. apply (f_equal fst) in Ho. cbn [fst] in Ho.
  intros Hx. apply Hiff in Hx. rewrite Hx in Ho. discriminate Ho.
Defined.

Lemma perform_key_exchange_fail_fast_witness :
  exists s' evs,
    perform_key_exchange Sim.platform (Sim.boot [10%nat] [])
    = (Ret ATCA_TX_FAIL, s', evs)
    /\ existsb handshake_error evs <> false
    /\ existsb operation (drop_until handshake_error evs) = false.
Proof.
  pose (run := perform_key_exchange Sim.platform (Sim.boot [10%nat] [])).
  assert (H : perform_key_exchange Sim.platform (Sim.boot [10%nat] [])
              = (Ret ATCA_TX_FAIL, Sim.state_of run, Sim.log_of run))
    by (vm_compute; reflexivity).
  exists (Sim.state_of run), (Sim.log_of run). split; [exact H|].
  destruct (@perform_key_exchange_fail_fast _ Sim.platform _ _ _ _ H)
    as (r & Ho & Hiff & Hstop).
  apply Ret_inj in Ho. split; [|exact Hstop].
  intros Hx. apply Hiff in Hx. rewrite Hx in Ho. discriminate Ho.
Defined.

Lemma perform_key_exchange_writes_witness :
  exists s' evs pk,
    perform_key_exchange Sim.platform (Sim.boot [18%nat] [])
    = (Ret ATCA_FUNC_FAIL, s', evs)
    /\ device_pubkey (mem s') = memset0 64
    /\ peer_pubkey (mem s') = memcpy (memset0 64) 0 pk 64.
Proof.
  pose (run := perform_key_exchange Sim.platform (Sim.boot [18%nat] [])).
  assert (H : perform_key_exchange Sim.platform (Sim.boot [18%nat] [])
              = (Ret ATCA_FUNC_FAIL, Sim.state_of run, Sim.log_of run))
    by (vm_compute; reflexivity).
  destruct (@perform_key_exchange_writes _ Sim.platform _ _ _ _ H)
    as (Hdev & _ & _ & Hpeer & _).
  eassert (Hops : transport_ops (Sim.log_of run)
                  = TSend _ _ :: TRecv 64 _ :: _)
    by (vm_compute; reflexivity).
  eexists (Sim.state_of run), (Sim.log_of run), _.
  split; [exact H|]. split; [exact Hdev|].
  exact (Hpeer _ _ _ _ Hops).
Defined.

Lemma main_boot_fail_stop_witness :
  exists s' evs pre u,
    main_boot Sim.platform (Sim.boot [8%nat] []) = (Halted, s', evs)
    /\ evs = pre ++ [Ev disable_irq u]
    /\ forallb bring_up_call pre = true
    /\ drop_until boot_error pre = [].
Proof.
  pose (run := main_boot Sim.platform (Sim.boot [8%nat] [])).
  assert (H : main_boot Sim.platform (Sim.boot [8%nat] [])
              = (Halted, Sim.state_of run, Sim.log_of run))
    by (vm_compute; reflexivity).
  destruct (@main_boot_fail_stop _ Sim.platform _ _ _ _ H)
    as (pre & tail & Hevs & Hpre & Hcase & _).
  destruct Hcase as [(Ho & _) | (_ & [u Htail] & _ & Hdrop)];
    [discriminate Ho|].
  exists (Sim.state_of run), (Sim.log_of run), pre, u.
  split; [exact H|]. split; [rewrite Hevs, Htail; reflexivity|].
  split; [exact Hpre | exact Hdrop].
Defined.

Lemma main_never_returns_witness :
  exists s' evs,
    main Sim.platform 3 (Sim.boot [22; 24; 26]%nat []) = (Halted, s', evs)
    /\ existsb interrupts_masked evs = true
    /\ drop_until interrupts_masked evs = [].
Proof.
  pose (run := main Sim.platform 3 (Sim.boot [22; 24; 26]%nat [])).
  assert (H : main Sim.platform 3 (Sim.boot [22; 24; 26]%nat [])
              = (Halted, Sim.state_of run, Sim.log_of run))
    by (vm_compute; reflexivity).
  exists (Sim.state_of run), (Sim.log_of run). split; [exact H|].
  destruct (@main_never_returns _ Sim.platform _ _ _ _ _ H)
    as (_ & Hiff & Hlast).
  split; [exact (proj1 Hiff eq_refl) | exact Hlast].
Defined.

Lemma main_buffers_sized_witness :
  exists o s' evs rest,
    main Sim.platform 1 (Sim.boot [] Sim.ping) = (o, s', evs)
    /\ buffers_sized (mem s') = true
    /\ existsb link_tx_overread evs = false
    /\ observe console_sent evs = prompt :: rest
    /\ echoed_line [] rest = [x50; x49; x4e; x47]
    /\ rx_buffer (mem s')
       = echoed_line [] rest
         ++ repeat x00 (128 - length (echoed_line [] rest)).
Proof.
  pose (run := main Sim.platform 1 (Sim.boot [] Sim.ping)).
  assert (H : main Sim.platform 1 (Sim.boot [] Sim.ping)
              = (fst (fst run), Sim.state_of run, Sim.log_of run))
    by (vm_compute; reflexivity).
  destruct (@main_buffers_sized _ Sim.platform _ (Sim.boot [] Sim.ping) _ _ _
              eq_refl H)
    as (Hsized & Hfit & [[Hq _] | (rest & Hq & Hrx & _)]).
  - vm_compute in Hq. discriminate Hq.
  - exists (fst (fst run)), (Sim.state_of run), (Sim.log_of run), rest.
    split; [exact H|]. split; [exact Hsized|]. split; [exact Hfit|].
    split; [exact Hq|]. split; [|exact Hrx].
    assert (Hr : rest = tl (observe console_sent (Sim.log_of run)))
      by (rewrite Hq; reflexivity).
    rewrite Hr. vm_compute. reflexivity.
Defined.

Lemma main_loop_send_only_witness :
  exists o s' evs,
    main Sim.platform 2 (Sim.boot [] Sim.ping) = (o, s', evs)
    /\ existsb session_setup_call evs = true
    /\ existsb session_setup_call (drop_until console_event evs) = false.
Proof.
  pose (run := main Sim.platform 2 (Sim.boot [] Sim.ping)).
  assert (H : main Sim.platform 2 (Sim.boot [] Sim.ping)
              = (fst (fst run), Sim.state_of run, Sim.log_of run))
    by (vm_compute; reflexivity).
  exists (fst (fst run)), (Sim.state_of run), (Sim.log_of run).
  split; [exact H|]. split; [vm_compute; reflexivity|].
  exact (proj2 (@main_loop_send_only _ Sim.platform) _ _ _ _ _ H).
Defined.

Lemma main_contexts_released_witness :
  exists o s' evs,
    main Sim.platform 2 (Sim.boot [] Sim.ping) = (o, s', evs)
    /\ filter aes_opened evs <> []
    /\ length (filter aes_released evs) = length (filter aes_opened evs)
    /\ length (filter ecc_released evs) = length (filter ecc_opened evs).
Proof.
  pose (run := main Sim.platform 2 (Sim.boot [] Sim.ping)).
  assert (H : main Sim.platform 2 (Sim.boot [] Sim.ping)
              = (fst (fst run), Sim.state_of run, Sim.log_of run))
    by (vm_compute; reflexivity).
  exists (fst (fst run)), (Sim.state_of run), (Sim.log_of run).
  split; [exact H|]. split; [vm_compute; discriminate|].
  exact (@main_contexts_released _ Sim.platform _ _ _ _ _ H).
Defined.

Lemma main_turn_plaintext_witness :
  exists o s' evs line,
    main_turn Sim.platform (memset0 128) (memset0 16) (Sim.boot [] Sim.ping)
    = (o, s', evs)
    /\ encryptions evs <> []
    /\ Forall (fun x => fst x = (line, Z.of_nat (length line)))
              (encryptions evs).
Proof.
  pose (run := main_turn Sim.platform (memset0 128) (memset0 16)
                         (Sim.boot [] Sim.ping)).
  assert (H : main_turn Sim.platform (memset0 128) (memset0 16)
                        (Sim.boot [] Sim.ping)
              = (fst (fst run), Sim.state_of run, Sim.log_of run))
    by (vm_compute; reflexivity).
  destruct (@main_turn_plaintext _ Sim.platform _ _ _ _ _ _ H)
    as (line & _ & _ & _ & _ & Henc & _).
  exists (fst (fst run)), (Sim.state_of run), (Sim.log_of run), line.
  split; [exact H|]. split; [vm_compute; discriminate | exact Henc].
Defined.
